(** * FactChecker backend: the forensic verdict engine, embedded and verified

    A shallow embedding of the scoring and job-lifecycle code of the backend:

    - [services/image_forensics.py]   (ELA + CNN signals and their combination)
    - [services/pdf_forensics.py]     (risk scoring and verdict thresholds)
    - [services/intelligence_analysis.py] (credibility score)
    - [services/storage.py], [api/routes/upload.py], [api/routes/public.py]
      (content hashing and file registration)
    - [api/routes/analyze.py]         (analysis requests and background tasks)

    Python [float] is IEEE-754 binary64, which is what Rocq's primitive
    [float] computes, so every confidence below is the very double the
    interpreter would produce.  Python [int] is [Z]; [str] is [string], a
    sequence of code points below 256.  Exceptions are an explicit result
    type with [try ... except]. *)

From Stdlib Require Import ZArith Bool List String Ascii Floats Lia.
From Stdlib Require Import DecimalString.
Import ListNotations.

Set Warnings "-inexact-float".

Local Open Scope string_scope.

(* ================================================================== *)
(** * Python values *)
(* ================================================================== *)

Module Py.

(** ** Exceptions *)

(** The exceptions the code distinguishes: FastAPI's [HTTPException], and
    everything else under [Exception]. *)
Inductive exc : Type :=
| Exception (msg : string)
| HTTPException (status_code : Z) (detail : string).

Inductive exn (A : Type) : Type :=
| Ok (a : A)
| Raise (e : exc).
Arguments Ok {A} a.
Arguments Raise {A} e.

Definition bind {A B} (c : exn A) (k : A -> exn B) : exn B :=
  match c with
  | Ok a => k a
  | Raise e => Raise e
  end.

(** [try: body / except Exception as e: handler e] *)
Definition try_except {A} (body : exn A) (handler : exc -> exn A) : exn A :=
  match body with
  | Ok a => Ok a
  | Raise e => handler e
  end.

(** The frame of every route:
    [except HTTPException: raise / except Exception: raise HTTPException(500, detail)] *)
Definition route {A} (body : exn A) (detail : string) : exn A :=
  match body with
  | Ok a => Ok a
  | Raise (HTTPException c d) => Raise (HTTPException c d)
  | Raise (Exception _) => Raise (HTTPException 500 detail)
  end.

(** The frame of the public upload:
    [except HTTPException: raise /
     except Exception as e: raise HTTPException(500, f"{prefix}{str(e)}")] *)
Definition route_str {A} (body : exn A) (prefix : string) : exn A :=
  match body with
  | Ok a => Ok a
  | Raise (HTTPException c d) => Raise (HTTPException c d)
  | Raise (Exception m) => Raise (HTTPException 500 (String.append prefix m))
  end.

(** ** Floats *)

(** [float(n)] for an [int]: the nearest double, ties to even. *)
Definition float_of_Z (z : Z) : float :=
  SF2Prim (binary_normalize prec emax z 0 false).

(** [a > b] is [b < a]. *)
Definition gt (a b : float) : bool := PrimFloat.ltb b a.

(** The builtin [min(a, b)]: the first argument unless a later one is
    strictly smaller. *)
Definition min (a b : float) : float := if PrimFloat.ltb b a then b else a.

(** The builtin [max(a, b)]: the first argument unless a later one is
    strictly greater. *)
Definition max (a b : float) : float := if gt b a then b else a.

(** ** Strings *)

(** [c.lower()] for a code point below 256: the capitals [A]-[Z] and the
    Latin-1 capitals 192-214 and 216-222 move up by 32, nothing else moves. *)
Definition lower_char (c : ascii) : ascii :=
  let n := nat_of_ascii c in
  if ((65 <=? n)%nat && (n <=? 90)%nat)
     || ((192 <=? n)%nat && (n <=? 222)%nat && negb (n =? 215)%nat)
  then ascii_of_nat (n + 32) else c.

(** [s.lower()] *)
Fixpoint lower (s : string) : string :=
  match s with
  | EmptyString => EmptyString
  | String c r => String (lower_char c) (lower r)
  end.

(** [s.startswith(p)] *)
Definition startswith (s p : string) : bool := String.prefix p s.

(** [p in s] for strings. *)
Fixpoint contains (s p : string) : bool :=
  String.prefix p s ||
  match s with
  | EmptyString => false
  | String _ r => contains r p
  end.

(** [s.endswith(p)] *)
Definition endswith (s p : string) : bool :=
  let n := String.length s in
  let m := String.length p in
  (m <=? n)%nat && String.eqb (String.substring (n - m) m s) p.

(** [str(n)] for an [int]. *)
Definition str_of_Z (z : Z) : string := NilZero.string_of_int (Z.to_int z).

(** [x or ""] for an optional string. *)
Definition or_empty (x : option string) : string :=
  match x with Some s => s | None => "" end.

(** [str(x)] inside an f-string, for an optional string. *)
Definition str_of_optional (x : option string) : string :=
  match x with Some s => s | None => "None" end.

(** [l.append(x)] *)
Definition append {A} (l : list A) (x : A) : list A := (l ++ [x])%list.

(** [len(l)] *)
Definition len {A} (l : list A) : Z := Z.of_nat (List.length l).

End Py.

Import Py.

Declare Scope exn_scope.
Delimit Scope exn_scope with exn.
Notation "x <- c ;; k" := (Py.bind c (fun x => k))
  (at level 61, c at next level, right associativity) : exn_scope.
Notation "c ;;; k" := (Py.bind c (fun _ => k))
  (at level 61, right associativity) : exn_scope.

Local Open Scope float_scope.

(* ================================================================== *)
(** * services/image_forensics.py *)
(* ================================================================== *)

Module ImageForensicsService.

(** The interpreter-external part of the service: PIL, numpy, OpenCV,
    torch and the file system.  [image] is a PIL image, [ndarray] a numpy
    array, [model] the loaded [CASIACNN].  Every call can raise. *)
Record Lib (image ndarray model : Type) : Type := {
  Image_open : string -> exn image;
  mode_is_RGB : image -> bool;
  convert_RGB : image -> exn image;
  (** [tempfile.mktemp(suffix='.jpg')] *)
  mktemp : exn string;
  (** [image.save(path, 'JPEG', quality=95)] *)
  save_jpeg95 : image -> string -> exn unit;
  (** [_calculate_ela]: absolute difference, scaled by 10, clipped. *)
  _calculate_ela : image -> image -> exn ndarray;
  (** The numpy/OpenCV statistics of [_analyze_ela_patterns]:
      [(tampering_ratio, edge_density)]. *)
  ela_indicators : ndarray -> exn (float * float);
  (** The matplotlib body of [_generate_ela_heatmap]. *)
  render_heatmap : ndarray -> string -> exn string;
  (** [if os.path.exists(p): os.unlink(p)] *)
  unlink_if_exists : string -> exn unit;
  (** [self.transform(image).unsqueeze(0)], the forward pass and the
      softmax: the two class probabilities. *)
  softmax_forward : model -> image -> exn (float * float);
  (** Download of an [s3://] or [minio://] object into a temporary file;
      the path itself otherwise. *)
  local_copy : string -> exn string;
}.
Arguments Image_open {image ndarray model}.
Arguments mode_is_RGB {image ndarray model}.
Arguments convert_RGB {image ndarray model}.
Arguments mktemp {image ndarray model}.
Arguments save_jpeg95 {image ndarray model}.
Arguments _calculate_ela {image ndarray model}.
Arguments ela_indicators {image ndarray model}.
Arguments render_heatmap {image ndarray model}.
Arguments unlink_if_exists {image ndarray model}.
Arguments softmax_forward {image ndarray model}.
Arguments local_copy {image ndarray model}.

Section Service.
Context {image ndarray model : Type}.
Variable lib : Lib image ndarray model.
(** [self.model]: [None] when [_load_model] failed. *)
Variable self_model : option model.

Local Open Scope exn_scope.

(** [if image.mode != 'RGB': image = image.convert('RGB')] *)
Definition to_RGB (img : image) : exn image :=
  if mode_is_RGB lib img then Ok img else convert_RGB lib img.

(** The arithmetic of [_analyze_ela_patterns] (lines 236-239). *)
Definition tampering_score_of (tampering_ratio edge_density : float) : float :=
  let tampering_score := tampering_ratio * 0.7 + edge_density * 0.3 in
  Py.min 1.0 (tampering_score * 10).

Definition _analyze_ela_patterns_try (ela_image : ndarray) : exn float :=
  ind <- ela_indicators lib ela_image ;;
  Ok (tampering_score_of (fst ind) (snd ind)).

Definition _analyze_ela_patterns (ela_image : ndarray) : exn float :=
  try_except (_analyze_ela_patterns_try ela_image) (fun _ => Ok 0.0).

Definition _generate_ela_heatmap (ela_image : ndarray) (original_path : string)
  : exn string :=
  try_except (render_heatmap lib ela_image original_path) (fun _ => Ok "").

(** Lines 180-189: the result for a tampering score. *)
Definition ela_result_of (tampering_score : float) : string * float :=
  if gt tampering_score 0.7 then
    ("suspicious", Py.min 0.95 (0.6 + tampering_score * 0.3))
  else if gt tampering_score 0.4 then
    ("suspicious", Py.min 0.85 (0.5 + tampering_score * 0.3))
  else
    ("authentic", Py.max 0.6 (0.9 - tampering_score * 0.3)).

Definition _run_ela_analysis_try (file_path : string)
  : exn (string * float * string) :=
  image0 <- Image_open lib file_path ;;
  image1 <- to_RGB image0 ;;
  temp_ela_path <- mktemp lib ;;
  save_jpeg95 lib image1 temp_ela_path ;;;
  saved_image <- Image_open lib temp_ela_path ;;
  ela_image <- _calculate_ela lib image1 saved_image ;;
  tampering_score <- _analyze_ela_patterns ela_image ;;
  heatmap_path <- _generate_ela_heatmap ela_image file_path ;;
  unlink_if_exists lib temp_ela_path ;;;
  let '(result, confidence) := ela_result_of tampering_score in
  Ok (result, confidence, heatmap_path).

Definition _run_ela_analysis (file_path : string)
  : exn (string * float * string) :=
  try_except (_run_ela_analysis_try file_path)
             (fun _ => Ok ("authentic", 0.5, "")).

(** [torch.argmax] over the two probabilities, then the label. *)
Definition cnn_label_of (probabilities : float * float) : string * float :=
  let '(p0, p1) := probabilities in
  let prediction := if gt p1 p0 then 1%Z else 0%Z in
  let confidence := if (prediction =? 1)%Z then p1 else p0 in
  let result := if (prediction =? 1)%Z then "suspicious" else "authentic" in
  (result, confidence).

Definition _run_cnn_analysis_try (file_path : string) : exn (string * float) :=
  match self_model with
  | None => Ok ("authentic", 0.5)
  | Some m =>
      image0 <- Image_open lib file_path ;;
      image1 <- to_RGB image0 ;;
      probabilities <- softmax_forward lib m image1 ;;
      let '(result, confidence) := cnn_label_of probabilities in
      let confidence :=
        match self_model with None => 0.5 | Some _ => confidence end in
      Ok (result, confidence)
  end.

Definition _run_cnn_analysis (file_path : string) : exn (string * float) :=
  try_except (_run_cnn_analysis_try file_path)
             (fun _ => Ok ("authentic", 0.5)).

(** Only the reachable part: both branches of the first [if] return, the
    code after it never runs. *)
Definition _combine_results (ela_result : string) (ela_confidence : float)
           (cnn_result : string) (cnn_confidence : float) : string * float :=
  let ela_weight := 0.6 in
  let cnn_weight := 0.4 in
  if String.eqb ela_result cnn_result then
    let overall_confidence :=
      ela_confidence * ela_weight + cnn_confidence * cnn_weight in
    (ela_result, overall_confidence)
  else if gt ela_confidence cnn_confidence then
    (ela_result, ela_confidence * 0.9)
  else
    (cnn_result, cnn_confidence * 0.9).

(** The result dictionary of [analyze_image], without its timings. *)
Record ImageAnalysis : Type := {
  verdict : string;
  confidence_score : float;
  ela_result : string;
  ela_confidence : float;
  ela_heatmap_path : string;
  cnn_result : string;
  cnn_confidence : float;
}.

Definition analyze_image (file_path : string) : exn ImageAnalysis :=
  temp_file_path <- local_copy lib file_path ;;
  ela <- _run_ela_analysis temp_file_path ;;
  cnn <- _run_cnn_analysis temp_file_path ;;
  let '(ela_r, ela_c, ela_h) := ela in
  let '(cnn_r, cnn_c) := cnn in
  let '(overall_verdict, overall_confidence) :=
    _combine_results ela_r ela_c cnn_r cnn_c in
  (if startswith file_path "s3://" || startswith file_path "minio://"
   then unlink_if_exists lib temp_file_path else Ok tt) ;;;
  Ok {| verdict := overall_verdict;
        confidence_score := overall_confidence;
        ela_result := ela_r;
        ela_confidence := ela_c;
        ela_heatmap_path := ela_h;
        cnn_result := cnn_r;
        cnn_confidence := cnn_c |}.

End Service.

End ImageForensicsService.

(* ================================================================== *)
(** * services/pdf_forensics.py *)
(* ================================================================== *)

Module PDFForensicsService.

(** An entry of [pdfid_results["suspicious_objects"]]. *)
Record SuspiciousObject : Type := {
  so_type : string;
  so_count : Z;
  risk_level : string;
  so_explanation : string;
}.

(** An entry of [pikepdf_results["anomalies"]]; [explanation] is read with
    [.get], so it may be absent. *)
Record Anomaly : Type := {
  an_type : string;
  description : string;
  severity : string;
  an_explanation : option string;
}.

(** An entry of [structure["suspicious_elements"]]. *)
Record StructureElement : Type := {
  element : string;
  risk : string;
  se_explanation : string;
}.

(** [_run_pdfid_analysis] returns either [{"error": ...}] or the parsed
    dictionary. *)
Inductive PdfidResults : Type :=
| PdfidError (error : string)
| PdfidParsed (suspicious_objects : list SuspiciousObject)
              (total_objects : Z) (security_flags : list string).

(** [_run_pikepdf_analysis] likewise. *)
Inductive PikepdfResults : Type :=
| PikepdfError (error : string)
| PikepdfParsed (anomalies : list Anomaly)
                (suspicious_elements : list StructureElement).

(** [pdfid_results.get("suspicious_objects", [])] *)
Definition get_suspicious_objects (r : PdfidResults) : list SuspiciousObject :=
  match r with
  | PdfidError _ => []
  | PdfidParsed objs _ _ => objs
  end.

(** [pdfid_results.get("security_flags", [])] *)
Definition get_security_flags (r : PdfidResults) : list string :=
  match r with
  | PdfidError _ => []
  | PdfidParsed _ _ flags => flags
  end.

(** [pikepdf_results.get("anomalies", [])] *)
Definition get_anomalies (r : PikepdfResults) : list Anomaly :=
  match r with
  | PikepdfError _ => []
  | PikepdfParsed a _ => a
  end.

(** [pikepdf_results.get("structure", {}).get("suspicious_elements", [])] *)
Definition get_suspicious_elements (r : PikepdfResults) : list StructureElement :=
  match r with
  | PikepdfError _ => []
  | PikepdfParsed _ e => e
  end.

(** [any(risk in obj_type for risk in risks)] *)
Definition any_in (risks : list string) (obj_type : string) : bool :=
  existsb (fun risk => contains obj_type risk) risks.

Definition _get_risk_level (obj_type : string) : string :=
  let high_risk :=
    ["/JS"; "/JavaScript"; "/Launch"; "/SubmitForm"; "/OpenAction"; "/AA"; "/URI"] in
  let medium_risk :=
    ["/AcroForm"; "/EmbeddedFile"; "/FileAttachment"; "/ImportData"; "/GoTo"; "/GoToR"] in
  if any_in high_risk obj_type then "high"
  else if any_in medium_risk obj_type then "medium"
  else "low".

Definition suspicious_patterns : list (string * list string) :=
  [ ("javascript", ["/JS"; "/JavaScript"; "/AcroForm"]);
    ("actions", ["/Launch"; "/SubmitForm"; "/ImportData"; "/OpenAction"; "/AA"]);
    ("embedded_files", ["/EmbeddedFile"; "/FileAttachment"]);
    ("annotations", ["/RichMedia"; "/3D"; "/Movie"]);
    ("external_links", ["/URI"; "/GoTo"; "/GoToR"]) ].

Definition _is_suspicious_object (obj_type : string) : bool :=
  existsb (fun cat =>
             existsb (fun pattern => contains (lower obj_type) (lower pattern))
                     (snd cat))
          suspicious_patterns.

(** The accumulator of the three loops: [(risk_score, risk_details)]. *)
Definition Acc : Type := (Z * list string)%type.

Definition object_step (acc : Acc) (obj : SuspiciousObject) : Acc :=
  let '(risk_score, risk_details) := acc in
  let tail := so_type obj ++ " (" ++ str_of_Z (so_count obj) ++ ") - "
              ++ so_explanation obj in
  if String.eqb (risk_level obj) "high" then
    ((risk_score + 3)%Z, append risk_details ("High-risk object: " ++ tail))
  else if String.eqb (risk_level obj) "medium" then
    ((risk_score + 2)%Z, append risk_details ("Medium-risk object: " ++ tail))
  else
    ((risk_score + 1)%Z, append risk_details ("Low-risk object: " ++ tail)).

Definition anomaly_step (acc : Acc) (anomaly : Anomaly) : Acc :=
  let '(risk_score, risk_details) := acc in
  let tail := description anomaly ++ " - "
              ++ match an_explanation anomaly with
                 | Some e => e
                 | None => "No explanation provided"
                 end in
  if String.eqb (severity anomaly) "high" then
    ((risk_score + 3)%Z, append risk_details ("High-severity anomaly: " ++ tail))
  else if String.eqb (severity anomaly) "medium" then
    ((risk_score + 2)%Z, append risk_details ("Medium-severity anomaly: " ++ tail))
  else
    ((risk_score + 1)%Z, append risk_details ("Low-severity anomaly: " ++ tail)).

Definition element_step (acc : Acc) (el : StructureElement) : Acc :=
  let '(risk_score, risk_details) := acc in
  ((risk_score + 2)%Z,
   append risk_details
          ("Structure issue: " ++ element el ++ " - " ++ se_explanation el)).

(** [combined["summary"]] *)
Record Summary : Type := {
  total_suspicious_objects : Z;
  total_anomalies : Z;
  risk_indicators : list string;
  summary_security_flags : list string;
  risk_explanation : string;
  risk_score : Z;
}.

Record Combined : Type := {
  pdfid_analysis : PdfidResults;
  pikepdf_analysis : PikepdfResults;
  summary : Summary;
}.

(** The three loops are folds over the lists they iterate; the chart paths
    are carried along untouched by the code and are left out. *)
Definition _combine_analysis_results (pdfid_results : PdfidResults)
           (pikepdf_results : PikepdfResults) : Combined :=
  let acc0 : Acc := (0%Z, []) in
  let acc1 := fold_left object_step (get_suspicious_objects pdfid_results) acc0 in
  let acc2 := fold_left anomaly_step (get_anomalies pikepdf_results) acc1 in
  let acc3 := fold_left element_step (get_suspicious_elements pikepdf_results) acc2 in
  let '(risk_score, risk_details) := acc3 in
  {| pdfid_analysis := pdfid_results;
     pikepdf_analysis := pikepdf_results;
     summary :=
       {| total_suspicious_objects := len (get_suspicious_objects pdfid_results);
          total_anomalies := len (get_anomalies pikepdf_results);
          risk_indicators := risk_details;
          summary_security_flags := get_security_flags pdfid_results;
          risk_explanation :=
            if (risk_score =? 0)%Z then
              "No security risks detected. Document appears to be clean and legitimate."
            else if (risk_score <=? 3)%Z then
              "Low risk. Minor anomalies detected but document appears generally safe."
            else if (risk_score <=? 6)%Z then
              "Medium risk. Several suspicious elements detected. Exercise caution and review details."
            else
              "High risk. Multiple security threats detected. Document should be considered potentially malicious.";
          risk_score := risk_score |} |}.

(** The thresholds of [_determine_verdict] on the two numbers it reads. *)
Definition verdict_of (risk_score total_indicators : Z) : string * float :=
  if (risk_score >=? 8)%Z || (total_indicators >=? 5)%Z then
    ("suspicious", Py.min 0.95 (0.7 + float_of_Z risk_score * 0.03))
  else if (risk_score >=? 4)%Z || (total_indicators >=? 2)%Z then
    ("suspicious", Py.min 0.85 (0.6 + float_of_Z risk_score * 0.04))
  else if (risk_score >=? 2)%Z then
    ("suspicious", Py.min 0.75 (0.5 + float_of_Z risk_score * 0.05))
  else
    ("authentic", Py.max 0.7 (0.9 - float_of_Z risk_score * 0.1)).

Definition _determine_verdict (analysis : Combined) : string * float :=
  let risk_score := risk_score (summary analysis) in
  let total_indicators := len (risk_indicators (summary analysis)) in
  verdict_of risk_score total_indicators.

End PDFForensicsService.

(* ================================================================== *)
(** * services/intelligence_analysis.py *)
(* ================================================================== *)

Module IntelligenceAnalysisService.

(** [analysis_results['sentiment']]: the label is read by subscript, the
    score with [.get('score', 0.5)]. *)
Record Sentiment : Type := {
  label : string;
  score : option float;
}.

(** [analysis_results], as [analyze_announcement] fills it:
    [anomaly_detected] is the inner flag
    [analysis_results['anomaly_detected'].get('anomaly_detected', False)]. *)
Record AnalysisResults : Type := {
  red_flags : list string;
  sentiment : Sentiment;
  anomaly_detected : bool;
}.

Definition _calculate_credibility_score (analysis_results : AnalysisResults) : float :=
  let base_score := 10.0 in
  let red_flag_penalty := float_of_Z (len (red_flags analysis_results)) * 1.5 in
  let base_score := base_score - red_flag_penalty in
  let sentiment := sentiment analysis_results in
  let sentiment_score := match score sentiment with Some p => p | None => 0.5 end in
  let base_score :=
    if String.eqb (label sentiment) "NEGATIVE" then base_score - 2.0
    else if String.eqb (label sentiment) "POSITIVE" && gt sentiment_score 0.8
         then base_score - 1.0
    else base_score in
  let base_score :=
    if anomaly_detected analysis_results then base_score - 3.0 else base_score in
  Py.max 0.0 (Py.min 10.0 base_score).

End IntelligenceAnalysisService.

(* ================================================================== *)
(** * The files table, storage and the routes *)
(* ================================================================== *)

Module Backend.

Definition bytes : Type := list Byte.byte.

(** ** models/file.py, models/report.py *)

Record File : Type := {
  id : Z;
  file_id : string;
  filename : string;
  original_filename : string;
  file_type : string;
  mime_type : string;
  file_size : Z;
  file_hash : string;
  storage_path : string;
  storage_type : string;
  verdict : option string;
  confidence_score : option float;
  analysis_status : string;
  analysis_date : option Z;
}.

Record Report : Type := {
  report_file_id : Z;
  analysis_type : string;
  result : string;
  report_confidence_score : float;
  evidence_link : option string;
  model_version : string;
}.

Definition set_analysis_status (s : string) (f : File) : File :=
  {| id := id f; file_id := file_id f; filename := filename f;
     original_filename := original_filename f; file_type := file_type f;
     mime_type := mime_type f; file_size := file_size f;
     file_hash := file_hash f; storage_path := storage_path f;
     storage_type := storage_type f; verdict := verdict f;
     confidence_score := confidence_score f; analysis_status := s;
     analysis_date := analysis_date f |}.

(** The four assignments of a finished background task. *)
Definition set_completed (v : string) (c : float) (now : Z) (f : File) : File :=
  {| id := id f; file_id := file_id f; filename := filename f;
     original_filename := original_filename f; file_type := file_type f;
     mime_type := mime_type f; file_size := file_size f;
     file_hash := file_hash f; storage_path := storage_path f;
     storage_type := storage_type f; verdict := Some v;
     confidence_score := Some c; analysis_status := "completed";
     analysis_date := Some now |}.

(** A call recorded by [background_tasks.add_task(fn, file_id, storage_path)]. *)
Inductive TaskFn : Type :=
| fn_run_pdf_analysis
| fn_run_image_analysis
| fn_run_public_pdf_analysis
| fn_run_public_image_analysis.

Record Task : Type := {
  task_fn : TaskFn;
  task_file_id : string;
  task_storage_path : string;
}.

(** The state the routes act on: the two tables, the tasks scheduled so
    far, and how many times [uuid.uuid4()] has been called. *)
Record World : Type := {
  files : list File;
  reports : list Report;
  background_tasks : list Task;
  uuid_calls : nat;
}.

(** [db.query(FileModel).filter(FileModel.file_id == file_id).first()] *)
Definition query_by_file_id (w : World) (fid : string) : option File :=
  find (fun f => String.eqb (file_id f) fid) (files w).

(** [db.query(FileModel).filter(FileModel.file_hash == h).first()] *)
Definition query_by_file_hash (w : World) (h : string) : option File :=
  find (fun f => String.eqb (file_hash f) h) (files w).

(** Assigning attributes of a loaded row and [db.commit()]: the row with
    that primary key is rewritten. *)
Definition update_row (pk : Z) (upd : File -> File) (w : World) : World :=
  {| files := map (fun f => if (id f =? pk)%Z then upd f else f) (files w);
     reports := reports w;
     background_tasks := background_tasks w;
     uuid_calls := uuid_calls w |}.

Definition add_task (t : Task) (w : World) : World :=
  {| files := files w;
     reports := reports w;
     background_tasks := append (background_tasks w) t;
     uuid_calls := uuid_calls w |}.

Definition add_report (r : Report) (w : World) : World :=
  {| files := files w;
     reports := append (reports w) r;
     background_tasks := background_tasks w;
     uuid_calls := uuid_calls w |}.

Definition tick_uuid (w : World) : World :=
  {| files := files w;
     reports := reports w;
     background_tasks := background_tasks w;
     uuid_calls := S (uuid_calls w) |}.

(** The autoincremented primary key of the next row. *)
Definition next_id (w : World) : Z :=
  (1 + fold_right Z.max 0 (map id (files w)))%Z.

(** [db.add(db_file); db.commit()]: [file_id] is declared unique, so a
    second row with the same [file_id] is an [IntegrityError]. *)
Definition insert_file (f : File) (w : World) : exn World :=
  if existsb (fun g => String.eqb (file_id g) (file_id f)) (files w) then
    Raise (Exception "IntegrityError")
  else
    Ok {| files := append (files w) f;
          reports := reports w;
          background_tasks := background_tasks w;
          uuid_calls := uuid_calls w |}.

(** JSON bodies of the responses. *)
Inductive value : Type :=
| VStr (s : string)
| VInt (z : Z)
| VBool (b : bool).

Definition Json : Type := list (string * value).

(** ** core/config.py *)

Definition MAX_FILE_SIZE : Z := 100 * 1024 * 1024.

Definition ALLOWED_EXTENSIONS : list string :=
  [".pdf"; ".jpg"; ".jpeg"; ".png"; ".gif"; ".bmp"; ".tiff"].

(** ** Path and file-name helpers *)

(** The text after the last occurrence of [c], when there is one. *)
Fixpoint after_last (c : ascii) (s : string) : option string :=
  match s with
  | EmptyString => None
  | String a r =>
      match after_last c r with
      | Some t => Some t
      | None => if Ascii.eqb a c then Some r else None
      end
  end.

(** The components [PurePosixPath(p)] keeps: the pieces between slashes,
    without the empty ones and the single dots; [cur] is the piece being
    read. *)
Definition path_part (cur : string) : list string :=
  if String.eqb cur "" || String.eqb cur "." then [] else [cur].

Fixpoint path_parts (cur : string) (p : string) : list string :=
  match p with
  | EmptyString => path_part cur
  | String c r =>
      if Ascii.eqb c "/" then (path_part cur ++ path_parts "" r)%list
      else path_parts (cur ++ String c "") r
  end.

(** [Path(p).name]: the last component, [""] when there is none. *)
Definition Path_name (p : string) : string := last (path_parts "" p) "".

(** [Path(filename).suffix]: the last dot of the final component and what
    follows, unless the dot is the first or the last character
    ([i = name.rfind('.')], [0 < i < len(name) - 1]). *)
Definition Path_suffix (filename : string) : string :=
  let name := Path_name filename in
  match after_last "." name with
  | None => ""
  | Some ext =>
      let i := (String.length name - String.length ext - 1)%nat in
      if (0 <? i)%nat && (0 <? String.length ext)%nat
      then String "." ext else ""
  end.

(** [x in l] for a list of strings. *)
Definition mem (x : string) (l : list string) : bool :=
  existsb (String.eqb x) l.

Definition nonempty (s : string) : bool := negb (String.eqb s "").

Section Routes.

(** What the interpreter, the libraries and the outside world supply. *)

(** [hashlib.sha256(content).hexdigest()] *)
Variable sha256_hexdigest : bytes -> string.
(** [filetype.guess(content)], reduced to its [mime] when it has a kind. *)
Variable filetype_guess : bytes -> exn (option string).
(** [mimetypes.guess_type(filename)[0]] *)
Variable mimetypes_guess_type : string -> option string.
(** The value of the n-th call of [uuid.uuid4()], as a string. *)
Variable uuid4 : nat -> string.
(** [get_storage_service()]: building the service can raise;
    [Storage.get_storage_service] below is the one of the repository. *)
Variable get_storage_service : exn unit.
(** The Supabase upload of [content] at [path]: its status code. *)
Variable supabase_upload : string -> bytes -> exn Z.
(** [Path("uploads").mkdir(parents=True, exist_ok=True)] *)
Variable local_mkdir : exn unit.
(** [open(local_path, "wb")] and the write of [content]. *)
Variable local_write : string -> bytes -> exn unit.
(** [pdf_service.analyze_pdf(storage_path)]: verdict and confidence. *)
Variable pdf_service_analyze_pdf : string -> exn (string * float).
(** [image_service.analyze_image(storage_path)] *)
Variable image_service_analyze_image :
  string -> exn ImageForensicsService.ImageAnalysis.

(** ** services/storage.py *)

Record StorageMetadata : Type := {
  sm_file_id : string;
  sm_filename : string;
  sm_original_filename : string;
  sm_file_type : string;
  sm_file_hash : string;
  sm_storage_path : string;
  sm_storage_type : string;
}.

Definition save_file (content : bytes) (original_filename file_type : string)
           (w : World) : exn StorageMetadata * World :=
  let file_id := uuid4 (uuid_calls w) in
  let w := tick_uuid w in
  let file_hash := sha256_hexdigest content in
  let file_extension :=
    if contains original_filename "." then
      match after_last "." original_filename with Some e => e | None => "" end
    else "" in
  let storage_filename :=
    if nonempty file_extension then file_id ++ "." ++ file_extension
    else file_id in
  let storage_path := file_type ++ "/" ++ storage_filename in
  match supabase_upload storage_path content with
  | Raise e => (Raise e, w)
  | Ok status_code =>
      if negb (status_code =? 200)%Z then
        (Raise (Exception "Failed to upload to Supabase Storage."), w)
      else
        (Ok {| sm_file_id := file_id;
               sm_filename := storage_filename;
               sm_original_filename := original_filename;
               sm_file_type := file_type;
               sm_file_hash := file_hash;
               sm_storage_path := storage_path;
               sm_storage_type := "supabase" |}, w)
  end.

(** ** api/routes/upload.py *)

Definition _detect_mime_type (file_content : bytes) : string :=
  match filetype_guess file_content with
  | Ok (Some mime) => mime
  | Ok None => ""
  | Raise _ => ""
  end.

(** [_detect_mime_type(c) or (mimetypes.guess_type(name)[0] or "")] *)
Definition mime_of (file_content : bytes) (filename : string) : string :=
  let m := _detect_mime_type file_content in
  if nonempty m then m
  else match mimetypes_guess_type filename with Some t => t | None => "" end.

Definition validate_file_type (file_content : bytes) (filename : string)
  : exn string :=
  let mime_type := mime_of file_content filename in
  let file_extension := lower (Path_suffix filename) in
  if negb (mem file_extension ALLOWED_EXTENSIONS) then
    Raise (HTTPException 400
             ("File type " ++ file_extension
              ++ " not allowed. Allowed types: ['.pdf', '.jpg', '.jpeg', '.png', '.gif', '.bmp', '.tiff']"))
  else if String.eqb file_extension ".pdf" then
    if negb (String.eqb mime_type "application/pdf") then
      Raise (HTTPException 400 "Invalid PDF file")
    else Ok "pdf"
  else if mem file_extension [".jpg"; ".jpeg"; ".png"; ".gif"; ".bmp"; ".tiff"] then
    if negb (startswith mime_type "image/") then
      Raise (HTTPException 400 "Invalid image file")
    else Ok "image"
  else
    Raise (HTTPException 400 ("Unsupported file type: " ++ file_extension)).

Definition upload_file_try (file_content : bytes) (filename : string)
           (w : World) : exn Json * World :=
  if (len file_content >? MAX_FILE_SIZE)%Z then
    (Raise (HTTPException 413
              ("File size exceeds maximum allowed size of "
               ++ str_of_Z MAX_FILE_SIZE ++ " bytes")), w)
  else
    match validate_file_type file_content filename with
    | Raise e => (Raise e, w)
    | Ok ftype =>
        match get_storage_service with
        | Raise e => (Raise e, w)
        | Ok _ =>
            let '(saved, w1) := save_file file_content filename ftype w in
            match saved with
            | Raise e => (Raise e, w1)
            | Ok storage_metadata =>
                let db_file :=
                  {| id := next_id w1;
                     file_id := sm_file_id storage_metadata;
                     filename := sm_filename storage_metadata;
                     original_filename := sm_original_filename storage_metadata;
                     file_type := sm_file_type storage_metadata;
                     mime_type := mime_of file_content filename;
                     file_size := len file_content;
                     file_hash := sm_file_hash storage_metadata;
                     storage_path := sm_storage_path storage_metadata;
                     storage_type := sm_storage_type storage_metadata;
                     verdict := None;
                     confidence_score := None;
                     analysis_status := "pending";
                     analysis_date := None |} in
                match insert_file db_file w1 with
                | Raise e => (Raise e, w1)
                | Ok w2 =>
                    (Ok [ ("file_id", VStr (file_id db_file));
                          ("filename", VStr (original_filename db_file));
                          ("file_type", VStr (file_type db_file));
                          ("file_size", VInt (file_size db_file));
                          ("status", VStr "uploaded");
                          ("message",
                           VStr "File uploaded successfully. Ready for analysis.") ],
                     w2)
                end
            end
        end
    end.

(** [POST /upload] *)
Definition upload_file (file_content : bytes) (filename : string)
           (w : World) : exn Json * World :=
  let '(r, w') := upload_file_try file_content filename w in
  (route r "Failed to upload file", w').

(** ** api/routes/public.py *)

Definition _get_file_type (filename content_type : string) : string :=
  let by_name :=
    let lower := lower filename in
    if existsb (endswith lower) [".jpg"; ".jpeg"; ".png"; ".bmp"; ".tiff"; ".webp"]
    then "image"
    else if existsb (endswith lower) [".mp4"; ".avi"; ".mov"; ".mkv"; ".webm"]
    then "video"
    else if existsb (endswith lower) [".mp3"; ".wav"; ".flac"; ".aac"; ".ogg"]
    then "audio"
    else if endswith lower ".pdf" then "pdf"
    else "unknown" in
  if nonempty content_type then
    if startswith content_type "image/" then "image"
    else if startswith content_type "video/" then "video"
    else if startswith content_type "audio/" then "audio"
    else if String.eqb content_type "application/pdf" then "pdf"
    else by_name
  else by_name.

(** The nested [try] of the public upload: Supabase first, the local
    [uploads] directory when that raises, [None] when both do. *)
Definition public_store (content : bytes) (fname ftype : string) (w : World)
  : option StorageMetadata * World :=
  let '(first, w1) :=
    match get_storage_service with
    | Raise e => (Raise e, w)
    | Ok _ => save_file content fname ftype w
    end in
  match first with
  | Ok storage_metadata => (Some storage_metadata, w1)
  | Raise _ =>
      match local_mkdir with
      | Raise _ => (None, w1)
      | Ok _ =>
          let file_ext := Path_suffix fname in
          let local_file_id := uuid4 (uuid_calls w1) in
          let w2 := tick_uuid w1 in
          let local_name := local_file_id ++ file_ext in
          let local_path := "uploads/" ++ local_name in
          match local_write local_path content with
          | Raise _ => (None, w2)
          | Ok _ =>
              (Some {| sm_file_id := local_file_id;
                       sm_filename := local_name;
                       sm_original_filename := fname;
                       sm_file_type := ftype;
                       sm_file_hash := sha256_hexdigest content;
                       sm_storage_path := local_path;
                       sm_storage_type := "local" |}, w2)
          end
      end
  end.

(** The body of the route.  The answer to a new file is given without its
    [metadata] entry, a dictionary that repeats columns of the new row
    together with its upload time. *)
Definition public_upload_file_try (content : bytes) (fname : string)
           (content_type : option string) (w : World) : exn Json * World :=
  let file_hash_ := sha256_hexdigest content in
  let ftype := _get_file_type fname (or_empty content_type) in
  if String.eqb ftype "unknown" then
    (Raise (HTTPException 400
              ("Unsupported file type: " ++ str_of_optional content_type)), w)
  else
    let '(storage_metadata, w1) := public_store content fname ftype w in
    match query_by_file_hash w1 file_hash_ with
    | Some existing_db =>
        (Ok [ ("message", VStr "File already uploaded");
              ("file_id", VStr (file_id existing_db));
              ("file_hash", VStr (file_hash existing_db));
              ("status", VStr (analysis_status existing_db));
              ("cached", VBool true) ], w1)
    | None =>
        let db_file :=
          {| id := next_id w1;
             file_id := uuid4 (uuid_calls w1);
             filename := match storage_metadata with
                         | Some m => sm_filename m | None => fname end;
             original_filename := fname;
             file_type := ftype;
             mime_type := if nonempty (or_empty content_type)
                          then or_empty content_type
                          else "application/octet-stream";
             file_size := len content;
             file_hash := file_hash_;
             storage_path := match storage_metadata with
                             | Some m => sm_storage_path m | None => fname end;
             storage_type := match storage_metadata with
                             | Some m => sm_storage_type m | None => "none" end;
             verdict := None;
             confidence_score := None;
             analysis_status := "pending";
             analysis_date := None |} in
        let w2 := tick_uuid w1 in
        match insert_file db_file w2 with
        | Raise e => (Raise e, w2)
        | Ok w3 =>
            let w4 :=
              if String.eqb (file_type db_file) "pdf" then
                add_task {| task_fn := fn_run_public_pdf_analysis;
                            task_file_id := file_id db_file;
                            task_storage_path := storage_path db_file |} w3
              else if String.eqb (file_type db_file) "image" then
                add_task {| task_fn := fn_run_public_image_analysis;
                            task_file_id := file_id db_file;
                            task_storage_path := storage_path db_file |} w3
              else w3 in
            (Ok [ ("message", VStr "File uploaded successfully");
                  ("file_hash", VStr file_hash_);
                  ("file_id", VStr (file_id db_file));
                  ("ready_for_analysis", VBool true);
                  ("analysis_started", VBool true);
                  ("storage", VStr (storage_type db_file)) ], w4)
        end
    end.

(** [POST /public/upload]; [content_type] is [file.content_type], [None]
    when the part carries no content type. *)
Definition public_upload_file (content : bytes) (fname : string)
           (content_type : option string) (w : World) : exn Json * World :=
  let '(r, w') := public_upload_file_try content fname content_type w in
  (route_str r "Upload failed: ", w').

(** ** api/routes/analyze.py *)

(** The two routes over a database that answers every call; [Database]
    below has them over a database whose calls can raise. *)
Definition analyze_pdf_try (fid : string) (w : World) : exn Json * World :=
  match query_by_file_id w fid with
  | None => (Raise (HTTPException 404 "File not found"), w)
  | Some db_file =>
      if negb (String.eqb (file_type db_file) "pdf") then
        (Raise (HTTPException 400 "File is not a PDF"), w)
      else if String.eqb (analysis_status db_file) "processing" then
        (Ok [ ("file_id", VStr fid);
              ("status", VStr "processing");
              ("message", VStr "PDF analysis already in progress") ], w)
      else
        let w1 := update_row (id db_file) (set_analysis_status "processing") w in
        let w2 := add_task {| task_fn := fn_run_pdf_analysis;
                              task_file_id := fid;
                              task_storage_path := storage_path db_file |} w1 in
        (Ok [ ("file_id", VStr fid);
              ("status", VStr "processing");
              ("message", VStr "PDF analysis started") ], w2)
  end.

(** [POST /analyze/pdf/{file_id}] *)
Definition analyze_pdf (fid : string) (w : World) : exn Json * World :=
  let '(r, w') := analyze_pdf_try fid w in
  (route r "Failed to start PDF analysis", w').

Definition analyze_image_try (fid : string) (w : World) : exn Json * World :=
  match query_by_file_id w fid with
  | None => (Raise (HTTPException 404 "File not found"), w)
  | Some db_file =>
      if negb (String.eqb (file_type db_file) "image") then
        (Raise (HTTPException 400 "File is not an image"), w)
      else if String.eqb (analysis_status db_file) "processing" then
        (Ok [ ("file_id", VStr fid);
              ("status", VStr "processing");
              ("message", VStr "Image analysis already in progress") ], w)
      else
        let w1 := update_row (id db_file) (set_analysis_status "processing") w in
        let w2 := add_task {| task_fn := fn_run_image_analysis;
                              task_file_id := fid;
                              task_storage_path := storage_path db_file |} w1 in
        (Ok [ ("file_id", VStr fid);
              ("status", VStr "processing");
              ("message", VStr "Image analysis started") ], w2)
  end.

(** [POST /analyze/image/{file_id}] *)
Definition analyze_image (fid : string) (w : World) : exn Json * World :=
  let '(r, w') := analyze_image_try fid w in
  (route r "Failed to start image analysis", w').

(** The [except] branch of both background tasks. *)
Definition mark_failed (fid : string) (w : World) : World :=
  match query_by_file_id w fid with
  | Some db_file => update_row (id db_file) (set_analysis_status "failed") w
  | None => w
  end.

(** Background task for PDF analysis; [now] is [datetime.utcnow()]. *)
Definition run_pdf_analysis (fid spath : string) (now : Z) (w : World) : World :=
  match pdf_service_analyze_pdf spath with
  | Raise _ => mark_failed fid w
  | Ok (v, c) =>
      match query_by_file_id w fid with
      | None => w
      | Some db_file =>
          let w1 := update_row (id db_file) (set_completed v c now) w in
          add_report {| report_file_id := id db_file;
                        analysis_type := "pdf_forensics";
                        result := v;
                        report_confidence_score := c;
                        evidence_link := None;
                        model_version := "1.0.0" |} w1
      end
  end.

(** Background task for image analysis. *)
Definition run_image_analysis (fid spath : string) (now : Z) (w : World) : World :=
  match image_service_analyze_image spath with
  | Raise _ => mark_failed fid w
  | Ok r =>
      match query_by_file_id w fid with
      | None => w
      | Some db_file =>
          let w1 :=
            update_row (id db_file)
              (set_completed (ImageForensicsService.verdict r)
                             (ImageForensicsService.confidence_score r) now) w in
          let w2 :=
            add_report
              {| report_file_id := id db_file;
                 analysis_type := "image_ela";
                 result := ImageForensicsService.ela_result r;
                 report_confidence_score := ImageForensicsService.ela_confidence r;
                 evidence_link := Some (ImageForensicsService.ela_heatmap_path r);
                 model_version := "1.0.0" |} w1 in
          add_report
            {| report_file_id := id db_file;
               analysis_type := "image_cnn";
               result := ImageForensicsService.cnn_result r;
               report_confidence_score := ImageForensicsService.cnn_confidence r;
               evidence_link := None;
               model_version := "1.0.0" |} w2
      end
  end.

End Routes.

End Backend.

(* ================================================================== *)
(** * core/config.py and the storage singleton *)
(* ================================================================== *)

Module Storage.
Import Backend.

(** The fields the class [Settings] of [core/config.py] declares. *)
Definition Settings_fields : list string :=
  [ "DATABASE_URL"; "STORAGE_TYPE"; "SUPABASE_URL"; "SUPABASE_KEY";
    "SUPABASE_STORAGE_BUCKET"; "S3_BUCKET_NAME"; "S3_ACCESS_KEY";
    "S3_SECRET_KEY"; "S3_REGION"; "MINIO_ENDPOINT"; "MINIO_ACCESS_KEY";
    "MINIO_SECRET_KEY"; "MINIO_BUCKET_NAME"; "LOCAL_STORAGE_PATH";
    "SECRET_KEY"; "ALGORITHM"; "ACCESS_TOKEN_EXPIRE_MINUTES";
    "MAX_FILE_SIZE"; "ALLOWED_EXTENSIONS"; "API_V1_STR"; "PROJECT_NAME";
    "CASIA_MODEL_PATH" ].

Definition AttributeError (name : string) : exc :=
  Exception ("AttributeError: 'Settings' object has no attribute '" ++ name ++ "'").

Section Service.

(** The value the environment gives a declared field, as text; [None] for
    a field that is [None]. *)
Variable env : string -> option string.
(** [services/supabase.py]: whether [init_supabase] builds a client.  It
    never raises; it leaves [_supabase_client] at [None] when the URL or the
    key is missing or [create_client] fails. *)
Variable supabase_client : bool.

Definition get_supabase : exn unit :=
  if supabase_client then Ok tt
  else Raise (Exception "RuntimeError: Supabase client is not initialized").

(** [settings.<name>]: a pydantic model has its declared fields and no
    other attribute. *)
Definition settings_getattr (name : string) : exn (option string) :=
  if mem name Settings_fields then Ok (env name) else Raise (AttributeError name).

(** [StorageService.__init__] *)
Definition StorageService_init : exn unit :=
  Py.bind get_supabase (fun _ =>
  Py.bind (settings_getattr "SUPABASE_BUCKET_NAME") (fun bucket_name =>
  match bucket_name with
  | Some b =>
      if nonempty b then Ok tt
      else Raise (Exception "ValueError: SUPABASE_BUCKET_NAME is not set in the environment settings.")
  | None =>
      Raise (Exception "ValueError: SUPABASE_BUCKET_NAME is not set in the environment settings.")
  end)).

(** [get_storage_service()]: [_storage_service_instance] is assigned only
    after [StorageService()] has returned, so as long as building raises the
    instance stays [None] and every call builds again. *)
Definition get_storage_service : exn unit := StorageService_init.

End Service.

End Storage.

(* ================================================================== *)
(** * Reference definitions *)
(* ================================================================== *)

Module Reference.
Import PDFForensicsService.

(** The weight the specification gives a finding of a risk level. *)
Definition weight_of_level (level : string) : Z :=
  if String.eqb level "high" then 3
  else if String.eqb level "medium" then 2
  else 1.


Fixpoint sumZ (l : list Z) : Z :=
  match l with
  | [] => 0
  | x :: r => x + sumZ r
  end%Z.


(** The risk score of an analysis with the given findings. *)
Definition score_of (objs : list SuspiciousObject) (anoms : list Anomaly)
           (els : list StructureElement) (total : Z) (flags : list string) : Z :=
  risk_score (summary (_combine_analysis_results
                         (PdfidParsed objs total flags) (PikepdfParsed anoms els))).

End Reference.

(* ================================================================== *)
(** * Fixtures *)
(* ================================================================== *)

Module Fixtures.
Import PDFForensicsService Backend.

(** One high-risk object ([/JS]) and the anomaly of a modification date
    before the creation date, as the analysers report them. *)
Definition js_object : SuspiciousObject :=
  {| so_type := "/JS";
     so_count := 1;
     risk_level := _get_risk_level "/JS";
     so_explanation := "JavaScript can execute malicious code when PDF is opened" |}.

Definition mod_before_creation : Anomaly :=
  {| an_type := "time_anomaly";
     description := "Modification date is before creation date";
     severity := "high";
     an_explanation := Some "This is logically impossible and indicates metadata tampering. The document timestamps have been forged." |}.

(** A stand-in for the imaging libraries: [broken.jpg] cannot be decoded,
    every other image yields the indicators [(0.05, 0.1)]. *)
Definition stub_lib : ImageForensicsService.Lib unit unit unit :=
  {| ImageForensicsService.Image_open :=
       fun p => if String.eqb p "broken.jpg"
                then Raise (Exception "cannot identify image file")
                else Ok tt;
     ImageForensicsService.mode_is_RGB := fun _ => true;
     ImageForensicsService.convert_RGB := fun i => Ok i;
     ImageForensicsService.mktemp := Ok "/tmp/tmpela.jpg";
     ImageForensicsService.save_jpeg95 := fun _ _ => Ok tt;
     ImageForensicsService._calculate_ela := fun _ _ => Ok tt;
     ImageForensicsService.ela_indicators := fun _ => Ok (0.05, 0.1);
     ImageForensicsService.render_heatmap :=
       fun _ _ => Ok "static/heatmaps/ela_heatmap.png";
     ImageForensicsService.unlink_if_exists := fun _ => Ok tt;
     ImageForensicsService.softmax_forward :=
       fun _ _ => Raise (Exception "inference failed");
     ImageForensicsService.local_copy := fun p => Ok p |}.

(** A stored PDF whose analysis has finished, and one being analysed. *)
Definition completed_pdf : File :=
  {| id := 1;
     file_id := "f-1";
     filename := "f-1.pdf";
     original_filename := "report.pdf";
     file_type := "pdf";
     mime_type := "application/pdf";
     file_size := 4;
     file_hash := "h";
     storage_path := "pdf/f-1.pdf";
     storage_type := "supabase";
     verdict := Some "authentic";
     confidence_score := Some 0.9;
     analysis_status := "completed";
     analysis_date := Some 100%Z |}.

Definition processing_pdf : File :=
  {| id := 2;
     file_id := "f-2";
     filename := "f-2.pdf";
     original_filename := "invoice.pdf";
     file_type := "pdf";
     mime_type := "application/pdf";
     file_size := 4;
     file_hash := "h2";
     storage_path := "pdf/f-2.pdf";
     storage_type := "supabase";
     verdict := None;
     confidence_score := None;
     analysis_status := "processing";
     analysis_date := None |}.

Definition world_of (fs : list File) : World :=
  {| files := fs; reports := []; background_tasks := []; uuid_calls := 0 |}.

Definition stub_uuid4 (n : nat) : string := "uuid-" ++ str_of_Z (Z.of_nat n).

(** The four bytes [%PDF]. *)
Definition pdf_bytes : bytes := [Byte.x25; Byte.x50; Byte.x44; Byte.x46].

(** An environment that sets the Supabase bucket, and a Supabase client
    that can be built. *)
Definition stub_env (name : string) : option string :=
  if String.eqb name "SUPABASE_STORAGE_BUCKET" then Some "uploads" else None.

Definition stub_storage : exn unit :=
  Storage.get_storage_service stub_env true.

(** [POST /upload] with a detector that recognises a PDF, the storage
    service of the repository and a Supabase that answers 200. *)
Definition stub_upload (sha256 : bytes -> string) :=
  upload_file sha256 (fun _ => Ok (Some "application/pdf")) (fun _ => None)
              stub_uuid4 stub_storage (fun _ _ => Ok 200%Z).

(** [POST /public/upload] in the same surroundings, with a local [uploads]
    directory that can be written. *)
Definition stub_public_upload (sha256 : bytes -> string) :=
  public_upload_file sha256 stub_uuid4 stub_storage (fun _ _ => Ok 200%Z)
                     (Ok tt) (fun _ _ => Ok tt).

End Fixtures.

(* ================================================================== *)
(** * More of the routes *)
(* ================================================================== *)

Module Routes.
Import Backend.

(** The body of [GET /upload/status/{file_id}], without the upload date. *)
Record StatusBody : Type := {
  sb_file_id : string;
  sb_filename : string;
  sb_file_type : string;
  sb_analysis_status : string;
  sb_verdict : option string;
  sb_confidence_score : option float;
  sb_analysis_date : option Z;
}.

Definition get_upload_status_try (fid : string) (w : World) : exn StatusBody :=
  match query_by_file_id w fid with
  | None => Raise (HTTPException 404 "File not found")
  | Some db_file =>
      Ok {| sb_file_id := file_id db_file;
            sb_filename := original_filename db_file;
            sb_file_type := file_type db_file;
            sb_analysis_status := analysis_status db_file;
            sb_verdict := verdict db_file;
            sb_confidence_score := confidence_score db_file;
            sb_analysis_date := analysis_date db_file |}
  end.

(** [GET /upload/status/{file_id}] *)
Definition get_upload_status (fid : string) (w : World) : exn StatusBody :=
  route (get_upload_status_try fid w) "Failed to get file status".

(** The [unique=True] of the [file_id] column, as a property of a table. *)
Definition unique_file_ids (w : World) : Prop :=
  NoDup (map file_id (files w)).

(** [f'] is [f] up to the status, which is the one of [f] or
    [processing]: every other column is the same. *)
Definition same_but_status (f f' : File) : Prop :=
  id f' = id f /\
  file_id f' = file_id f /\
  filename f' = filename f /\
  original_filename f' = original_filename f /\
  file_type f' = file_type f /\
  mime_type f' = mime_type f /\
  file_size f' = file_size f /\
  file_hash f' = file_hash f /\
  storage_path f' = storage_path f /\
  storage_type f' = storage_type f /\
  verdict f' = verdict f /\
  confidence_score f' = confidence_score f /\
  analysis_date f' = analysis_date f /\
  (analysis_status f' = analysis_status f \/ analysis_status f' = "processing").

(** What FastAPI turns into a response with a status code of its own. *)
Definition is_http (e : exc) : Prop :=
  match e with HTTPException _ _ => True | Exception _ => False end.

(** A stand-in digest for closed examples: the bytes themselves, tagged. *)
Definition stub_digest (b : bytes) : string :=
  "digest:" ++ string_of_list_byte b.


Definition stub_image_result : ImageForensicsService.ImageAnalysis :=
  {| ImageForensicsService.verdict := "suspicious";
     ImageForensicsService.confidence_score := 0.81;
     ImageForensicsService.ela_result := "suspicious";
     ImageForensicsService.ela_confidence := 0.9;
     ImageForensicsService.ela_heatmap_path := "static/heatmaps/ela_heatmap.png";
     ImageForensicsService.cnn_result := "authentic";
     ImageForensicsService.cnn_confidence := 0.5 |}.

End Routes.

(* ================================================================== *)
(** * The analysis routes over a database that can fail *)
(* ================================================================== *)

Module Database.
Import Backend.

(** Where a request of [api/routes/analyze.py] reaches the database: the
    query for the row, the commit of the new status, and the reload of the
    row when [db_file.storage_path] is read after the commit (the session
    expires its objects on commit). *)
Inductive DbCall : Type :=
| db_query
| db_commit
| db_reload.

Section Faults.

(** What the database does to a call in a state of the tables: [None] when
    it answers, the message of the SQLAlchemy error when it fails. *)
Variable db_error : DbCall -> World -> option string.

Definition db_call (c : DbCall) (w : World) : exn unit :=
  match db_error c w with
  | None => Ok tt
  | Some m => Raise (Exception m)
  end.

(** A commit that raises has written nothing; the reload comes after the
    commit, so an error there leaves the new status in the table. *)
Definition analyze_pdf_try (fid : string) (w : World) : exn Json * World :=
  match db_call db_query w with
  | Raise e => (Raise e, w)
  | Ok _ =>
      match query_by_file_id w fid with
      | None => (Raise (HTTPException 404 "File not found"), w)
      | Some db_file =>
          if negb (String.eqb (file_type db_file) "pdf") then
            (Raise (HTTPException 400 "File is not a PDF"), w)
          else if String.eqb (analysis_status db_file) "processing" then
            (Ok [ ("file_id", VStr fid);
                  ("status", VStr "processing");
                  ("message", VStr "PDF analysis already in progress") ], w)
          else
            match db_call db_commit w with
            | Raise e => (Raise e, w)
            | Ok _ =>
                let w1 :=
                  update_row (id db_file) (set_analysis_status "processing") w in
                match db_call db_reload w1 with
                | Raise e => (Raise e, w1)
                | Ok _ =>
                    let w2 :=
                      add_task {| task_fn := fn_run_pdf_analysis;
                                  task_file_id := fid;
                                  task_storage_path := storage_path db_file |}
                               w1 in
                    (Ok [ ("file_id", VStr fid);
                          ("status", VStr "processing");
                          ("message", VStr "PDF analysis started") ], w2)
                end
            end
      end
  end.

(** [POST /analyze/pdf/{file_id}] *)
Definition analyze_pdf (fid : string) (w : World) : exn Json * World :=
  let '(r, w') := analyze_pdf_try fid w in
  (route r "Failed to start PDF analysis", w').

Definition analyze_image_try (fid : string) (w : World) : exn Json * World :=
  match db_call db_query w with
  | Raise e => (Raise e, w)
  | Ok _ =>
      match query_by_file_id w fid with
      | None => (Raise (HTTPException 404 "File not found"), w)
      | Some db_file =>
          if negb (String.eqb (file_type db_file) "image") then
            (Raise (HTTPException 400 "File is not an image"), w)
          else if String.eqb (analysis_status db_file) "processing" then
            (Ok [ ("file_id", VStr fid);
                  ("status", VStr "processing");
                  ("message", VStr "Image analysis already in progress") ], w)
          else
            match db_call db_commit w with
            | Raise e => (Raise e, w)
            | Ok _ =>
                let w1 :=
                  update_row (id db_file) (set_analysis_status "processing") w in
                match db_call db_reload w1 with
                | Raise e => (Raise e, w1)
                | Ok _ =>
                    let w2 :=
                      add_task {| task_fn := fn_run_image_analysis;
                                  task_file_id := fid;
                                  task_storage_path := storage_path db_file |}
                               w1 in
                    (Ok [ ("file_id", VStr fid);
                          ("status", VStr "processing");
                          ("message", VStr "Image analysis started") ], w2)
                end
            end
      end
  end.

(** [POST /analyze/image/{file_id}] *)
Definition analyze_image (fid : string) (w : World) : exn Json * World :=
  let '(r, w') := analyze_image_try fid w in
  (route r "Failed to start image analysis", w').

End Faults.

(** A database that answers every call. *)
Definition db_answers (c : DbCall) (w : World) : option string := None.


End Database.

(* ================================================================== *)
(** * More of services/pdf_forensics.py *)
(* ================================================================== *)

Module PdfScan.
Import PDFForensicsService.
Import Backend (nonempty).

(** ** Text helpers of the interpreter *)

(** [c.isspace()] for a code point below 256. *)
Definition is_space (c : ascii) : bool :=
  let n := nat_of_ascii c in
  ((9 <=? n)%nat && (n <=? 13)%nat) || ((28 <=? n)%nat && (n <=? 32)%nat)
  || (n =? 133)%nat || (n =? 160)%nat.

Definition snoc (s : string) (c : ascii) : string := s ++ String c "".

(** [s.split()]: the maximal runs of non-blank characters; [cur] is the run
    being read. *)
Fixpoint split_ws (cur : string) (s : string) : list string :=
  match s with
  | EmptyString => if nonempty cur then [cur] else []
  | String c r =>
      if is_space c then
        if nonempty cur then cur :: split_ws "" r else split_ws "" r
      else split_ws (snoc cur c) r
  end.

Definition split (s : string) : list string := split_ws "" s.

(** No blank character in [s]. *)
Fixpoint no_space (s : string) : bool :=
  match s with
  | EmptyString => true
  | String c r => negb (is_space c) && no_space r
  end.

(** [s.split(sep)] for a one-character separator. *)
Fixpoint split_on (sep : ascii) (cur : string) (s : string) : list string :=
  match s with
  | EmptyString => [cur]
  | String c r =>
      if Ascii.eqb c sep then cur :: split_on sep "" r
      else split_on sep (snoc cur c) r
  end.

Fixpoint lstrip (s : string) : string :=
  match s with
  | EmptyString => EmptyString
  | String c r => if is_space c then lstrip r else s
  end.

Fixpoint rstrip (s : string) : string :=
  match s with
  | EmptyString => EmptyString
  | String c r =>
      match rstrip r with
      | EmptyString => if is_space c then EmptyString else String c EmptyString
      | r' => String c r'
      end
  end.

(** [s.strip()] *)
Definition strip (s : string) : string := rstrip (lstrip s).

(** [d[k] = v] on a dictionary kept in insertion order. *)
Fixpoint dict_set (d : list (string * Z)) (k : string) (v : Z) : list (string * Z) :=
  match d with
  | [] => [(k, v)]
  | (k', v') :: r =>
      if String.eqb k' k then (k, v) :: r else (k', v') :: dict_set r k v
  end.

(** [d.get(k)] on a dictionary of strings. *)
Fixpoint dict_get (d : list (string * string)) (k : string) : option string :=
  match d with
  | [] => None
  | (k', v) :: r => if String.eqb k' k then Some v else dict_get r k
  end.

(** ** [_parse_pdfid_output] *)

Definition explanations : list (string * string) :=
  [ ("/JS", "JavaScript can execute malicious code when PDF is opened");
    ("/JavaScript", "JavaScript can execute malicious code when PDF is opened");
    ("/Launch", "Can launch external programs or applications");
    ("/SubmitForm", "Can submit form data to external servers");
    ("/ImportData", "Can import data from external sources");
    ("/OpenAction", "Executes actions automatically when PDF opens");
    ("/AA", "Additional actions that execute automatically");
    ("/URI", "Can open external websites or URLs");
    ("/GoTo", "Can navigate to external destinations");
    ("/GoToR", "Can navigate to external destinations with remote go-to");
    ("/AcroForm", "Interactive forms can contain malicious scripts");
    ("/EmbeddedFile", "Can contain hidden executable files");
    ("/FileAttachment", "Can contain hidden executable files");
    ("/RichMedia", "Can contain multimedia content with scripts");
    ("/3D", "3D content can contain embedded scripts");
    ("/Movie", "Movie content can contain embedded scripts") ].

Definition _get_suspicious_explanation (obj_type : string) : string :=
  match dict_get explanations obj_type with
  | Some e => e
  | None => "Unknown suspicious object type: " ++ obj_type
  end.

(** The [results] dictionary while the lines are read. *)
Record ParseState : Type := {
  objects : list (string * Z);
  suspicious_objects : list SuspiciousObject;
  total_objects : Z;
  security_flags : list string;
}.

Section Parse.

(** The builtin [int(s)], which raises [ValueError] on text that is no
    number. *)
Variable int_of_str : string -> exn Z.

(** [x = l[i]], an [IndexError] past the end. *)
Definition index (l : list string) (i : nat) : exn string :=
  match nth_error l i with
  | Some x => Ok x
  | None => Raise (Exception "IndexError: list index out of range")
  end.

(** The body of the loop for one line. *)
Definition parse_line (st : ParseState) (line : string) : exn ParseState :=
  if startswith line "obj " then
    let parts := split line in
    if (2 <=? List.length parts)%nat then
      Py.bind (index parts 1) (fun obj_type =>
      Py.bind (index parts 0) (fun part0 =>
      Py.bind (if (1 <? List.length (split part0))%nat
               then Py.bind (index (split part0) 1) int_of_str
               else Ok 0%Z) (fun count =>
      let st1 :=
        {| objects := dict_set (objects st) obj_type count;
           suspicious_objects := suspicious_objects st;
           total_objects := (total_objects st + count)%Z;
           security_flags := security_flags st |} in
      if _is_suspicious_object obj_type then
        let level := _get_risk_level obj_type in
        let explanation := _get_suspicious_explanation obj_type in
        Ok {| objects := objects st1;
              suspicious_objects :=
                append (suspicious_objects st1)
                       {| so_type := obj_type; so_count := count;
                          risk_level := level; so_explanation := explanation |};
              total_objects := total_objects st1;
              security_flags :=
                if String.eqb level "high" then
                  append (security_flags st1)
                         ("High-risk object detected: " ++ obj_type
                          ++ " (count: " ++ str_of_Z count ++ ")")
                else security_flags st1 |}
      else Ok st1)))
    else Ok st
  else Ok st.

Fixpoint parse_lines (st : ParseState) (lines : list string) : exn ParseState :=
  match lines with
  | [] => Ok st
  | line :: rest => Py.bind (parse_line st line) (fun st' => parse_lines st' rest)
  end.

Definition _parse_pdfid_output (output : string) : exn ParseState :=
  let lines := split_on "010" "" (strip output) in
  parse_lines {| objects := []; suspicious_objects := [];
                 total_objects := 0; security_flags := [] |} lines.

(** The object type a line contributes: the second word of a line that
    starts with ["obj "] and has two words. *)
Definition line_types (line : string) : list string :=
  if startswith line "obj " then
    match split line with
    | _ :: obj_type :: _ => [obj_type]
    | _ => []
    end
  else [].

(** The object types of a report, in the order of its lines. *)
Definition listed_types (output : string) : list string :=
  flat_map line_types (split_on "010" "" (strip output)).

(** What recording an object type with count 0 does to the dictionary. *)
Definition record_type (st : ParseState) (obj_type : string) : ParseState :=
  {| objects := dict_set (objects st) obj_type 0;
     suspicious_objects :=
       if _is_suspicious_object obj_type then
         append (suspicious_objects st)
                {| so_type := obj_type; so_count := 0;
                   risk_level := _get_risk_level obj_type;
                   so_explanation := _get_suspicious_explanation obj_type |}
       else suspicious_objects st;
     total_objects := (total_objects st + 0)%Z;
     security_flags :=
       if _is_suspicious_object obj_type
          && String.eqb (_get_risk_level obj_type) "high" then
         append (security_flags st)
                ("High-risk object detected: " ++ obj_type ++ " (count: 0)")
       else security_flags st |}.

(** The entry and the flag the loop writes for a suspicious type. *)
Definition listed_object (obj_type : string) : SuspiciousObject :=
  {| so_type := obj_type; so_count := 0;
     risk_level := _get_risk_level obj_type;
     so_explanation := _get_suspicious_explanation obj_type |}.

Definition high_risk_flag (obj_type : string) : string :=
  "High-risk object detected: " ++ obj_type ++ " (count: 0)".

Definition newline : string := String "010" "".

(** A report in the layout PDFiD prints: a title line, then one line per
    keyword, indented by one blank. *)
Definition pdfid_report : string :=
  String.concat newline
    [ "PDFiD 0.2.8 sample.pdf";
      " PDF Header: %PDF-1.4";
      " obj                   12";
      " endobj                12";
      " stream                 3";
      " /Page                  1";
      " /JS                    1";
      " /JavaScript            1";
      " /OpenAction            1" ].

(** What [pdfid_results] is to the scoring: the parsed state, or the error
    dictionary. *)
Definition results_of (st : ParseState) : PdfidResults :=
  PdfidParsed (suspicious_objects st) (total_objects st) (security_flags st).

(** ** [_run_pdfid_analysis] *)

(** How [subprocess.run(["pdfid", "-f", path], timeout=30)] can end. *)
Inductive Subprocess : Type :=
| Completed (returncode : Z) (stdout stderr : string)
| TimeoutExpired
| FileNotFoundError
| OtherError (msg : string).

Definition _run_pdfid_analysis (run : Subprocess) : PdfidResults :=
  match run with
  | Completed returncode stdout stderr =>
      if negb (returncode =? 0)%Z then
        PdfidError ("PDFiD analysis failed: " ++ stderr)
      else
        match _parse_pdfid_output stdout with
        | Ok st => results_of st
        | Raise (Exception m) => PdfidError m
        | Raise (HTTPException _ d) => PdfidError d
        end
  | TimeoutExpired => PdfidError "PDFiD analysis timed out"
  | FileNotFoundError => PdfidError "PDFiD not installed"
  | OtherError m => PdfidError m
  end.

End Parse.

End PdfScan.

Module PdfMeta.
Import PDFForensicsService PdfScan.
Import Backend (nonempty).

(** A [datetime] as [strptime] builds it from the formats below: the
    wall-clock time in microseconds, and the UTC offset in microseconds when
    the text carried one ([%z]). *)
Record datetime : Type := {
  wall_us : Z;
  utcoffset_us : option Z;
}.

Definition naive_aware : exc :=
  Exception "TypeError: can't compare offset-naive and offset-aware datetimes".

(** [a < b] on datetimes: naive with naive, aware with aware. *)
Definition dt_lt (a b : datetime) : exn bool :=
  match utcoffset_us a, utcoffset_us b with
  | None, None => Ok (wall_us a <? wall_us b)%Z
  | Some oa, Some ob => Ok (wall_us a - oa <? wall_us b - ob)%Z
  | _, _ => Raise naive_aware
  end.

(** [a - b], in microseconds. *)
Definition dt_sub (a b : datetime) : exn Z :=
  match utcoffset_us a, utcoffset_us b with
  | None, None => Ok (wall_us a - wall_us b)%Z
  | Some oa, Some ob => Ok ((wall_us a - oa) - (wall_us b - ob))%Z
  | _, _ => Raise naive_aware
  end.

(** A pikepdf document, as far as the analysis reads it. *)
Record PdfDoc : Type := {
  (** [str(key)], [str(value)] of [pdf.docinfo]. *)
  docinfo : list (string * string);
  (** [/Names] in the trailer, with [/JavaScript] in it. *)
  names_javascript : bool;
  (** [/AcroForm] in the trailer. *)
  has_acroform : bool;
  (** [len(page["/Annots"])] of the pages that have annotations. *)
  annots : list Z;
}.

Section Meta.

(** [datetime.strptime(text, format)]; [None] stands for its [ValueError]. *)
Variable strptime : string -> string -> option datetime.

Definition formats : list string :=
  [ "%Y%m%d%H%M%S"; "%Y%m%d%H%M%S%z"; "%Y%m%d%H%M%S'%z'"; "%Y%m%d%H%M%S'%z'%Z" ].

Fixpoint first_format (date_str : string) (fmts : list string) : option datetime :=
  match fmts with
  | [] => None
  | fmt :: rest =>
      match strptime date_str fmt with
      | Some d => Some d
      | None => first_format date_str rest
      end
  end.

Definition _parse_pdf_date (date_str : string) : option datetime :=
  let date_str :=
    if startswith date_str "D:"
    then String.substring 2 (String.length date_str - 2) date_str
    else date_str in
  first_format date_str formats.

Definition time_anomaly : Anomaly :=
  {| an_type := "time_anomaly";
     description := "Modification date is before creation date";
     severity := "high";
     an_explanation := Some "This is logically impossible and indicates metadata tampering. The document timestamps have been forged." |}.

Definition time_suspicious : Anomaly :=
  {| an_type := "time_suspicious";
     description := "Creation and modification times are very close";
     severity := "medium";
     an_explanation := Some "Document was created and immediately modified, which may indicate automated generation or tampering" |}.

Definition metadata_missing : Anomaly :=
  {| an_type := "metadata_missing";
     description := "Missing producer/creator information";
     severity := "medium";
     an_explanation := Some "Legitimate documents typically have producer/creator metadata. Missing data may indicate file tampering or creation with malicious tools." |}.

Definition suspicious_producer (raw : string) : Anomaly :=
  {| an_type := "suspicious_producer";
     description := "Unusual producer: " ++ raw;
     severity := "medium";
     an_explanation :=
       Some ("This producer string '" ++ raw
             ++ "' does not match known legitimate software. It may indicate file tampering, creation with a malicious tool, or use of obscure/outdated software.") |}.

(** The names the code calls [suspicious_producers]; a producer that
    contains one of them is accepted. *)
Definition suspicious_producers : list string :=
  ["adobe"; "acrobat"; "pdf"; "word"; "excel"; "libreoffice"; "openoffice"].

(** The [try] block on the two dates: what it appends, or its exception. *)
Definition time_check (creation_text mod_text : string) : exn (list Anomaly) :=
  match _parse_pdf_date creation_text, _parse_pdf_date mod_text with
  | Some creation_date, Some mod_date =>
      Py.bind (dt_lt mod_date creation_date) (fun before =>
      if before then Ok [time_anomaly]
      else
        Py.bind (dt_sub mod_date creation_date) (fun diff_us =>
        (* [.total_seconds() < 60] *)
        if (diff_us <? 60000000)%Z then Ok [time_suspicious] else Ok []))
  | _, _ => Ok []
  end.

(** What the block on the two dates leaves in [anomalies]. *)
Definition time_part (metadata : list (string * string)) : list Anomaly :=
  match dict_get metadata "/CreationDate", dict_get metadata "/ModDate" with
  | Some c, Some m =>
      match time_check c m with
      | Ok found => found
      | Raise _ => []
      end
  | _, _ => []
  end.

Definition _detect_anomalies (metadata : list (string * string)) : list Anomaly :=
  let anomalies := [] in
  let anomalies :=
    match dict_get metadata "/CreationDate", dict_get metadata "/ModDate" with
    | Some c, Some m =>
        match time_check c m with
        | Ok found => (anomalies ++ found)%list
        | Raise _ => anomalies
        end
    | _, _ => anomalies
    end in
  let anomalies :=
    match dict_get metadata "/Producer", dict_get metadata "/Creator" with
    | None, None => append anomalies metadata_missing
    | _, _ => anomalies
    end in
  let raw := match dict_get metadata "/Producer" with Some p => p | None => "" end in
  let producer := lower raw in
  if nonempty producer
     && negb (existsb (fun sp => contains producer sp) suspicious_producers)
  then append anomalies (suspicious_producer raw)
  else anomalies.

Definition _analyze_pdf_structure (pdf : PdfDoc) : list StructureElement :=
  let suspicious_elements := [] in
  let suspicious_elements :=
    if names_javascript pdf then
      append suspicious_elements
             {| element := "JavaScript found in document names";
                risk := "high";
                se_explanation := "JavaScript can execute malicious code automatically" |}
    else suspicious_elements in
  let suspicious_elements :=
    if has_acroform pdf then
      append suspicious_elements
             {| element := "Interactive forms detected";
                risk := "medium";
                se_explanation := "Forms can contain scripts and submit data to external sources" |}
    else suspicious_elements in
  let annotation_count := fold_left Z.add (annots pdf) 0%Z in
  if (annotation_count >? 0)%Z && (annotation_count >? 10)%Z then
    append suspicious_elements
           {| element := "High number of annotations: " ++ str_of_Z annotation_count;
              risk := "medium";
              se_explanation := "Excessive annotations may indicate document tampering" |}
  else suspicious_elements.

(** [_run_pikepdf_analysis]: [opened] is how opening the file and reading
    the document went; an exception anywhere inside the [with] block ends in
    the error dictionary. *)
Definition _run_pikepdf_analysis (opened : exn PdfDoc) : PikepdfResults :=
  match opened with
  | Raise (Exception m) => PikepdfError m
  | Raise (HTTPException _ d) => PikepdfError d
  | Ok pdf => PikepdfParsed (_detect_anomalies (docinfo pdf)) (_analyze_pdf_structure pdf)
  end.

(** The surroundings of [analyze_pdf]. *)
Variable int_of_str : string -> exn Z.
(** [self.pdfid_available], found once when the service is built. *)
Variable pdfid_available : bool.
Variable run_pdfid : string -> Subprocess.
Variable pikepdf_open : string -> exn PdfDoc.
(** [if os.path.exists(p): os.unlink(p)] *)
Variable unlink_if_exists : string -> exn unit.

(** [file_path.startswith(("s3://", "minio://"))] *)
Definition is_cloud_path (file_path : string) : bool :=
  startswith file_path "s3://" || startswith file_path "minio://".

(** Lines 61-73: a local path is analysed in place.  For a cloud path the
    code imports [storage_service] from [services/storage.py], which defines
    no such name, so the import raises. *)
Definition fetch (file_path : string) : exn string :=
  if is_cloud_path file_path then
    Raise (Exception "ImportError: cannot import name 'storage_service' from 'services.storage'")
  else Ok file_path.

(** [self._run_pdfid_analysis(p) if self.pdfid_available else {"error": ...}] *)
Definition pdfid_results_of (temp_file_path : string) : PdfidResults :=
  if pdfid_available then _run_pdfid_analysis int_of_str (run_pdfid temp_file_path)
  else PdfidError "PDFiD not installed".

(** [_generate_visual_charts] catches its own exceptions and its paths are
    carried along untouched; it is left out. *)
Definition analyze_pdf (file_path : string) : exn (string * float * Combined) :=
  Py.bind (fetch file_path) (fun temp_file_path =>
  let pdfid_results := pdfid_results_of temp_file_path in
  let pikepdf_results := _run_pikepdf_analysis (pikepdf_open temp_file_path) in
  let combined_analysis := _combine_analysis_results pdfid_results pikepdf_results in
  let '(verdict, confidence) := _determine_verdict combined_analysis in
  Py.bind (if is_cloud_path file_path
           then unlink_if_exists temp_file_path else Ok tt) (fun _ =>
  Ok (verdict, confidence, combined_analysis))).

(** What the background task reads of the result. *)
Definition analyze_pdf_verdict (file_path : string) : exn (string * float) :=
  match analyze_pdf file_path with
  | Ok (v, c, _) => Ok (v, c)
  | Raise e => Raise e
  end.

End Meta.

End PdfMeta.

(* ================================================================== *)
(** * Facts about doubles and the builtins *)
(* ================================================================== *)

Section FloatFacts.

(** Multiplication of doubles commutes, so [0.6 * e] and [e * 0.6] are the
    same double. *)
Lemma float_mul_comm (x y : float) : x * y = y * x.
Proof.
  apply Prim2SF_inj.
  rewrite !mul_spec.
  destruct (Prim2SF x) as [sx|sx| |sx mx ex], (Prim2SF y) as [sy|sy| |sy my ey];
    simpl; try reflexivity; try (now rewrite xorb_comm).
  now rewrite xorb_comm, Pos.mul_comm, Z.add_comm.
Qed.

Lemma SFcompare_swap (x y : spec_float) :
  SFcompare y x = option_map CompOpp (SFcompare x y).
Proof.
  destruct x as [sx|sx| |sx mx ex], y as [sy|sy| |sy my ey]; simpl;
    try reflexivity;
    try (destruct sx; reflexivity); try (destruct sy; reflexivity);
    try (destruct sx, sy; reflexivity).
  destruct sx, sy; simpl; try reflexivity;
    rewrite (Z.compare_antisym ex ey);
    destruct (ex ?= ey)%Z eqn:E; simpl; try reflexivity;
    change (PosDef.Pos.compare_cont Eq my mx) with (Pos.compare_cont Eq my mx);
    change (PosDef.Pos.compare_cont Eq mx my) with (Pos.compare_cont Eq mx my);
    rewrite (Pos.compare_cont_antisym mx my Eq); reflexivity.
Qed.

(** [x < y] excludes [y < x]. *)
Lemma float_ltb_asym (x y : float) :
  PrimFloat.ltb x y = true -> PrimFloat.ltb y x = false.
Proof.
  rewrite !ltb_spec. unfold SFltb.
  rewrite (SFcompare_swap (Prim2SF x) (Prim2SF y)).
  destruct (SFcompare (Prim2SF x) (Prim2SF y)) as [[ | | ]|]; simpl; congruence.
Qed.

Lemma float_ltb_leb (x y : float) :
  PrimFloat.ltb x y = true -> PrimFloat.leb x y = true.
Proof.
  rewrite ltb_spec, leb_spec.
  unfold SFltb, SFleb.
  destruct (SFcompare (Prim2SF x) (Prim2SF y)) as [[ | | ]|]; congruence.
Qed.

(** [min] and [max] return one of their arguments. *)
Lemma min_cases (a b : float) :
  (PrimFloat.ltb b a = true /\ Py.min a b = b) \/
  (PrimFloat.ltb b a = false /\ Py.min a b = a).
Proof.
  unfold Py.min. destruct (PrimFloat.ltb b a); auto.
Qed.

Lemma max_cases (a b : float) :
  (PrimFloat.ltb a b = true /\ Py.max a b = b) \/
  (PrimFloat.ltb a b = false /\ Py.max a b = a).
Proof.
  unfold Py.max, gt. destruct (PrimFloat.ltb a b); auto.
Qed.

(** Clamping with [max(lo, min(hi, x))] lands in [[lo, hi]] for every
    double [x], NaN and the infinities included. *)
Lemma clamp_range (lo hi x : float) :
  PrimFloat.leb lo lo = true -> PrimFloat.leb hi hi = true ->
  PrimFloat.ltb lo hi = true ->
  let r := Py.max lo (Py.min hi x) in
  PrimFloat.leb lo r = true /\ PrimFloat.leb r hi = true.
Proof.
  intros Hlo Hhi Hlt r. subst r.
  destruct (max_cases lo (Py.min hi x)) as [[H1 ->]|[_ ->]].
  - split; [now apply float_ltb_leb|].
    destruct (min_cases hi x) as [[H2 ->]|[_ ->]]; [now apply float_ltb_leb|exact Hhi].
  - split; [exact Hlo|now apply float_ltb_leb].
Qed.

Lemma string_eqb_neq_false (a b : string) : a <> b -> String.eqb a b = false.
Proof. intro H. now apply String.eqb_neq. Qed.

End FloatFacts.

(* ================================================================== *)
(** * Image forensics: the two signals and their combination *)
(* ================================================================== *)

Section ImageFacts.
Import ImageForensicsService.

(** C1.  Agreeing signals keep their category with confidence
    [0.6*e + 0.4*c]; disagreeing signals take the category of the strictly
    more confident one, its confidence times [0.9].  The two instances of
    the specification evaluate to [(suspicious, 0.81)] and
    [(authentic, 0.72)] as doubles. *)
Theorem combine_results_rule (er cr : string) (e c : float) :
  (er = cr -> _combine_results er e cr c = (er, 0.6 * e + 0.4 * c)) /\
  (er <> cr -> gt e c = true -> _combine_results er e cr c = (er, 0.9 * e)) /\
  (er <> cr -> gt c e = true -> _combine_results er e cr c = (cr, 0.9 * c)) /\
  _combine_results "suspicious" 0.9 "authentic" 0.5 = ("suspicious", 0.81) /\
  _combine_results "authentic" 0.8 "authentic" 0.6 = ("authentic", 0.72).
Proof.
  unfold _combine_results.
  repeat split.
  - intros ->. rewrite String.eqb_refl.
    now rewrite (float_mul_comm 0.6 e), (float_mul_comm 0.4 c).
  - intros Hne Hgt. rewrite (string_eqb_neq_false _ _ Hne), Hgt.
    now rewrite (float_mul_comm 0.9 e).
  - intros Hne Hgt. rewrite (string_eqb_neq_false _ _ Hne).
    unfold gt in *. rewrite (float_ltb_asym _ _ Hgt).
    now rewrite (float_mul_comm 0.9 c).
Qed.

(** When the two categories differ and neither confidence is strictly
    higher (a tie, or a NaN), the classifier's side is taken. *)
Lemma combine_results_tie (er cr : string) (e c : float) :
  er <> cr -> gt e c = false ->
  _combine_results er e cr c = (cr, c * 0.9).
Proof.
  intros Hne Hle. unfold _combine_results.
  now rewrite (string_eqb_neq_false _ _ Hne), Hle.
Qed.

Context {image ndarray model : Type}.
Variable lib : Lib image ndarray model.

(** The signal of a complete ELA pass: the result for the score, with the
    heatmap that was written ([""] when drawing it failed). *)
Lemma run_ela_analysis_success (file_path tmp : string) (img rgb saved : image)
      (ela_image : ndarray) (r d : float) :
  Image_open lib file_path = Ok img ->
  to_RGB lib img = Ok rgb ->
  mktemp lib = Ok tmp ->
  save_jpeg95 lib rgb tmp = Ok tt ->
  Image_open lib tmp = Ok saved ->
  _calculate_ela lib rgb saved = Ok ela_image ->
  ela_indicators lib ela_image = Ok (r, d) ->
  unlink_if_exists lib tmp = Ok tt ->
  _run_ela_analysis lib file_path =
    Ok (fst (ela_result_of (tampering_score_of r d)),
        snd (ela_result_of (tampering_score_of r d)),
        match render_heatmap lib ela_image file_path with
        | Ok h => h
        | Raise _ => ""
        end).
Proof.
  intros H1 H2 H3 H4 H5 H6 H7 H9.
  unfold _run_ela_analysis, _run_ela_analysis_try.
  rewrite H1. cbn [Py.bind]. rewrite H2. cbn [Py.bind]. rewrite H3. cbn [Py.bind].
  rewrite H4. cbn [Py.bind]. rewrite H5. cbn [Py.bind]. rewrite H6. cbn [Py.bind].
  unfold _analyze_ela_patterns, _analyze_ela_patterns_try. rewrite H7.
  cbn [Py.bind try_except fst snd].
  unfold _generate_ela_heatmap.
  destruct (render_heatmap lib ela_image file_path) as [h|e];
    cbn [Py.bind try_except]; rewrite H9; cbn [Py.bind try_except];
    now destruct (ela_result_of (tampering_score_of r d)).
Qed.

(** C5.  On an image the ELA step can read, with indicators [r] and [d],
    the tampering score is [min(1.0, 10*(0.7*r + 0.3*d))] and the signal
    [_run_ela_analysis] returns is: suspicious with
    [min(0.95, 0.6 + 0.3*score)] for a score above 0.7; suspicious with
    [min(0.85, 0.5 + 0.3*score)] for a score above 0.4 and not above 0.7;
    authentic with [max(0.6, 0.9 - 0.3*score)] for any other score; each
    with the heatmap that was drawn.  The ends of the middle range: 0.7 is
    in it, 0.4 is not. *)
Theorem ela_score_and_signal (file_path tmp : string) (img rgb saved : image)
        (ela_image : ndarray) (r d : float) :
  Image_open lib file_path = Ok img ->
  to_RGB lib img = Ok rgb ->
  mktemp lib = Ok tmp ->
  save_jpeg95 lib rgb tmp = Ok tt ->
  Image_open lib tmp = Ok saved ->
  _calculate_ela lib rgb saved = Ok ela_image ->
  ela_indicators lib ela_image = Ok (r, d) ->
  unlink_if_exists lib tmp = Ok tt ->
  let score := Py.min 1.0 (10 * (0.7 * r + 0.3 * d)) in
  let heatmap := match render_heatmap lib ela_image file_path with
                 | Ok h => h
                 | Raise _ => ""
                 end in
  _analyze_ela_patterns lib ela_image = Ok score /\
  (gt score 0.7 = true ->
     _run_ela_analysis lib file_path
     = Ok ("suspicious", Py.min 0.95 (0.6 + 0.3 * score), heatmap)) /\
  (gt score 0.4 = true -> gt score 0.7 = false ->
     _run_ela_analysis lib file_path
     = Ok ("suspicious", Py.min 0.85 (0.5 + 0.3 * score), heatmap)) /\
  (gt score 0.4 = false -> gt score 0.7 = false ->
     _run_ela_analysis lib file_path
     = Ok ("authentic", Py.max 0.6 (0.9 - 0.3 * score), heatmap)) /\
  ela_result_of 0.7 = ("suspicious", 0.71) /\
  ela_result_of 0.4 = ("authentic", 0.78).
Proof.
  intros H1 H2 H3 H4 H5 H6 H7 H9 score heatmap.
  assert (Hscore : tampering_score_of r d = score).
  { unfold tampering_score_of, score.
    now rewrite (float_mul_comm r 0.7), (float_mul_comm d 0.3),
                (float_mul_comm (0.7 * r + 0.3 * d) 10). }
  pose proof (run_ela_analysis_success file_path tmp img rgb saved ela_image r d
                H1 H2 H3 H4 H5 H6 H7 H9) as Hrun.
  rewrite Hscore in Hrun. fold heatmap in Hrun.
  repeat split.
  - unfold _analyze_ela_patterns, _analyze_ela_patterns_try.
    rewrite H7. cbn [Py.bind try_except fst snd]. now rewrite Hscore.
  - intros G7. rewrite Hrun. unfold ela_result_of. rewrite G7.
    cbn [fst snd]. now rewrite (float_mul_comm score 0.3).
  - intros G4 G7. rewrite Hrun. unfold ela_result_of. rewrite G7, G4.
    cbn [fst snd]. now rewrite (float_mul_comm score 0.3).
  - intros G4 G7. rewrite Hrun. unfold ela_result_of. rewrite G7, G4.
    cbn [fst snd]. now rewrite (float_mul_comm score 0.3).
Qed.

(** A failure inside the pattern analysis is absorbed there: the score is
    [0.0], which reads as authentic with confidence [0.9]. *)
Lemma analyze_ela_patterns_failure (ela_image : ndarray) (e : exc) :
  ela_indicators lib ela_image = Raise e ->
  _analyze_ela_patterns lib ela_image = Ok 0.0 /\
  ela_result_of 0.0 = ("authentic", 0.9).
Proof.
  intros H. unfold _analyze_ela_patterns, _analyze_ela_patterns_try.
  rewrite H. split; reflexivity.
Qed.

Lemma run_ela_analysis_total (file_path : string) :
  exists r, _run_ela_analysis lib file_path = Ok r.
Proof.
  unfold _run_ela_analysis.
  destruct (_run_ela_analysis_try lib file_path) as [r|e]; simpl; eauto.
Qed.

Lemma run_cnn_analysis_total (m : option model) (file_path : string) :
  exists r, _run_cnn_analysis lib m file_path = Ok r.
Proof.
  unfold _run_cnn_analysis.
  destruct (_run_cnn_analysis_try lib m file_path) as [r|e]; simpl; eauto.
Qed.

(** Neither signal can make the pipeline raise: it returns whenever
    fetching the file and removing the temporary copy do. *)
Lemma analyze_image_returns (m : option model) (file_path p : string) :
  local_copy lib file_path = Ok p ->
  (forall q, unlink_if_exists lib q = Ok tt) ->
  exists r, analyze_image lib m file_path = Ok r.
Proof.
  intros Hp Hclean. unfold analyze_image. rewrite Hp. simpl.
  destruct (run_ela_analysis_total p) as [[[er ec] eh] ->].
  destruct (run_cnn_analysis_total m p) as [[cr cc] ->]. simpl.
  destruct (_combine_results er ec cr cc) as [v c].
  destruct (startswith file_path "s3://" || startswith file_path "minio://");
    [rewrite Hclean|]; simpl; eauto.
Qed.

(** C9.  Without a loaded model the classifier signal is
    [(authentic, 0.5)]; so it is when anything in the classifier step
    raises (opening the image, the conversion, the inference); the step
    always returns; and the pipeline around it returns a result whenever
    fetching the file and removing the temporary copy do. *)
Theorem cnn_neutral_default (m : option model) (file_path : string) :
  (m = None -> _run_cnn_analysis lib m file_path = Ok ("authentic", 0.5)) /\
  (forall e, _run_cnn_analysis_try lib m file_path = Raise e ->
     _run_cnn_analysis lib m file_path = Ok ("authentic", 0.5)) /\
  (forall mm img e, m = Some mm -> Image_open lib file_path = Ok img ->
     mode_is_RGB lib img = true -> softmax_forward lib mm img = Raise e ->
     _run_cnn_analysis lib m file_path = Ok ("authentic", 0.5)) /\
  (exists r, _run_cnn_analysis lib m file_path = Ok r) /\
  (forall p, local_copy lib file_path = Ok p ->
     (forall q, unlink_if_exists lib q = Ok tt) ->
     exists r, analyze_image lib m file_path = Ok r).
Proof.
  repeat split.
  - intros ->. reflexivity.
  - intros e H. unfold _run_cnn_analysis. now rewrite H.
  - intros mm img e -> H1 H2 H3.
    unfold _run_cnn_analysis, _run_cnn_analysis_try, to_RGB.
    rewrite H1. simpl. rewrite H2. simpl. now rewrite H3.
  - apply run_cnn_analysis_total.
  - intros p Hp Hclean. now apply (analyze_image_returns m file_path p).
Qed.

(** C10.  Whatever raises inside the ELA step (in particular an image
    that cannot be opened) the step returns [(authentic, 0.5)] with an
    empty heatmap path, and it always returns. *)
Theorem ela_failure_neutral (file_path : string) :
  (forall e, _run_ela_analysis_try lib file_path = Raise e ->
     _run_ela_analysis lib file_path = Ok ("authentic", 0.5, "")) /\
  (forall e, Image_open lib file_path = Raise e ->
     _run_ela_analysis lib file_path = Ok ("authentic", 0.5, "")) /\
  (exists r, _run_ela_analysis lib file_path = Ok r) /\
  (forall m p, local_copy lib file_path = Ok p ->
     (forall q, unlink_if_exists lib q = Ok tt) ->
     exists r, analyze_image lib m file_path = Ok r).
Proof.
  repeat split.
  - intros e H. unfold _run_ela_analysis. now rewrite H.
  - intros e H. unfold _run_ela_analysis, _run_ela_analysis_try. now rewrite H.
  - apply run_ela_analysis_total.
  - intros m p Hp Hclean. now apply (analyze_image_returns m file_path p).
Qed.

End ImageFacts.

(* ================================================================== *)
(** * PDF forensics: risk score and verdict *)
(* ================================================================== *)

Section PdfFacts.
Import PDFForensicsService Reference Fixtures.

Lemma weight_of_level_bounds (level : string) :
  (1 <= weight_of_level level <= 3)%Z.
Proof.
  unfold weight_of_level.
  destruct (String.eqb level "high"), (String.eqb level "medium"); lia.
Qed.

Lemma sumZ_app (l1 l2 : list Z) : sumZ (l1 ++ l2) = (sumZ l1 + sumZ l2)%Z.
Proof. induction l1 as [|x l1 IH]; simpl; [reflexivity|]. rewrite IH. lia. Qed.

Lemma object_step_spec (acc : Acc) (o : SuspiciousObject) :
  fst (object_step acc o) = (fst acc + weight_of_level (risk_level o))%Z /\
  List.length (snd (object_step acc o)) = S (List.length (snd acc)).
Proof.
  destruct acc as [s d]. unfold object_step, weight_of_level, append.
  destruct (String.eqb (risk_level o) "high");
    [|destruct (String.eqb (risk_level o) "medium")];
    simpl; rewrite length_app; simpl; split; lia.
Qed.

Lemma anomaly_step_spec (acc : Acc) (a : Anomaly) :
  fst (anomaly_step acc a) = (fst acc + weight_of_level (severity a))%Z /\
  List.length (snd (anomaly_step acc a)) = S (List.length (snd acc)).
Proof.
  destruct acc as [s d]. unfold anomaly_step, weight_of_level, append.
  destruct (String.eqb (severity a) "high");
    [|destruct (String.eqb (severity a) "medium")];
    simpl; rewrite length_app; simpl; split; lia.
Qed.

Lemma element_step_spec (acc : Acc) (e : StructureElement) :
  fst (element_step acc e) = (fst acc + 2)%Z /\
  List.length (snd (element_step acc e)) = S (List.length (snd acc)).
Proof.
  destruct acc as [s d]. unfold element_step, append.
  simpl; rewrite length_app; simpl; split; lia.
Qed.

Lemma fold_object_step (objs : list SuspiciousObject) (acc : Acc) :
  fst (fold_left object_step objs acc)
  = (fst acc + sumZ (map (fun o => weight_of_level (risk_level o)) objs))%Z /\
  List.length (snd (fold_left object_step objs acc))
  = (List.length (snd acc) + List.length objs)%nat.
Proof.
  revert acc. induction objs as [|o objs IH]; intros acc.
  - simpl. split; lia.
  - cbn [fold_left map sumZ List.length].
    destruct (IH (object_step acc o)) as [IH1 IH2].
    destruct (object_step_spec acc o) as [S1 L1].
    rewrite IH1, IH2, S1, L1. split; lia.
Qed.

Lemma fold_anomaly_step (anoms : list Anomaly) (acc : Acc) :
  fst (fold_left anomaly_step anoms acc)
  = (fst acc + sumZ (map (fun a => weight_of_level (severity a)) anoms))%Z /\
  List.length (snd (fold_left anomaly_step anoms acc))
  = (List.length (snd acc) + List.length anoms)%nat.
Proof.
  revert acc. induction anoms as [|a anoms IH]; intros acc.
  - simpl. split; lia.
  - cbn [fold_left map sumZ List.length].
    destruct (IH (anomaly_step acc a)) as [IH1 IH2].
    destruct (anomaly_step_spec acc a) as [S1 L1].
    rewrite IH1, IH2, S1, L1. split; lia.
Qed.

Lemma fold_element_step (els : list StructureElement) (acc : Acc) :
  fst (fold_left element_step els acc) = (fst acc + 2 * Z.of_nat (List.length els))%Z /\
  List.length (snd (fold_left element_step els acc))
  = (List.length (snd acc) + List.length els)%nat.
Proof.
  revert acc. induction els as [|e els IH]; intros acc.
  - simpl. split; lia.
  - cbn [fold_left List.length].
    destruct (IH (element_step acc e)) as [IH1 IH2].
    destruct (element_step_spec acc e) as [S1 L1].
    rewrite IH1, IH2, S1, L1. split; lia.
Qed.

(** The score and the number of indicators of a combined analysis. *)
Lemma combine_summary (pdfid : PdfidResults) (pike : PikepdfResults) :
  let c := _combine_analysis_results pdfid pike in
  risk_score (summary c)
  = (sumZ (map (fun o => weight_of_level (risk_level o)) (get_suspicious_objects pdfid))
     + sumZ (map (fun a => weight_of_level (severity a)) (get_anomalies pike))
     + 2 * Z.of_nat (List.length (get_suspicious_elements pike)))%Z /\
  len (risk_indicators (summary c))
  = (len (get_suspicious_objects pdfid) + len (get_anomalies pike)
     + len (get_suspicious_elements pike))%Z.
Proof.
  unfold _combine_analysis_results.
  set (a1 := fold_left object_step (get_suspicious_objects pdfid) (0%Z, [])).
  set (a2 := fold_left anomaly_step (get_anomalies pike) a1).
  set (a3 := fold_left element_step (get_suspicious_elements pike) a2).
  destruct (fold_object_step (get_suspicious_objects pdfid) (0%Z, [])) as [S1 L1].
  destruct (fold_anomaly_step (get_anomalies pike) a1) as [S2 L2].
  destruct (fold_element_step (get_suspicious_elements pike) a2) as [S3 L3].
  fold a1 in S1, L1. fold a2 in S2, L2. fold a3 in S3, L3.
  destruct a3 as [s3 d3]. simpl in *. unfold len.
  split; [rewrite S3, S2, S1|rewrite L3, L2, L1]; simpl; lia.
Qed.

(** C8.  Adding a finding anywhere among the suspicious objects, the
    anomalies or the structure elements raises the risk score by that
    finding's weight: 3 for high, 2 for medium, 1 for anything else for an
    object or an anomaly, 2 for a structure element.  The score never
    decreases. *)
Theorem risk_score_monotone
        (objs1 objs2 : list SuspiciousObject) (anoms1 anoms2 : list Anomaly)
        (els1 els2 : list StructureElement) (total : Z) (flags : list string)
        (o : SuspiciousObject) (a : Anomaly) (el : StructureElement) :
  let before := score_of (objs1 ++ objs2) (anoms1 ++ anoms2) (els1 ++ els2) total flags in
  score_of (objs1 ++ o :: objs2) (anoms1 ++ anoms2) (els1 ++ els2) total flags
    = (before + weight_of_level (risk_level o))%Z /\
  score_of (objs1 ++ objs2) (anoms1 ++ a :: anoms2) (els1 ++ els2) total flags
    = (before + weight_of_level (severity a))%Z /\
  score_of (objs1 ++ objs2) (anoms1 ++ anoms2) (els1 ++ el :: els2) total flags
    = (before + 2)%Z /\
  (before <= score_of (objs1 ++ o :: objs2) (anoms1 ++ anoms2) (els1 ++ els2) total flags)%Z /\
  (before <= score_of (objs1 ++ objs2) (anoms1 ++ a :: anoms2) (els1 ++ els2) total flags)%Z /\
  (before <= score_of (objs1 ++ objs2) (anoms1 ++ anoms2) (els1 ++ el :: els2) total flags)%Z /\
  (0 <= before)%Z.
Proof.
  intros before. subst before. unfold score_of.
  repeat match goal with
         | |- context [risk_score (summary (_combine_analysis_results ?p ?q))] =>
             let H := fresh "E" in
             destruct (combine_summary p q) as [H _]; cbv zeta in H;
             rewrite H; clear H
         end.
  cbn [get_suspicious_objects get_anomalies get_suspicious_elements].
  rewrite !map_app, !sumZ_app, !length_app.
  cbn [map sumZ List.length].
  pose proof (weight_of_level_bounds (risk_level o)).
  pose proof (weight_of_level_bounds (severity a)).
  assert (Hpos : forall l : list string,
             (0 <= sumZ (map weight_of_level l))%Z).
  { induction l as [|x l IH]; simpl; [lia|].
    pose proof (weight_of_level_bounds x). lia. }
  pose proof (Hpos (map risk_level objs1)) as P1.
  pose proof (Hpos (map risk_level objs2)) as P2.
  pose proof (Hpos (map severity anoms1)) as P3.
  pose proof (Hpos (map severity anoms2)) as P4.
  rewrite !map_map in P1, P2, P3, P4.
  repeat split; lia.
Qed.

(** C8 as stated fails for structure elements.  A document whose name tree
    holds JavaScript gives one structure element of risk [high]; the claim
    gives a high-risk finding the weight 3, the code adds 2 for it, as it
    does for every structure element whatever its risk. *)
Lemma high_risk_element_counts_two :
  map risk (PdfMeta._analyze_pdf_structure
              {| PdfMeta.docinfo := []; PdfMeta.names_javascript := true;
                 PdfMeta.has_acroform := false; PdfMeta.annots := [] |})
  = ["high"] /\
  weight_of_level "high" = 3%Z /\
  score_of [] []
           (PdfMeta._analyze_pdf_structure
              {| PdfMeta.docinfo := []; PdfMeta.names_javascript := true;
                 PdfMeta.has_acroform := false; PdfMeta.annots := [] |})
           0 []
  = 2%Z /\
  score_of [] [] [] 0 [] = 0%Z.
Proof. repeat split. Qed.

(** The [/JS] object of the fixtures is what the scanner flags, at the
    high level. *)
Example js_object_is_high_risk :
  _is_suspicious_object "/JS" = true /\
  risk_level js_object = "high" /\
  _get_risk_level "/AcroForm" = "medium" /\
  _get_risk_level "/RichMedia" = "low".
Proof. repeat split. Qed.

(** C2.  The verdict of an analysis with risk score [s] and [n] risk
    indicators; the boundary between the two upper buckets lies between
    [s = 7] and [s = 8]; a [/JS] object with a modification-before-creation
    anomaly scores 6 and is [(suspicious, 0.84)]. *)
Theorem determine_verdict_thresholds (analysis : Combined) :
  let s := risk_score (summary analysis) in
  let n := len (risk_indicators (summary analysis)) in
  ((8 <= s \/ 5 <= n)%Z ->
     _determine_verdict analysis
     = ("suspicious", Py.min 0.95 (0.70 + 0.03 * float_of_Z s))) /\
  (~ (8 <= s \/ 5 <= n)%Z -> (4 <= s \/ 2 <= n)%Z ->
     _determine_verdict analysis
     = ("suspicious", Py.min 0.85 (0.60 + 0.04 * float_of_Z s))) /\
  (~ (8 <= s \/ 5 <= n)%Z -> ~ (4 <= s \/ 2 <= n)%Z -> (2 <= s)%Z ->
     _determine_verdict analysis
     = ("suspicious", Py.min 0.75 (0.50 + 0.05 * float_of_Z s))) /\
  (~ (8 <= s \/ 5 <= n)%Z -> ~ (4 <= s \/ 2 <= n)%Z -> ~ (2 <= s)%Z ->
     _determine_verdict analysis
     = ("authentic", Py.max 0.70 (0.90 - 0.10 * float_of_Z s))) /\
  (forall m : Z, verdict_of 8 m = ("suspicious", 0.94)) /\
  (forall m : Z, (m < 5)%Z -> verdict_of 7 m = ("suspicious", 0.85)) /\
  (let c := _combine_analysis_results
              (PdfidParsed [js_object] 1 [])
              (PikepdfParsed [mod_before_creation] []) in
   risk_score (summary c) = 6%Z /\
   _determine_verdict c = ("suspicious", 0.84)).
Proof.
  intros s n. unfold _determine_verdict. fold s. fold n. unfold verdict_of.
  rewrite !Z.geb_leb.
  repeat split.
  - intros H.
    assert (E : (8 <=? s)%Z || (5 <=? n)%Z = true)
      by (apply orb_true_iff; destruct H; [left|right]; lia).
    now rewrite E, (float_mul_comm 0.03).
  - intros H1 H2.
    assert (E1 : (8 <=? s)%Z || (5 <=? n)%Z = false)
      by (apply orb_false_iff; split; lia).
    assert (E2 : (4 <=? s)%Z || (2 <=? n)%Z = true)
      by (apply orb_true_iff; destruct H2; [left|right]; lia).
    now rewrite E1, E2, (float_mul_comm 0.04).
  - intros H1 H2 H3.
    assert (E1 : (8 <=? s)%Z || (5 <=? n)%Z = false)
      by (apply orb_false_iff; split; lia).
    assert (E2 : (4 <=? s)%Z || (2 <=? n)%Z = false)
      by (apply orb_false_iff; split; lia).
    assert (E3 : (2 <=? s)%Z = true) by lia.
    now rewrite E1, E2, E3, (float_mul_comm 0.05).
  - intros H1 H2 H3.
    assert (E1 : (8 <=? s)%Z || (5 <=? n)%Z = false)
      by (apply orb_false_iff; split; lia).
    assert (E2 : (4 <=? s)%Z || (2 <=? n)%Z = false)
      by (apply orb_false_iff; split; lia).
    assert (E3 : (2 <=? s)%Z = false) by lia.
    now rewrite E1, E2, E3, (float_mul_comm 0.10).
  - intros m H. rewrite !Z.geb_leb.
    assert (E : (5 <=? m)%Z = false) by lia.
    rewrite E. vm_compute. reflexivity.
Qed.

End PdfFacts.

(* ================================================================== *)
(** * Text credibility *)
(* ================================================================== *)

Section CredibilityFacts.
Import IntelligenceAnalysisService.

(** C6.  The credibility score is 10.0 less 1.5 per red flag, less 2.0
    for a NEGATIVE label, less 1.0 for a POSITIVE label scored above 0.8,
    less 3.0 for a detected anomaly, clamped with [max(0.0, min(10.0, .))];
    it always lies in [[0, 10]]; four red flags, a negative sentiment and
    an anomaly give exactly [0.0]. *)
Theorem credibility_score_rule (res : AnalysisResults) :
  let k := len (red_flags res) in
  let L := label (sentiment res) in
  let p := match score (sentiment res) with Some q => q | None => 0.5 end in
  let r := _calculate_credibility_score res in
  let base := 10.0 - 1.5 * float_of_Z k in
  let less_anomaly x := if anomaly_detected res then x - 3.0 else x in
  let clamp x := Py.max 0.0 (Py.min 10.0 x) in
  (L = "NEGATIVE" -> r = clamp (less_anomaly (base - 2.0))) /\
  (L = "POSITIVE" -> gt p 0.8 = true -> r = clamp (less_anomaly (base - 1.0))) /\
  (L <> "NEGATIVE" -> L <> "POSITIVE" \/ gt p 0.8 = false ->
     r = clamp (less_anomaly base)) /\
  PrimFloat.leb 0.0 r = true /\ PrimFloat.leb r 10.0 = true /\
  (forall f1 f2 f3 f4 q,
      _calculate_credibility_score
        {| red_flags := [f1; f2; f3; f4];
           sentiment := {| label := "NEGATIVE"; score := q |};
           anomaly_detected := true |} = 0.0).
Proof.
  intros k L p r base less_anomaly clamp.
  assert (Hr : r = clamp (less_anomaly
                 (if String.eqb L "NEGATIVE" then base - 2.0
                  else if String.eqb L "POSITIVE" && gt p 0.8 then base - 1.0
                  else base))).
  { unfold r, _calculate_credibility_score, clamp, less_anomaly, base.
    fold k. fold L. fold p.
    now rewrite (float_mul_comm (float_of_Z k) 1.5). }
  repeat split.
  - intros HL. rewrite Hr, HL. reflexivity.
  - intros HL Hp. rewrite Hr, HL, Hp. reflexivity.
  - intros HN HP. rewrite Hr, (string_eqb_neq_false _ _ HN).
    destruct HP as [HP|HP].
    + now rewrite (string_eqb_neq_false _ _ HP).
    + rewrite HP, andb_false_r. reflexivity.
  - rewrite Hr. now apply clamp_range.
  - rewrite Hr. now apply clamp_range.
Qed.

End CredibilityFacts.

(* ================================================================== *)
(** * The files table and the routes *)
(* ================================================================== *)

Section BackendFacts.
Import Backend.

Lemma find_map_preserving (p : File -> bool) (g : File -> File)
      (l : list File) (f : File) :
  (forall x, p (g x) = p x) ->
  find p l = Some f -> find p (map g l) = Some (g f).
Proof.
  intros Hp. induction l as [|x l IH]; simpl; [discriminate|].
  rewrite Hp. destruct (p x); [intros [= ->]; reflexivity|exact IH].
Qed.

Lemma find_some_pred (p : File -> bool) (l : list File) (f : File) :
  find p l = Some f -> p f = true.
Proof. intros H. now apply find_some in H. Qed.

(** After a status write the row is found again, with only its status
    changed. *)
Lemma query_after_status_write (w : World) (fid s : string) (f : File) :
  query_by_file_id w fid = Some f ->
  query_by_file_id (update_row (id f) (set_analysis_status s) w) fid
  = Some (set_analysis_status s f).
Proof.
  unfold query_by_file_id, update_row. simpl. intros H.
  rewrite (find_map_preserving _
             (fun g => if (id g =? id f)%Z then set_analysis_status s g else g)
             _ f).
  - now rewrite Z.eqb_refl.
  - intros x. now destruct (id x =? id f)%Z.
  - exact H.
Qed.

(** What [analyze_pdf] does to a row that is not being processed. *)
Lemma analyze_pdf_starts (fid : string) (w : World) (f : File) :
  query_by_file_id w fid = Some f ->
  file_type f = "pdf" ->
  String.eqb (analysis_status f) "processing" = false ->
  analyze_pdf fid w
  = (Ok [ ("file_id", VStr fid); ("status", VStr "processing");
          ("message", VStr "PDF analysis started") ],
     add_task {| task_fn := fn_run_pdf_analysis; task_file_id := fid;
                 task_storage_path := storage_path f |}
              (update_row (id f) (set_analysis_status "processing") w)).
Proof.
  intros Hq Ht Hs. unfold analyze_pdf, analyze_pdf_try.
  now rewrite Hq, Ht, Hs.
Qed.

Lemma analyze_image_starts (fid : string) (w : World) (f : File) :
  query_by_file_id w fid = Some f ->
  file_type f = "image" ->
  String.eqb (analysis_status f) "processing" = false ->
  analyze_image fid w
  = (Ok [ ("file_id", VStr fid); ("status", VStr "processing");
          ("message", VStr "Image analysis started") ],
     add_task {| task_fn := fn_run_image_analysis; task_file_id := fid;
                 task_storage_path := storage_path f |}
              (update_row (id f) (set_analysis_status "processing") w)).
Proof.
  intros Hq Ht Hs. unfold analyze_image, analyze_image_try.
  now rewrite Hq, Ht, Hs.
Qed.

(** C7.  A request on a file that is being processed writes nothing and
    schedules nothing, whichever endpoint receives it; the endpoint of the
    file's own type answers that the analysis is in progress (the other
    endpoint rejects the file's type with a 400). *)
Theorem analyze_processing_in_progress (fid : string) (w : World) (f : File) :
  query_by_file_id w fid = Some f ->
  analysis_status f = "processing" ->
  snd (analyze_pdf fid w) = w /\
  snd (analyze_image fid w) = w /\
  (file_type f = "pdf" ->
     fst (analyze_pdf fid w)
     = Ok [ ("file_id", VStr fid); ("status", VStr "processing");
            ("message", VStr "PDF analysis already in progress") ]) /\
  (file_type f = "image" ->
     fst (analyze_image fid w)
     = Ok [ ("file_id", VStr fid); ("status", VStr "processing");
            ("message", VStr "Image analysis already in progress") ]) /\
  (file_type f <> "pdf" ->
     fst (analyze_pdf fid w) = Raise (HTTPException 400 "File is not a PDF")) /\
  (file_type f <> "image" ->
     fst (analyze_image fid w) = Raise (HTTPException 400 "File is not an image")).
Proof.
  intros Hq Hs.
  unfold analyze_pdf, analyze_pdf_try, analyze_image, analyze_image_try.
  rewrite Hq, Hs. simpl.
  repeat split.
  - now destruct (String.eqb (file_type f) "pdf").
  - now destruct (String.eqb (file_type f) "image").
  - intros ->. reflexivity.
  - intros ->. reflexivity.
  - intros H. now rewrite (string_eqb_neq_false _ _ H).
  - intros H. now rewrite (string_eqb_neq_false _ _ H).
Qed.

Lemma query_after_update (w : World) (fid : string) (f : File) (upd : File -> File) :
  (forall g, file_id (upd g) = file_id g) ->
  query_by_file_id w fid = Some f ->
  query_by_file_id (update_row (id f) upd w) fid = Some (upd f).
Proof.
  unfold query_by_file_id, update_row. cbn [files]. intros Hupd H.
  rewrite (find_map_preserving _
             (fun g => if (id g =? id f)%Z then upd g else g) _ f).
  - now rewrite Z.eqb_refl.
  - intros x. destruct (id x =? id f)%Z; [now rewrite Hupd|reflexivity].
  - exact H.
Qed.

(** The row of a file after its task has ended with a result. *)
Lemma query_after_completion (w : World) (fid : string) (f : File)
      (v : string) (c : float) (now : Z) (r : list Report) :
  query_by_file_id w fid = Some f ->
  query_by_file_id
    {| files := files (update_row (id f) (set_completed v c now) w);
       reports := r;
       background_tasks := background_tasks w;
       uuid_calls := uuid_calls w |} fid
  = Some (set_completed v c now f).
Proof.
  intros Hq.
  change (query_by_file_id (update_row (id f) (set_completed v c now) w) fid
          = Some (set_completed v c now f)).
  now apply query_after_update.
Qed.

(** What the task scheduled by a restart finds and leaves: the row in
    [processing], then completed with the new verdict. *)
Lemma restarted_pdf_task (svc : string -> exn (string * float))
      (fid : string) (w : World) (f : File) (t : Task)
      (v : string) (c : float) (now : Z) :
  query_by_file_id w fid = Some f ->
  svc (storage_path f) = Ok (v, c) ->
  query_by_file_id
    (run_pdf_analysis svc fid (storage_path f) now
       (add_task t (update_row (id f) (set_analysis_status "processing") w))) fid
  = Some (set_completed v c now f).
Proof.
  intros Hq Hsvc. unfold run_pdf_analysis. rewrite Hsvc.
  set (w1 := add_task t (update_row (id f) (set_analysis_status "processing") w)).
  assert (Hq1 : query_by_file_id w1 fid = Some (set_analysis_status "processing" f))
    by (exact (query_after_status_write w fid "processing" f Hq)).
  rewrite Hq1. unfold add_report.
  exact (query_after_completion w1 fid (set_analysis_status "processing" f)
           v c now _ Hq1).
Qed.

Lemma restarted_image_task
      (svc : string -> exn ImageForensicsService.ImageAnalysis)
      (fid : string) (w : World) (f : File) (t : Task)
      (r : ImageForensicsService.ImageAnalysis) (now : Z) :
  query_by_file_id w fid = Some f ->
  svc (storage_path f) = Ok r ->
  query_by_file_id
    (run_image_analysis svc fid (storage_path f) now
       (add_task t (update_row (id f) (set_analysis_status "processing") w))) fid
  = Some (set_completed (ImageForensicsService.verdict r)
                        (ImageForensicsService.confidence_score r) now f).
Proof.
  intros Hq Hsvc. unfold run_image_analysis. rewrite Hsvc.
  set (w1 := add_task t (update_row (id f) (set_analysis_status "processing") w)).
  assert (Hq1 : query_by_file_id w1 fid = Some (set_analysis_status "processing" f))
    by (exact (query_after_status_write w fid "processing" f Hq)).
  rewrite Hq1. unfold add_report.
  exact (query_after_completion w1 fid (set_analysis_status "processing" f)
           _ _ now _ Hq1).
Qed.

(** C4, as the code has it.  The routes guard only [processing]: a request
    on a completed or failed file of the endpoint's type answers
    "started", rewrites the status to [processing] with the verdict and
    the confidence untouched, and schedules one more background task; when
    that task ends with a result, whatever the extraction service is, the
    row is completed again with the verdict and the confidence of the new
    result in place of the old ones. *)
Theorem analyze_restarts_terminal (fid : string) (w : World) (f : File) :
  query_by_file_id w fid = Some f ->
  analysis_status f = "completed" \/ analysis_status f = "failed" ->
  (file_type f = "pdf" ->
     let w' := snd (analyze_pdf fid w) in
     fst (analyze_pdf fid w)
     = Ok [ ("file_id", VStr fid); ("status", VStr "processing");
            ("message", VStr "PDF analysis started") ] /\
     query_by_file_id w' fid = Some (set_analysis_status "processing" f) /\
     background_tasks w'
     = (background_tasks w
          ++ [ {| task_fn := fn_run_pdf_analysis; task_file_id := fid;
                  task_storage_path := storage_path f |} ])%list /\
     (forall (svc : string -> exn (string * float)) v c now,
         svc (storage_path f) = Ok (v, c) ->
         query_by_file_id (run_pdf_analysis svc fid (storage_path f) now w') fid
         = Some (set_completed v c now f))) /\
  (file_type f = "image" ->
     let w' := snd (analyze_image fid w) in
     fst (analyze_image fid w)
     = Ok [ ("file_id", VStr fid); ("status", VStr "processing");
            ("message", VStr "Image analysis started") ] /\
     query_by_file_id w' fid = Some (set_analysis_status "processing" f) /\
     background_tasks w'
     = (background_tasks w
          ++ [ {| task_fn := fn_run_image_analysis; task_file_id := fid;
                  task_storage_path := storage_path f |} ])%list /\
     (forall (svc : string -> exn ImageForensicsService.ImageAnalysis) r now,
         svc (storage_path f) = Ok r ->
         query_by_file_id (run_image_analysis svc fid (storage_path f) now w') fid
         = Some (set_completed (ImageForensicsService.verdict r)
                               (ImageForensicsService.confidence_score r)
                               now f))) /\
  verdict (set_analysis_status "processing" f) = verdict f /\
  confidence_score (set_analysis_status "processing" f) = confidence_score f /\
  analysis_status (set_analysis_status "processing" f) = "processing" /\
  (forall v c now,
      verdict (set_completed v c now f) = Some v /\
      confidence_score (set_completed v c now f) = Some c /\
      analysis_status (set_completed v c now f) = "completed").
Proof.
  intros Hq Hs.
  assert (Hnp : String.eqb (analysis_status f) "processing" = false)
    by (destruct Hs as [-> | ->]; reflexivity).
  split; [|split].
  - intros Ht w'. subst w'.
    rewrite (analyze_pdf_starts fid w f) by assumption. cbn [fst snd].
    repeat split.
    + now apply query_after_status_write.
    + intros svc v c now Hsvc. now apply restarted_pdf_task.
  - intros Ht w'. subst w'.
    rewrite (analyze_image_starts fid w f) by assumption. cbn [fst snd].
    repeat split.
    + now apply query_after_status_write.
    + intros svc r now Hsvc. now apply restarted_image_task.
  - repeat split.
Qed.

End BackendFacts.

Section UploadFacts.
Import Backend Fixtures.

Variable sha256_hexdigest : bytes -> string.
Variable filetype_guess : bytes -> exn (option string).
Variable mimetypes_guess_type : string -> option string.
Variable uuid4 : nat -> string.
Variable get_storage_service : exn unit.
Variable supabase_upload : string -> bytes -> exn Z.
Variable local_mkdir : exn unit.
Variable local_write : string -> bytes -> exn unit.

Local Abbreviation upload :=
  (upload_file sha256_hexdigest filetype_guess mimetypes_guess_type
               uuid4 get_storage_service supabase_upload).
Local Abbreviation public_upload :=
  (public_upload_file sha256_hexdigest uuid4 get_storage_service
                      supabase_upload local_mkdir local_write).

(** Identical bytes have identical fingerprints, whatever the file is
    called: the hash is a function of the content alone. *)
Lemma save_file_hash (content : bytes) (name type : string) (w : World)
      (m : StorageMetadata) (w' : World) :
  save_file sha256_hexdigest uuid4 supabase_upload content name type w = (Ok m, w') ->
  sm_file_hash m = sha256_hexdigest content /\
  sm_file_id m = uuid4 (uuid_calls w) /\
  files w' = files w /\ background_tasks w' = background_tasks w.
Proof.
  unfold save_file.
  destruct (supabase_upload _ content) as [code|e]; [|discriminate].
  destruct (negb (code =? 200)%Z); [discriminate|].
  intros [= <- <-]. simpl. auto.
Qed.

(** A successful [POST /upload] appends one pending row that carries the
    hash of the content and a file id no earlier row has; it looks up
    nothing by hash. *)
Lemma upload_file_appends (content : bytes) (name : string) (w : World)
      (j : Json) (w' : World) :
  upload content name w = (Ok j, w') ->
  exists f,
    files w' = (files w ++ [f])%list /\
    file_hash f = sha256_hexdigest content /\
    file_id f = uuid4 (uuid_calls w) /\
    analysis_status f = "pending" /\
    verdict f = None /\
    existsb (fun g => String.eqb (file_id g) (file_id f)) (files w) = false /\
    background_tasks w' = background_tasks w.
Proof.
  unfold upload_file, upload_file_try.
  destruct (len content >? MAX_FILE_SIZE)%Z; [discriminate|].
  destruct (validate_file_type _ _ content name) as [t|e];
    [|destruct e; discriminate].
  destruct get_storage_service as [[]|e]; [|destruct e; discriminate].
  destruct (save_file _ _ _ content name t w) as [[m|e] w1] eqn:Hs;
    [|destruct e; discriminate].
  destruct (save_file_hash _ _ _ _ _ _ Hs) as (Hh & Hi & Hf & Hb).
  unfold insert_file. cbn [file_id].
  destruct (existsb _ (files w1)) eqn:Hex; [discriminate|].
  intros [= <- <-]. eexists. cbn.
  rewrite Hf in *. repeat split; auto.
Qed.

(** Were the storage service to build, the route would still not look the
    hash up: two successful uploads of the same bytes leave two rows with
    one hash and two different file ids. *)
Lemma upload_twice_two_rows (content : bytes) (name1 name2 : string)
      (w0 w1 w2 : World) (j1 j2 : Json) :
  upload content name1 w0 = (Ok j1, w1) ->
  upload content name2 w1 = (Ok j2, w2) ->
  exists f1 f2,
    files w2 = (files w0 ++ [f1; f2])%list /\
    file_hash f1 = file_hash f2 /\
    String.eqb (file_id f1) (file_id f2) = false.
Proof.
  intros H1 H2.
  destruct (upload_file_appends _ _ _ _ _ H1) as (f1 & F1 & A1 & _).
  destruct (upload_file_appends _ _ _ _ _ H2) as (f2 & F2 & A2 & _ & _ & _ & U2 & _).
  exists f1, f2. rewrite F2, F1, <- app_assoc. repeat split.
  - congruence.
  - rewrite F1, existsb_app in U2. apply orb_false_iff in U2 as [_ U2].
    simpl in U2. now rewrite orb_false_r in U2.
Qed.

Lemma public_store_keeps_files (content : bytes) (name type : string) (w : World) :
  files (snd (public_store sha256_hexdigest uuid4 get_storage_service
                           supabase_upload local_mkdir local_write content name type w))
  = files w /\
  background_tasks (snd (public_store sha256_hexdigest uuid4 get_storage_service
                                      supabase_upload local_mkdir local_write content name type w))
  = background_tasks w.
Proof.
  unfold public_store.
  destruct get_storage_service as [[]|e0].
  - destruct (save_file _ _ _ content name type w) as [[m|e] w1] eqn:Hs.
    + simpl. destruct (save_file_hash _ _ _ _ _ _ Hs) as (_ & _ & Hf & Hb). auto.
    + assert (files w1 = files w /\ background_tasks w1 = background_tasks w) as [Hf Hb].
      { revert Hs. unfold save_file.
        destruct (supabase_upload _ content) as [code|e1];
          [destruct (negb (code =? 200)%Z)|]; intros [= _ <-]; auto. }
      destruct local_mkdir; [|simpl; auto].
      destruct (local_write _ content); simpl; auto.
  - destruct local_mkdir; [|simpl; auto].
    destruct (local_write _ content); simpl; auto.
Qed.

(** The sibling route does look the hash up: once a row with the hash of
    the content exists, [POST /public/upload] answers with that row and
    adds neither a row nor a task. *)
Lemma public_upload_reuses (content : bytes) (name : string)
      (content_type : option string)
      (w : World) (f : File) :
  query_by_file_hash w (sha256_hexdigest content) = Some f ->
  _get_file_type name (or_empty content_type) <> "unknown" ->
  let '(r, w') := public_upload content name content_type w in
  r = Ok [ ("message", VStr "File already uploaded");
           ("file_id", VStr (file_id f));
           ("file_hash", VStr (file_hash f));
           ("status", VStr (analysis_status f));
           ("cached", VBool true) ] /\
  files w' = files w /\
  background_tasks w' = background_tasks w.
Proof.
  intros Hq Ht. unfold public_upload_file, public_upload_file_try.
  rewrite (string_eqb_neq_false _ _ Ht).
  pose proof (public_store_keeps_files content name
                (_get_file_type name (or_empty content_type)) w) as [Hf Hb].
  destruct (public_store _ _ _ _ _ _ content name _ w) as [sm w1].
  simpl in Hf, Hb.
  unfold query_by_file_hash in *. rewrite Hf, Hq. simpl. auto.
Qed.

(** Without a storage service [POST /upload] stores nothing: it answers
    413 or the 400 of the type check, and 500 for every file that passes
    both. *)
Lemma upload_storage_down (m : string) (content : bytes) (name : string)
      (w : World) :
  get_storage_service = Raise (Exception m) ->
  snd (upload content name w) = w /\
  (exists code detail,
      fst (upload content name w) = Raise (HTTPException code detail)) /\
  (forall t,
      (len content <= MAX_FILE_SIZE)%Z ->
      validate_file_type filetype_guess mimetypes_guess_type content name = Ok t ->
      upload content name w
      = (Raise (HTTPException 500 "Failed to upload file"), w)).
Proof.
  intros Hgs. unfold upload_file, upload_file_try.
  destruct (len content >? MAX_FILE_SIZE)%Z eqn:Hsize.
  - apply Z.gtb_lt in Hsize. cbn [route fst snd].
    split; [reflexivity|]. split; [eauto|]. intros t Hle. lia.
  - destruct (validate_file_type _ _ content name) as [t|[e|c d]].
    + rewrite Hgs. cbn. repeat split; eauto.
    + cbn. repeat split; eauto.
    + cbn. repeat split; eauto. discriminate.
Qed.

End UploadFacts.

Section ShippedStorage.
Import Backend Fixtures.

Variable sha256_hexdigest : bytes -> string.
Variable filetype_guess : bytes -> exn (option string).
Variable mimetypes_guess_type : string -> option string.
Variable uuid4 : nat -> string.
Variable supabase_upload : string -> bytes -> exn Z.
(** The values of the settings, and whether a Supabase client exists. *)
Variable env : string -> option string.
Variable supabase_client : bool.

(** [StorageService.__init__] reads [settings.SUPABASE_BUCKET_NAME], a name
    [Settings] does not declare (its field is [SUPABASE_STORAGE_BUCKET]):
    building the service raises whatever the environment holds. *)
Lemma get_storage_service_raises :
  exists m, Storage.get_storage_service env supabase_client = Raise (Exception m).
Proof.
  unfold Storage.get_storage_service, Storage.StorageService_init,
    Storage.get_supabase, Storage.settings_getattr, Storage.AttributeError.
  destruct supabase_client; cbn; eexists; reflexivity.
Qed.

(** C3 on the code.  With the settings of the repository the storage
    service cannot be built, so [POST /upload] never stores anything: every
    request is answered with an [HTTPException] and leaves the tables as
    they were, and a file that passes the size and type checks gets 500
    "Failed to upload file".  Two uploads of the same bytes therefore yield
    no fingerprint and no record, whatever the names; the four bytes [%PDF]
    sent as [report.pdf] and as [copy-of-report.pdf] are both answered 500.
    Sent twice to [POST /public/upload] instead, the same bytes leave one
    row and the second answer is the cached one, but the extraction is not
    run once: the upload schedules it, and [POST /analyze/pdf] for the
    returned file id schedules it again. *)
Theorem upload_same_bytes_twice (content : bytes) (name1 name2 : string)
        (w : World) :
  let shipped :=
    upload_file sha256_hexdigest filetype_guess mimetypes_guess_type uuid4
                (Storage.get_storage_service env supabase_client)
                supabase_upload in
  (exists m,
      Storage.get_storage_service env supabase_client = Raise (Exception m)) /\
  (forall name,
      snd (shipped content name w) = w /\
      exists code detail,
        fst (shipped content name w) = Raise (HTTPException code detail)) /\
  (forall name t,
      (len content <= MAX_FILE_SIZE)%Z ->
      validate_file_type filetype_guess mimetypes_guess_type content name = Ok t ->
      shipped content name w
      = (Raise (HTTPException 500 "Failed to upload file"), w)) /\
  snd (shipped content name2 (snd (shipped content name1 w))) = w /\
  stub_upload sha256_hexdigest pdf_bytes "report.pdf" (world_of [])
  = (Raise (HTTPException 500 "Failed to upload file"), world_of []) /\
  stub_upload sha256_hexdigest pdf_bytes "copy-of-report.pdf" (world_of [])
  = (Raise (HTTPException 500 "Failed to upload file"), world_of []) /\
  (let '(p1, v1) :=
     stub_public_upload sha256_hexdigest pdf_bytes "report.pdf"
                        (Some "application/pdf") (world_of []) in
   let '(p2, v2) :=
     stub_public_upload sha256_hexdigest pdf_bytes "copy-of-report.pdf"
                        (Some "application/pdf") v1 in
   let '(a, v3) := analyze_pdf "uuid-1" v2 in
   map file_hash (files v2) = [sha256_hexdigest pdf_bytes] /\
   map file_id (files v2) = ["uuid-1"] /\
   p2 = Ok [ ("message", VStr "File already uploaded");
             ("file_id", VStr "uuid-1");
             ("file_hash", VStr (sha256_hexdigest pdf_bytes));
             ("status", VStr "pending");
             ("cached", VBool true) ] /\
   a = Ok [ ("file_id", VStr "uuid-1"); ("status", VStr "processing");
            ("message", VStr "PDF analysis started") ] /\
   map task_fn (background_tasks v3)
   = [fn_run_public_pdf_analysis; fn_run_pdf_analysis] /\
   map task_file_id (background_tasks v3) = ["uuid-1"; "uuid-1"]).
Proof.
  intros shipped. destruct get_storage_service_raises as (m & Hm).
  assert (Hdown := fun name =>
            upload_storage_down sha256_hexdigest filetype_guess
              mimetypes_guess_type uuid4 _ supabase_upload m content name w Hm).
  split; [eauto|]. split; [|split; [|split]].
  - intros name. destruct (Hdown name) as (H1 & H2 & _). now split.
  - intros name t Hle Hv. destruct (Hdown name) as (_ & _ & H3). exact (H3 t Hle Hv).
  - subst shipped. cbv beta. destruct (Hdown name1) as (-> & _).
    now destruct (Hdown name2) as (-> & _).
  - split; [reflexivity|]. split; [reflexivity|].
    unfold stub_public_upload, public_upload_file, public_upload_file_try,
      query_by_file_hash.
    cbn. rewrite String.eqb_refl. cbn. repeat split.
Qed.

End ShippedStorage.

Section Instances.
Import ImageForensicsService Backend Fixtures.

(** C4 as stated fails.  A completed PDF with verdict [authentic] is
    requested again: the route answers "started", the status goes back to
    [processing], a task is scheduled, and when that task ends with another
    result the verdict and the confidence are replaced. *)
Lemma completed_job_is_restarted :
  let '(r, w') := analyze_pdf "f-1" (world_of [completed_pdf]) in
  let w'' := run_pdf_analysis (fun _ => Ok ("suspicious", 0.84))
                              "f-1" "pdf/f-1.pdf" 200 w' in
  r = Ok [ ("file_id", VStr "f-1"); ("status", VStr "processing");
           ("message", VStr "PDF analysis started") ] /\
  map analysis_status (files w') = ["processing"] /\
  background_tasks w'
  = [ {| task_fn := fn_run_pdf_analysis; task_file_id := "f-1";
         task_storage_path := "pdf/f-1.pdf" |} ] /\
  map verdict (files w') = [Some "authentic"] /\
  map analysis_status (files w'') = ["completed"] /\
  map verdict (files w'') = [Some "suspicious"] /\
  map confidence_score (files w'') = [Some 0.84].
Proof. cbn. repeat split. Qed.

(** The restart, on the completed PDF of the fixtures, and the end of
    the restarted extraction. *)
Lemma analyze_restarts_terminal_witness :
  (query_by_file_id (world_of [completed_pdf]) "f-1" = Some completed_pdf /\
   (analysis_status completed_pdf = "completed"
    \/ analysis_status completed_pdf = "failed")) /\
  fst (analyze_pdf "f-1" (world_of [completed_pdf]))
  = Ok [ ("file_id", VStr "f-1"); ("status", VStr "processing");
         ("message", VStr "PDF analysis started") ] /\
  query_by_file_id (snd (analyze_pdf "f-1" (world_of [completed_pdf]))) "f-1"
  = Some (set_analysis_status "processing" completed_pdf) /\
  query_by_file_id
    (run_pdf_analysis (fun _ => Ok ("suspicious", 0.84)) "f-1"
       (storage_path completed_pdf) 200
       (snd (analyze_pdf "f-1" (world_of [completed_pdf])))) "f-1"
  = Some (set_completed "suspicious" 0.84 200 completed_pdf).
Proof.
  split; [split; [reflexivity|left; reflexivity]|].
  destruct (analyze_restarts_terminal "f-1" (world_of [completed_pdf])
              completed_pdf eq_refl (or_introl eq_refl)) as (Hpdf & _).
  destruct (Hpdf eq_refl) as (H1 & H2 & _ & H4).
  split; [exact H1|]. split; [exact H2|].
  exact (H4 (fun _ => Ok ("suspicious", 0.84)) "suspicious" 0.84 200%Z eq_refl).
Defined.

(** The in-progress answer, on a table that holds a PDF being analysed. *)
Lemma analyze_processing_in_progress_witness :
  (query_by_file_id (world_of [completed_pdf; processing_pdf]) "f-2"
   = Some processing_pdf /\
   analysis_status processing_pdf = "processing") /\
  snd (analyze_pdf "f-2" (world_of [completed_pdf; processing_pdf]))
  = world_of [completed_pdf; processing_pdf] /\
  fst (analyze_pdf "f-2" (world_of [completed_pdf; processing_pdf]))
  = Ok [ ("file_id", VStr "f-2"); ("status", VStr "processing");
         ("message", VStr "PDF analysis already in progress") ].
Proof.
  split; [split; reflexivity|].
  destruct (analyze_processing_in_progress "f-2"
              (world_of [completed_pdf; processing_pdf]) processing_pdf
              eq_refl eq_refl) as (H1 & _ & H3 & _).
  split; [exact H1|exact (H3 eq_refl)].
Defined.

(** Indicators [(0.05, 0.1)] score 0.65, the middle bucket. *)
Lemma ela_score_and_signal_witness :
  (Image_open stub_lib "photo.jpg" = Ok tt /\
   to_RGB stub_lib tt = Ok tt /\
   mktemp stub_lib = Ok "/tmp/tmpela.jpg" /\
   ela_indicators stub_lib tt = Ok (0.05, 0.1)) /\
  _analyze_ela_patterns stub_lib tt
  = Ok (Py.min 1.0 (10 * (0.7 * 0.05 + 0.3 * 0.1))) /\
  _run_ela_analysis stub_lib "photo.jpg"
  = Ok ("suspicious",
        Py.min 0.85 (0.5 + 0.3 * Py.min 1.0 (10 * (0.7 * 0.05 + 0.3 * 0.1))),
        "static/heatmaps/ela_heatmap.png").
Proof.
  split; [repeat split|].
  destruct (ela_score_and_signal stub_lib "photo.jpg" "/tmp/tmpela.jpg" tt tt tt tt
              0.05 0.1 eq_refl eq_refl eq_refl eq_refl eq_refl eq_refl eq_refl
              eq_refl) as (H1 & _ & H3 & _).
  split; [exact H1|apply H3; reflexivity].
Defined.

(** The stand-in library at work: an undecodable image gives the neutral
    ELA signal, a failing inference the neutral classifier signal, and the
    pipeline still returns a verdict. *)
Example broken_image_is_neutral :
  _run_ela_analysis stub_lib "broken.jpg" = Ok ("authentic", 0.5, "") /\
  _run_cnn_analysis stub_lib (Some tt) "photo.jpg" = Ok ("authentic", 0.5) /\
  _run_cnn_analysis stub_lib None "photo.jpg" = Ok ("authentic", 0.5) /\
  _run_ela_analysis stub_lib "photo.jpg"
  = Ok ("suspicious", 0.6950000000000001, "static/heatmaps/ela_heatmap.png") /\
  option_map (fun r => (ImageForensicsService.verdict r,
                        ImageForensicsService.confidence_score r))
    (match ImageForensicsService.analyze_image stub_lib (Some tt) "photo.jpg" with
     | Ok r => Some r | Raise _ => None end)
  = Some ("suspicious", 0.6255000000000001).
Proof. vm_compute. repeat split. Qed.

End Instances.

(* ================================================================== *)
(** * More about the routes *)
(* ================================================================== *)

Section RouteFacts.
Import Backend Routes Fixtures.

Variable sha256_hexdigest : bytes -> string.
Variable filetype_guess : bytes -> exn (option string).
Variable mimetypes_guess_type : string -> option string.
Variable uuid4 : nat -> string.
Variable get_storage_service : exn unit.
Variable supabase_upload : string -> bytes -> exn Z.
Variable local_mkdir : exn unit.
Variable local_write : string -> bytes -> exn unit.

Local Abbreviation upload :=
  (upload_file sha256_hexdigest filetype_guess mimetypes_guess_type
               uuid4 get_storage_service supabase_upload).
Local Abbreviation public_upload :=
  (public_upload_file sha256_hexdigest uuid4 get_storage_service
                      supabase_upload local_mkdir local_write).

(** The four ways a PDF request ends. *)
Lemma analyze_pdf_cases (fid : string) (w : World) :
  (query_by_file_id w fid = None /\
   analyze_pdf fid w = (Raise (HTTPException 404 "File not found"), w)) \/
  (exists f, query_by_file_id w fid = Some f /\ file_type f <> "pdf" /\
     analyze_pdf fid w = (Raise (HTTPException 400 "File is not a PDF"), w)) \/
  (exists f, query_by_file_id w fid = Some f /\ file_type f = "pdf" /\
     analysis_status f = "processing" /\
     analyze_pdf fid w
     = (Ok [ ("file_id", VStr fid); ("status", VStr "processing");
             ("message", VStr "PDF analysis already in progress") ], w)) \/
  (exists f, query_by_file_id w fid = Some f /\ file_type f = "pdf" /\
     analysis_status f <> "processing" /\
     analyze_pdf fid w
     = (Ok [ ("file_id", VStr fid); ("status", VStr "processing");
             ("message", VStr "PDF analysis started") ],
        add_task {| task_fn := fn_run_pdf_analysis; task_file_id := fid;
                    task_storage_path := storage_path f |}
                 (update_row (id f) (set_analysis_status "processing") w))).
Proof.
  destruct (query_by_file_id w fid) as [f|] eqn:Hq.
  - right. destruct (String.eqb (file_type f) "pdf") eqn:Et.
    + apply String.eqb_eq in Et.
      destruct (String.eqb (analysis_status f) "processing") eqn:Es.
      * apply String.eqb_eq in Es. right. left. exists f. repeat split; auto.
        unfold analyze_pdf, analyze_pdf_try. now rewrite Hq, Et, Es.
      * right. right. exists f. repeat split; auto.
        -- now apply String.eqb_neq.
        -- now apply analyze_pdf_starts.
    + left. exists f. repeat split; auto.
      * now apply String.eqb_neq.
      * unfold analyze_pdf, analyze_pdf_try. now rewrite Hq, Et.
  - left. split; [reflexivity|].
    unfold analyze_pdf, analyze_pdf_try. now rewrite Hq.
Qed.

Lemma analyze_image_cases (fid : string) (w : World) :
  (query_by_file_id w fid = None /\
   analyze_image fid w = (Raise (HTTPException 404 "File not found"), w)) \/
  (exists f, query_by_file_id w fid = Some f /\ file_type f <> "image" /\
     analyze_image fid w = (Raise (HTTPException 400 "File is not an image"), w)) \/
  (exists f, query_by_file_id w fid = Some f /\ file_type f = "image" /\
     analysis_status f = "processing" /\
     analyze_image fid w
     = (Ok [ ("file_id", VStr fid); ("status", VStr "processing");
             ("message", VStr "Image analysis already in progress") ], w)) \/
  (exists f, query_by_file_id w fid = Some f /\ file_type f = "image" /\
     analysis_status f <> "processing" /\
     analyze_image fid w
     = (Ok [ ("file_id", VStr fid); ("status", VStr "processing");
             ("message", VStr "Image analysis started") ],
        add_task {| task_fn := fn_run_image_analysis; task_file_id := fid;
                    task_storage_path := storage_path f |}
                 (update_row (id f) (set_analysis_status "processing") w))).
Proof.
  destruct (query_by_file_id w fid) as [f|] eqn:Hq.
  - right. destruct (String.eqb (file_type f) "image") eqn:Et.
    + apply String.eqb_eq in Et.
      destruct (String.eqb (analysis_status f) "processing") eqn:Es.
      * apply String.eqb_eq in Es. right. left. exists f. repeat split; auto.
        unfold analyze_image, analyze_image_try. now rewrite Hq, Et, Es.
      * right. right. exists f. repeat split; auto.
        -- now apply String.eqb_neq.
        -- now apply analyze_image_starts.
    + left. exists f. repeat split; auto.
      * now apply String.eqb_neq.
      * unfold analyze_image, analyze_image_try. now rewrite Hq, Et.
  - left. split; [reflexivity|].
    unfold analyze_image, analyze_image_try. now rewrite Hq.
Qed.

(** ** The same routes when the database can fail *)

Variable db_error : Database.DbCall -> World -> option string.

(** With a database that answers every call the routes are the ones
    above. *)
Lemma analyze_db_answers (fid : string) (w : World) :
  Database.analyze_pdf Database.db_answers fid w = analyze_pdf fid w /\
  Database.analyze_image Database.db_answers fid w = analyze_image fid w.
Proof.
  unfold Database.analyze_pdf, Database.analyze_pdf_try, analyze_pdf,
    analyze_pdf_try, Database.analyze_image, Database.analyze_image_try,
    analyze_image, analyze_image_try, Database.db_call, Database.db_answers.
  split.
  - destruct (query_by_file_id w fid) as [f|]; [|reflexivity].
    destruct (negb (String.eqb (file_type f) "pdf")); [reflexivity|].
    now destruct (String.eqb (analysis_status f) "processing").
  - destruct (query_by_file_id w fid) as [f|]; [|reflexivity].
    destruct (negb (String.eqb (file_type f) "image")); [reflexivity|].
    now destruct (String.eqb (analysis_status f) "processing").
Qed.

(** The ways a PDF request ends: refused (404, 400), failed (500) with
    nothing written or with the status written, in progress, started. *)
Lemma db_analyze_pdf_cases (fid : string) (w : World) :
  let r := Database.analyze_pdf db_error fid w in
  (r = (Raise (HTTPException 404 "File not found"), w) /\
   query_by_file_id w fid = None) \/
  (r = (Raise (HTTPException 400 "File is not a PDF"), w) /\
   exists f, query_by_file_id w fid = Some f /\ file_type f <> "pdf") \/
  (r = (Raise (HTTPException 500 "Failed to start PDF analysis"), w) /\
   exists c m, db_error c w = Some m) \/
  (exists f,
      query_by_file_id w fid = Some f /\ file_type f = "pdf" /\
      analysis_status f <> "processing" /\
      r = (Raise (HTTPException 500 "Failed to start PDF analysis"),
           update_row (id f) (set_analysis_status "processing") w) /\
      exists m,
        db_error Database.db_reload
                 (update_row (id f) (set_analysis_status "processing") w)
        = Some m) \/
  (exists f,
      query_by_file_id w fid = Some f /\ file_type f = "pdf" /\
      analysis_status f = "processing" /\
      r = (Ok [ ("file_id", VStr fid); ("status", VStr "processing");
                ("message", VStr "PDF analysis already in progress") ], w)) \/
  (exists f,
      query_by_file_id w fid = Some f /\ file_type f = "pdf" /\
      analysis_status f <> "processing" /\
      r = (Ok [ ("file_id", VStr fid); ("status", VStr "processing");
                ("message", VStr "PDF analysis started") ],
           add_task {| task_fn := fn_run_pdf_analysis; task_file_id := fid;
                       task_storage_path := storage_path f |}
                    (update_row (id f) (set_analysis_status "processing") w))).
Proof.
  intros r. subst r.
  unfold Database.analyze_pdf, Database.analyze_pdf_try, Database.db_call.
  destruct (db_error Database.db_query w) as [m|] eqn:Eq;
    [right; right; left; split; [reflexivity|eauto]|].
  destruct (query_by_file_id w fid) as [f|] eqn:Hq; [|left; now split].
  destruct (String.eqb (file_type f) "pdf") eqn:Et; cbn [negb];
    [apply String.eqb_eq in Et
    |apply String.eqb_neq in Et; right; left; split; [reflexivity|eauto]].
  destruct (String.eqb (analysis_status f) "processing") eqn:Es;
    [apply String.eqb_eq in Es; do 4 right; left; exists f; auto
    |apply String.eqb_neq in Es].
  destruct (db_error Database.db_commit w) as [m|] eqn:Ec;
    [right; right; left; split; [reflexivity|eauto]|].
  destruct (db_error Database.db_reload _) as [m|] eqn:Er.
  - do 3 right; left. exists f. repeat split; auto. eauto.
  - do 5 right. exists f. repeat split; auto.
Qed.

Lemma db_analyze_image_cases (fid : string) (w : World) :
  let r := Database.analyze_image db_error fid w in
  (r = (Raise (HTTPException 404 "File not found"), w) /\
   query_by_file_id w fid = None) \/
  (r = (Raise (HTTPException 400 "File is not an image"), w) /\
   exists f, query_by_file_id w fid = Some f /\ file_type f <> "image") \/
  (r = (Raise (HTTPException 500 "Failed to start image analysis"), w) /\
   exists c m, db_error c w = Some m) \/
  (exists f,
      query_by_file_id w fid = Some f /\ file_type f = "image" /\
      analysis_status f <> "processing" /\
      r = (Raise (HTTPException 500 "Failed to start image analysis"),
           update_row (id f) (set_analysis_status "processing") w) /\
      exists m,
        db_error Database.db_reload
                 (update_row (id f) (set_analysis_status "processing") w)
        = Some m) \/
  (exists f,
      query_by_file_id w fid = Some f /\ file_type f = "image" /\
      analysis_status f = "processing" /\
      r = (Ok [ ("file_id", VStr fid); ("status", VStr "processing");
                ("message", VStr "Image analysis already in progress") ], w)) \/
  (exists f,
      query_by_file_id w fid = Some f /\ file_type f = "image" /\
      analysis_status f <> "processing" /\
      r = (Ok [ ("file_id", VStr fid); ("status", VStr "processing");
                ("message", VStr "Image analysis started") ],
           add_task {| task_fn := fn_run_image_analysis; task_file_id := fid;
                       task_storage_path := storage_path f |}
                    (update_row (id f) (set_analysis_status "processing") w))).
Proof.
  intros r. subst r.
  unfold Database.analyze_image, Database.analyze_image_try, Database.db_call.
  destruct (db_error Database.db_query w) as [m|] eqn:Eq;
    [right; right; left; split; [reflexivity|eauto]|].
  destruct (query_by_file_id w fid) as [f|] eqn:Hq; [|left; now split].
  destruct (String.eqb (file_type f) "image") eqn:Et; cbn [negb];
    [apply String.eqb_eq in Et
    |apply String.eqb_neq in Et; right; left; split; [reflexivity|eauto]].
  destruct (String.eqb (analysis_status f) "processing") eqn:Es;
    [apply String.eqb_eq in Es; do 4 right; left; exists f; auto
    |apply String.eqb_neq in Es].
  destruct (db_error Database.db_commit w) as [m|] eqn:Ec;
    [right; right; left; split; [reflexivity|eauto]|].
  destruct (db_error Database.db_reload _) as [m|] eqn:Er.
  - do 3 right; left. exists f. repeat split; auto. eauto.
  - do 5 right. exists f. repeat split; auto.
Qed.


Lemma same_but_status_refl (f : File) : same_but_status f f.
Proof. unfold same_but_status. repeat split. now left. Qed.

Lemma status_write_same_but_status (pk : Z) (w : World) :
  Forall2 same_but_status (files w)
          (files (update_row pk (set_analysis_status "processing") w)).
Proof.
  unfold update_row. cbn [files].
  induction (files w) as [|f l IH]; cbn [map]; constructor; [|exact IH].
  destruct (id f =? pk)%Z; [|apply same_but_status_refl].
  unfold same_but_status. cbn. repeat split. now right.
Qed.

Lemma Forall2_same_but_status_refl (l : list File) : Forall2 same_but_status l l.
Proof. induction l; constructor; auto using same_but_status_refl. Qed.

(** Whatever the request and whatever the database does, an analysis route
    changes no column of any row but [analysis_status], which it can only
    set to [processing]; it writes no report, draws no uuid, and adds at
    most one task, the one of its own kind for the requested file with the
    storage path of that file's row. *)
Theorem analyze_frame (fid : string) (w : World) :
  (let w' := snd (Database.analyze_pdf db_error fid w) in
   Forall2 same_but_status (files w) (files w') /\
   reports w' = reports w /\
   uuid_calls w' = uuid_calls w /\
   (background_tasks w' = background_tasks w \/
    exists f,
      query_by_file_id w fid = Some f /\
      background_tasks w'
      = (background_tasks w
           ++ [ {| task_fn := fn_run_pdf_analysis; task_file_id := fid;
                   task_storage_path := storage_path f |} ])%list)) /\
  (let w' := snd (Database.analyze_image db_error fid w) in
   Forall2 same_but_status (files w) (files w') /\
   reports w' = reports w /\
   uuid_calls w' = uuid_calls w /\
   (background_tasks w' = background_tasks w \/
    exists f,
      query_by_file_id w fid = Some f /\
      background_tasks w'
      = (background_tasks w
           ++ [ {| task_fn := fn_run_image_analysis; task_file_id := fid;
                   task_storage_path := storage_path f |} ])%list)).
Proof.
  split.
  - destruct (db_analyze_pdf_cases fid w)
      as [(-> & _)|[(-> & _)|[(-> & _)|[(f & Hq & _ & _ & -> & _)
         |[(f & _ & _ & _ & ->)|(f & Hq & _ & _ & ->)]]]]];
      cbn [snd];
      try (repeat split; auto using Forall2_same_but_status_refl; fail).
    + repeat split; auto. apply status_write_same_but_status.
    + unfold add_task, append.
      cbn [files reports uuid_calls background_tasks].
      repeat split; [apply status_write_same_but_status|].
      right. exists f. now split.
  - destruct (db_analyze_image_cases fid w)
      as [(-> & _)|[(-> & _)|[(-> & _)|[(f & Hq & _ & _ & -> & _)
         |[(f & _ & _ & _ & ->)|(f & Hq & _ & _ & ->)]]]]];
      cbn [snd];
      try (repeat split; auto using Forall2_same_but_status_refl; fail).
    + repeat split; auto. apply status_write_same_but_status.
    + unfold add_task, append.
      cbn [files reports uuid_calls background_tasks].
      repeat split; [apply status_write_same_but_status|].
      right. exists f. now split.
Qed.

(** Of two requests in a row for the same file the first schedules the
    extraction and the second is answered "already in progress": one task. *)
Theorem second_request_in_progress (fid : string) (w : World) (f : File) :
  query_by_file_id w fid = Some f ->
  analysis_status f <> "processing" ->
  (file_type f = "pdf" ->
     let w1 := snd (analyze_pdf fid w) in
     analyze_pdf fid w1
     = (Ok [ ("file_id", VStr fid); ("status", VStr "processing");
             ("message", VStr "PDF analysis already in progress") ], w1) /\
     background_tasks w1
     = (background_tasks w
          ++ [ {| task_fn := fn_run_pdf_analysis; task_file_id := fid;
                  task_storage_path := storage_path f |} ])%list) /\
  (file_type f = "image" ->
     let w1 := snd (analyze_image fid w) in
     analyze_image fid w1
     = (Ok [ ("file_id", VStr fid); ("status", VStr "processing");
             ("message", VStr "Image analysis already in progress") ], w1) /\
     background_tasks w1
     = (background_tasks w
          ++ [ {| task_fn := fn_run_image_analysis; task_file_id := fid;
                  task_storage_path := storage_path f |} ])%list).
Proof.
  intros Hq Hs.
  assert (Hnp : String.eqb (analysis_status f) "processing" = false)
    by now apply String.eqb_neq.
  split; intros Ht w1; subst w1.
  - rewrite (analyze_pdf_starts fid w f) by assumption. cbn [snd].
    split; [|reflexivity].
    unfold analyze_pdf, analyze_pdf_try.
    change (query_by_file_id (add_task ?t ?v) fid) with (query_by_file_id v fid).
    rewrite (query_after_status_write w fid "processing" f Hq).
    cbn. now rewrite Ht.
  - rewrite (analyze_image_starts fid w f) by assumption. cbn [snd].
    split; [|reflexivity].
    unfold analyze_image, analyze_image_try.
    change (query_by_file_id (add_task ?t ?v) fid) with (query_by_file_id v fid).
    rewrite (query_after_status_write w fid "processing" f Hq).
    cbn. now rewrite Ht.
Qed.

Variable pdf_service_analyze_pdf : string -> exn (string * float).
Variable image_service_analyze_image :
  string -> exn ImageForensicsService.ImageAnalysis.

Lemma update_row_file_ids (pk : Z) (upd : File -> File) (w : World) :
  (forall g, file_id (upd g) = file_id g) ->
  map file_id (files (update_row pk upd w)) = map file_id (files w).
Proof.
  intros Hupd. unfold update_row. cbn [files]. rewrite map_map.
  apply map_ext. intros g. destruct (id g =? pk)%Z; [apply Hupd|reflexivity].
Qed.

(** How a PDF extraction task ends, for a file that is still in the table.
    A result completes the file with that verdict and confidence and adds
    one report; an exception marks the file failed, writes no report, and
    leaves whatever verdict and confidence the file had. *)
Theorem pdf_task_outcome (fid : string) (w : World) (f : File) (now : Z) :
  query_by_file_id w fid = Some f ->
  let w' := run_pdf_analysis pdf_service_analyze_pdf fid (storage_path f) now w in
  (forall v c, pdf_service_analyze_pdf (storage_path f) = Ok (v, c) ->
     query_by_file_id w' fid = Some (set_completed v c now f) /\
     reports w'
     = (reports w
          ++ [ {| report_file_id := id f; analysis_type := "pdf_forensics";
                  result := v; report_confidence_score := c;
                  evidence_link := None; model_version := "1.0.0" |} ])%list) /\
  (forall e, pdf_service_analyze_pdf (storage_path f) = Raise e ->
     query_by_file_id w' fid = Some (set_analysis_status "failed" f) /\
     verdict (set_analysis_status "failed" f) = verdict f /\
     confidence_score (set_analysis_status "failed" f) = confidence_score f /\
     reports w' = reports w) /\
  background_tasks w' = background_tasks w.
Proof.
  intros Hq w'. subst w'. unfold run_pdf_analysis, mark_failed.
  repeat split.
  - rewrite H, Hq. unfold add_report.
    change (query_by_file_id {| files := ?fs; reports := ?r;
                                background_tasks := ?b; uuid_calls := ?u |} fid)
      with (find (fun g => String.eqb (file_id g) fid) fs).
    now apply (query_after_update w fid f (set_completed v c now)).
  - now rewrite H, Hq.
  - rewrite H, Hq. now apply query_after_status_write.
  - now rewrite H, Hq.
  - destruct (pdf_service_analyze_pdf (storage_path f)) as [[v c]|e];
      rewrite Hq; reflexivity.
Qed.


(** A task whose file is no longer in the table does nothing at all. *)
Theorem task_without_row_is_noop (fid spath : string) (now : Z) (w : World) :
  query_by_file_id w fid = None ->
  run_pdf_analysis pdf_service_analyze_pdf fid spath now w = w /\
  run_image_analysis image_service_analyze_image fid spath now w = w.
Proof.
  intros Hq. unfold run_pdf_analysis, run_image_analysis, mark_failed.
  rewrite Hq.
  destruct (pdf_service_analyze_pdf spath) as [[v c]|e];
    destruct (image_service_analyze_image spath) as [r|e']; auto.
Qed.

Lemma save_file_frame (content : bytes) (name type : string) (w : World) :
  let w1 := snd (save_file sha256_hexdigest uuid4 supabase_upload content name type w) in
  files w1 = files w /\ reports w1 = reports w /\
  background_tasks w1 = background_tasks w.
Proof.
  unfold save_file.
  destruct (supabase_upload _ content) as [code|e];
    [destruct (negb (code =? 200)%Z)|]; cbn; auto.
Qed.

Lemma route_error_is_http {A} (body : exn A) (detail : string) (e : exc) :
  route body detail = Raise e -> is_http e.
Proof.
  destruct body as [a|[m|c d]]; cbn; intros [= <-]; exact I.
Qed.

(** An upload that fails adds no row, no report and no task, and what it
    raises is always an [HTTPException]. *)
Theorem upload_failure_adds_nothing (content : bytes) (name : string)
        (w : World) (e : exc) :
  fst (upload content name w) = Raise e ->
  let w' := snd (upload content name w) in
  files w' = files w /\ reports w' = reports w /\
  background_tasks w' = background_tasks w /\ is_http e.
Proof.
  unfold upload_file, upload_file_try.
  destruct (len content >? MAX_FILE_SIZE)%Z;
    [cbn; intros [= <-]; repeat split; auto; exact I|].
  destruct (validate_file_type _ _ content name) as [t|e0];
    [|cbn [fst snd]; intros H; repeat split; auto;
      now apply (route_error_is_http _ _ _ H)].
  destruct get_storage_service as [[]|e0];
    [|cbn [fst snd]; intros H; repeat split; auto;
      now apply (route_error_is_http _ _ _ H)].
  pose proof (save_file_frame content name t w) as HF. cbv zeta in HF.
  destruct (save_file _ _ _ content name t w) as [[m|e0] w1];
    cbn [snd] in HF; destruct HF as (F1 & F2 & F3);
    [|cbn [fst snd]; intros H; repeat split; auto;
      now apply (route_error_is_http _ _ _ H)].
  destruct (insert_file _ w1) as [w2|e0];
    [cbn; discriminate|].
  cbn [fst snd]. intros H. repeat split; auto.
  now apply (route_error_is_http _ _ _ H).
Qed.

(** A name that passes the type check is a PDF or an image. *)
Lemma validate_file_type_ok (content : bytes) (name t : string) :
  validate_file_type filetype_guess mimetypes_guess_type content name = Ok t ->
  t = "pdf" \/ t = "image".
Proof.
  unfold validate_file_type.
  destruct (negb (mem _ ALLOWED_EXTENSIONS)); [discriminate|].
  destruct (String.eqb _ ".pdf").
  - destruct (negb _); [discriminate|]. intros [= <-]. now left.
  - destruct (mem _ _); [|discriminate].
    destruct (negb _); [discriminate|]. intros [= <-]. now right.
Qed.

(** The type check of an upload has five outcomes and no other: a PDF with
    the PDF MIME type, an image extension with an image MIME type, or one of
    three 400s.  The final "Unsupported file type" branch of the code is never
    taken, since every allowed extension is [.pdf] or an image extension.
    The extension is the suffix [pathlib] gives the last component of the
    name, in lower case: a trailing slash or [/.] does not hide it, a dot
    in a directory, a leading dot and a final dot give none. *)
Theorem validate_file_type_outcomes (content : bytes) (name : string) :
  let r := validate_file_type filetype_guess mimetypes_guess_type content name in
  let ext := lower (Path_suffix name) in
  let mime := mime_of filetype_guess mimetypes_guess_type content name in
  ((r = Ok "pdf" /\ ext = ".pdf" /\ mime = "application/pdf") \/
   (r = Ok "image" /\ startswith mime "image/" = true /\
    mem ext [".jpg"; ".jpeg"; ".png"; ".gif"; ".bmp"; ".tiff"] = true) \/
   (r = Raise (HTTPException 400 "Invalid PDF file") /\
    ext = ".pdf" /\ mime <> "application/pdf") \/
   (r = Raise (HTTPException 400 "Invalid image file") /\
    startswith mime "image/" = false /\
    mem ext [".jpg"; ".jpeg"; ".png"; ".gif"; ".bmp"; ".tiff"] = true) \/
   (r = Raise (HTTPException 400
                 ("File type " ++ ext
                  ++ " not allowed. Allowed types: ['.pdf', '.jpg', '.jpeg', '.png', '.gif', '.bmp', '.tiff']")) /\
    mem ext ALLOWED_EXTENSIONS = false)) /\
  (lower (Path_suffix "Report.PDF") = ".pdf" /\
   Path_suffix "report.pdf/" = ".pdf" /\
   Path_suffix "scans/report.pdf/." = ".pdf" /\
   Path_suffix "..pdf" = ".pdf" /\
   Path_suffix "archive.tar.gz" = ".gz" /\
   Path_suffix "scans.2024/report" = "" /\
   Path_suffix ".pdf" = "" /\
   Path_suffix "report." = "" /\
   Path_suffix "report.pdf/.." = "").
Proof.
  intros r ext mime. split; [|repeat split].
  subst r. unfold validate_file_type. fold ext. fold mime.
  destruct (mem ext ALLOWED_EXTENSIONS) eqn:Ha; cbn [negb].
  - destruct (String.eqb ext ".pdf") eqn:Ep.
    + apply String.eqb_eq in Ep.
      destruct (String.eqb mime "application/pdf") eqn:Em; cbn [negb].
      * apply String.eqb_eq in Em. now left.
      * apply String.eqb_neq in Em. right. right. now left.
    + assert (Hi : mem ext [".jpg"; ".jpeg"; ".png"; ".gif"; ".bmp"; ".tiff"] = true).
      { unfold mem, ALLOWED_EXTENSIONS in *. cbn [existsb] in *.
        now rewrite Ep in Ha. }
      rewrite Hi.
      destruct (startswith mime "image/") eqn:Es; cbn [negb].
      * right. now left.
      * right. right. right. now left.
  - right. right. right. right. now split.
Qed.

Lemma find_app_fresh (p : File -> bool) (l : list File) (f : File) :
  existsb p l = false -> p f = true -> find p (l ++ [f]) = Some f.
Proof.
  induction l as [|x l IH]; cbn; intros H Hf.
  - now rewrite Hf.
  - apply orb_false_iff in H as [Hx Hl]. rewrite Hx. now apply IH.
Qed.

Lemma existsb_file_id_false (l : list File) (fid : string) :
  existsb (fun g => String.eqb (file_id g) fid) l = false ->
  ~ In fid (map file_id l).
Proof.
  induction l as [|x l IH]; cbn; [tauto|].
  intros H. apply orb_false_iff in H as [Hx Hl].
  apply String.eqb_neq in Hx. intros [E|E]; [congruence|now apply IH].
Qed.

(** The row a successful upload writes, and the body it answers with. *)
Lemma upload_success_row (content : bytes) (name : string) (w : World)
      (j : Json) (w' : World) :
  upload content name w = (Ok j, w') ->
  exists f,
    files w' = (files w ++ [f])%list /\
    reports w' = reports w /\
    background_tasks w' = background_tasks w /\
    existsb (fun g => String.eqb (file_id g) (file_id f)) (files w) = false /\
    original_filename f = name /\
    validate_file_type filetype_guess mimetypes_guess_type content name
    = Ok (file_type f) /\
    file_size f = len content /\
    file_hash f = sha256_hexdigest content /\
    storage_path f = file_type f ++ "/" ++ filename f /\
    analysis_status f = "pending" /\
    verdict f = None /\ confidence_score f = None /\ analysis_date f = None /\
    j = [ ("file_id", VStr (file_id f));
          ("filename", VStr name);
          ("file_type", VStr (file_type f));
          ("file_size", VInt (len content));
          ("status", VStr "uploaded");
          ("message", VStr "File uploaded successfully. Ready for analysis.") ].
Proof.
  unfold upload_file, upload_file_try.
  destruct (len content >? MAX_FILE_SIZE)%Z; [discriminate|].
  destruct (validate_file_type _ _ content name) as [t|e];
    [|destruct e; discriminate].
  destruct get_storage_service as [[]|e]; [|destruct e; discriminate].
  pose proof (save_file_frame content name t w) as HF. cbv zeta in HF.
  unfold save_file in *.
  destruct (supabase_upload _ content) as [code|e];
    [destruct (negb (code =? 200)%Z)|]; cbn [snd] in HF;
    try (cbn; discriminate); try (destruct e; cbn; discriminate).
  unfold insert_file. cbn [file_id files tick_uuid].
  destruct (existsb _ (files w)) eqn:Hex; [discriminate|].
  cbn. intros [= <- <-]. eexists. cbn.
  repeat split; try reflexivity. exact Hex.
Qed.

Lemma public_store_frame (content : bytes) (name type : string) (w : World) :
  let w1 := snd (public_store sha256_hexdigest uuid4 get_storage_service
                              supabase_upload local_mkdir local_write content name type w) in
  files w1 = files w /\ reports w1 = reports w /\
  background_tasks w1 = background_tasks w.
Proof.
  unfold public_store.
  destruct get_storage_service as [[]|e0].
  - pose proof (save_file_frame content name type w) as HF. cbv zeta in HF.
    destruct (save_file _ _ _ content name type w) as [[m|e] w1];
      cbn [snd] in HF; [exact HF|].
    destruct local_mkdir; [|cbn; exact HF].
    destruct (local_write _ content); cbn; exact HF.
  - destruct local_mkdir; [|cbn; auto].
    destruct (local_write _ content); cbn; auto.
Qed.

(** What [POST /public/upload] does to the table: nothing, or one pending
    row with a new file id. *)
Lemma public_upload_files (content : bytes) (name : string)
      (ctype : option string) (w : World) :
  let w' := snd (public_upload content name ctype w) in
  reports w' = reports w /\
  (files w' = files w \/
   exists f, files w' = (files w ++ [f])%list /\
     existsb (fun g => String.eqb (file_id g) (file_id f)) (files w) = false).
Proof.
  unfold public_upload_file, public_upload_file_try.
  destruct (String.eqb (_get_file_type name (or_empty ctype)) "unknown"); [cbn; auto|].
  pose proof (public_store_frame content name (_get_file_type name (or_empty ctype)) w) as HF.
  cbv zeta in HF.
  destruct (public_store _ _ _ _ _ _ content name _ w) as [sm w1].
  cbn [snd] in HF. destruct HF as (F1 & F2 & F3).
  destruct (query_by_file_hash w1 _); [cbn; auto|].
  unfold insert_file. cbn [file_id files tick_uuid].
  destruct (existsb _ (files w1)) eqn:Hex; [cbn; auto|].
  rewrite F1 in Hex.
  cbn [file_type].
  destruct (String.eqb (_get_file_type name (or_empty ctype)) "pdf");
    [|destruct (String.eqb (_get_file_type name (or_empty ctype)) "image")];
  cbn; rewrite ?F1, ?F2; (split; [reflexivity|]); right; eexists;
    (split; [reflexivity|exact Hex]).
Qed.

Lemma find_none_existsb (p : File -> bool) (l : list File) :
  find p l = None -> existsb p l = false.
Proof.
  induction l as [|x l IH]; cbn; [reflexivity|].
  destruct (p x); [discriminate|exact IH].
Qed.

(** What a successful [POST /public/upload] of bytes that are new to the
    table leaves: one more row, pending, under a file id of its own. *)
Lemma public_upload_new_row (content : bytes) (name : string)
      (ctype : option string) (w : World)
      (j : Json) (w1 : World) :
  query_by_file_hash w (sha256_hexdigest content) = None ->
  public_upload content name ctype w = (Ok j, w1) ->
  exists f,
    files w1 = (files w ++ [f])%list /\
    reports w1 = reports w /\
    existsb (fun g => String.eqb (file_id g) (file_id f)) (files w) = false /\
    original_filename f = name /\
    file_type f = _get_file_type name (or_empty ctype) /\
    file_hash f = sha256_hexdigest content /\
    analysis_status f = "pending" /\
    verdict f = None /\ confidence_score f = None /\ analysis_date f = None /\
    In ("file_id", VStr (file_id f)) j /\
    In ("file_hash", VStr (sha256_hexdigest content)) j.
Proof.
  intros Hq. unfold public_upload_file, public_upload_file_try.
  destruct (String.eqb (_get_file_type name (or_empty ctype)) "unknown"); [cbn; discriminate|].
  pose proof (public_store_frame content name (_get_file_type name (or_empty ctype)) w) as HF.
  cbv zeta in HF.
  destruct (public_store _ _ _ _ _ _ content name _ w) as [sm w0].
  cbn [snd] in HF. destruct HF as (F1 & F2 & F3).
  unfold query_by_file_hash in *. rewrite F1, Hq.
  unfold insert_file. cbn [file_id files tick_uuid file_type].
  destruct (existsb _ (files w0)) eqn:Hex; [cbn; discriminate|].
  rewrite F1 in Hex.
  destruct (String.eqb (_get_file_type name (or_empty ctype)) "pdf");
    [|destruct (String.eqb (_get_file_type name (or_empty ctype)) "image")];
    cbn [route_str]; intros [= <- <-]; eexists;
    unfold add_task, append; cbn [files reports]; rewrite ?F1, ?F2;
    (split; [reflexivity|]); cbn;
    repeat split; auto 10.
Qed.

(** What [POST /public/upload] answers when a row with the hash of the
    content exists. *)
Lemma public_upload_cached (content : bytes) (name : string)
      (ctype : option string)
      (w : World) (f : File) :
  query_by_file_hash w (sha256_hexdigest content) = Some f ->
  _get_file_type name (or_empty ctype) <> "unknown" ->
  fst (public_upload content name ctype w)
  = Ok [ ("message", VStr "File already uploaded");
         ("file_id", VStr (file_id f));
         ("file_hash", VStr (file_hash f));
         ("status", VStr (analysis_status f));
         ("cached", VBool true) ] /\
  files (snd (public_upload content name ctype w)) = files w /\
  reports (snd (public_upload content name ctype w)) = reports w /\
  background_tasks (snd (public_upload content name ctype w)) = background_tasks w.
Proof.
  intros Hq Ht. unfold public_upload_file, public_upload_file_try.
  rewrite (string_eqb_neq_false _ _ Ht).
  pose proof (public_store_frame content name (_get_file_type name (or_empty ctype)) w) as HF.
  cbv zeta in HF.
  destruct (public_store _ _ _ _ _ _ content name _ w) as [sm w0].
  cbn [snd] in HF. destruct HF as (F1 & F2 & F3).
  unfold query_by_file_hash in *. rewrite F1, Hq. cbn. auto.
Qed.

Lemma public_upload_ok_type (content : bytes) (name : string)
      (ctype : option string) (w : World)
      (j : Json) (w1 : World) :
  public_upload content name ctype w = (Ok j, w1) ->
  _get_file_type name (or_empty ctype) <> "unknown".
Proof.
  unfold public_upload_file, public_upload_file_try. intros H E.
  rewrite E in H. cbn in H. discriminate.
Qed.

(** Insert and look up.  After [POST /public/upload] has stored bytes that
    are new to the table, the status route finds the file under the
    [file_id] of the answer: under the name it was sent with, with the type
    the route gave it, pending, with no verdict yet.  Before the upload that
    [file_id] was a 404. *)
Theorem public_upload_then_status (content : bytes) (name : string)
        (ctype : option string)
        (w : World) (j : Json) (w1 : World) :
  query_by_file_hash w (sha256_hexdigest content) = None ->
  public_upload content name ctype w = (Ok j, w1) ->
  exists fid,
    In ("file_id", VStr fid) j /\
    get_upload_status fid w1
    = Ok {| sb_file_id := fid;
            sb_filename := name;
            sb_file_type := _get_file_type name (or_empty ctype);
            sb_analysis_status := "pending";
            sb_verdict := None;
            sb_confidence_score := None;
            sb_analysis_date := None |} /\
    _get_file_type name (or_empty ctype) <> "unknown" /\
    get_upload_status fid w = Raise (HTTPException 404 "File not found").
Proof.
  intros Hq H.
  destruct (public_upload_new_row _ _ _ _ _ _ Hq H)
    as (f & Hf & _ & Hex & Hn & Ht & _ & Hs & Hv & Hc & Hd & Hin & _).
  exists (file_id f). split; [exact Hin|].
  unfold get_upload_status, get_upload_status_try, query_by_file_id.
  rewrite Hf, (find_app_fresh _ _ f Hex (String.eqb_refl _)).
  cbn [route]. rewrite Hn, Ht, Hs, Hv, Hc, Hd. split; [reflexivity|].
  split; [exact (public_upload_ok_type _ _ _ _ _ _ H)|].
  assert (Hnone : find (fun g => String.eqb (file_id g) (file_id f)) (files w) = None).
  { destruct (find _ (files w)) as [g|] eqn:Hg; [|reflexivity].
    apply find_some in Hg as [Hin' Hp].
    assert (existsb (fun g0 => String.eqb (file_id g0) (file_id f)) (files w) = true)
      by (apply existsb_exists; eauto).
    congruence. }
  now rewrite Hnone.
Qed.

(** The same bytes twice through [POST /public/upload], under any two
    names: after the first request has succeeded the table holds a row with
    the hash of the bytes, the file id and the hash of which the first
    answer carries; the second request is answered "File already uploaded"
    with that row and adds no row, no report and no task. *)
Theorem public_upload_twice (content : bytes) (name1 name2 : string)
        (ctype1 ctype2 : option string)
        (w : World) (j1 : Json) (w1 : World) :
  public_upload content name1 ctype1 w = (Ok j1, w1) ->
  _get_file_type name2 (or_empty ctype2) <> "unknown" ->
  exists f,
    query_by_file_hash w1 (sha256_hexdigest content) = Some f /\
    In ("file_id", VStr (file_id f)) j1 /\
    In ("file_hash", VStr (sha256_hexdigest content)) j1 /\
    (files w1 = files w \/ files w1 = (files w ++ [f])%list) /\
    fst (public_upload content name2 ctype2 w1)
    = Ok [ ("message", VStr "File already uploaded");
           ("file_id", VStr (file_id f));
           ("file_hash", VStr (sha256_hexdigest content));
           ("status", VStr (analysis_status f));
           ("cached", VBool true) ] /\
    files (snd (public_upload content name2 ctype2 w1)) = files w1 /\
    reports (snd (public_upload content name2 ctype2 w1)) = reports w1 /\
    background_tasks (snd (public_upload content name2 ctype2 w1))
    = background_tasks w1.
Proof.
  intros H1 Ht2.
  pose proof (public_upload_ok_type _ _ _ _ _ _ H1) as Ht1.
  assert (Hfound : exists f,
             query_by_file_hash w1 (sha256_hexdigest content) = Some f /\
             file_hash f = sha256_hexdigest content /\
             In ("file_id", VStr (file_id f)) j1 /\
             In ("file_hash", VStr (sha256_hexdigest content)) j1 /\
             (files w1 = files w \/ files w1 = (files w ++ [f])%list)).
  { destruct (query_by_file_hash w (sha256_hexdigest content)) as [f0|] eqn:Hq.
    - destruct (public_upload_cached content name1 ctype1 w f0 Hq Ht1)
        as (Hr & Hf & _).
      rewrite H1 in Hr, Hf. cbn [fst snd] in Hr, Hf. injection Hr as ->.
      assert (Hh : file_hash f0 = sha256_hexdigest content).
      { unfold query_by_file_hash in Hq. apply find_some in Hq as [_ Hq].
        now apply String.eqb_eq in Hq. }
      exists f0. unfold query_by_file_hash in *. rewrite Hf, Hq, Hh.
      cbn [In]. auto 10.
    - destruct (public_upload_new_row _ _ _ _ _ _ Hq H1)
        as (f & Hf & _ & _ & _ & _ & Hh & _ & _ & _ & _ & Hi1 & Hi2).
      exists f. unfold query_by_file_hash in *. rewrite Hf.
      rewrite (find_app_fresh _ (files w) f (find_none_existsb _ _ Hq)
                 (proj2 (String.eqb_eq _ _) Hh)).
      auto 10. }
  destruct Hfound as (f & Hq1 & Hh & Hi1 & Hi2 & Hfiles).
  exists f.
  destruct (public_upload_cached content name2 ctype2 w1 f Hq1 Ht2)
    as (Hr & Hf & Hrep & Hb).
  rewrite Hh in Hr. auto 10.
Qed.

Lemma upload_failure_files (content : bytes) (name : string) (w : World) (e : exc) :
  fst (upload content name w) = Raise e ->
  files (snd (upload content name w)) = files w.
Proof.
  unfold upload_file, upload_file_try.
  destruct (len content >? MAX_FILE_SIZE)%Z; [reflexivity|].
  destruct (validate_file_type _ _ content name) as [t|e0]; [|reflexivity].
  destruct get_storage_service as [[]|e0]; [|reflexivity].
  pose proof (save_file_frame content name t w) as HF. cbv zeta in HF.
  destruct (save_file _ _ _ content name t w) as [[m|e0] w1];
    cbn [snd] in HF; destruct HF as (F1 & _); [|intros _; exact F1].
  destruct (insert_file _ w1) as [w2|e0]; [cbn; discriminate|].
  intros _. exact F1.
Qed.

Lemma analyze_frame_ids (fid : string) (w : World) :
  map file_id (files (snd (analyze_pdf fid w))) = map file_id (files w) /\
  map file_id (files (snd (analyze_image fid w))) = map file_id (files w).
Proof.
  split.
  - destruct (analyze_pdf_cases fid w)
      as [(_ & ->)|[(f & _ & _ & ->)|[(f & _ & _ & _ & ->)|(f & _ & _ & _ & ->)]]];
      cbn [snd]; auto.
    unfold add_task. cbn [files]. now apply update_row_file_ids.
  - destruct (analyze_image_cases fid w)
      as [(_ & ->)|[(f & _ & _ & ->)|[(f & _ & _ & _ & ->)|(f & _ & _ & _ & ->)]]];
      cbn [snd]; auto.
    unfold add_task. cbn [files]. now apply update_row_file_ids.
Qed.

(** The [file_id] column stays unique: no upload, request or background
    task ever leaves two rows with one file id. *)
Theorem file_ids_stay_unique (w : World) :
  unique_file_ids w ->
  (forall content name, unique_file_ids (snd (upload content name w))) /\
  (forall content name ctype,
      unique_file_ids (snd (public_upload content name ctype w))) /\
  (forall fid, unique_file_ids (snd (analyze_pdf fid w))) /\
  (forall fid, unique_file_ids (snd (analyze_image fid w))) /\
  (forall fid spath now,
      unique_file_ids (run_pdf_analysis pdf_service_analyze_pdf fid spath now w)) /\
  (forall fid spath now,
      unique_file_ids
        (run_image_analysis image_service_analyze_image fid spath now w)).
Proof.
  unfold unique_file_ids. intros Hu.
  assert (Happ : forall f, existsb (fun g => String.eqb (file_id g) (file_id f))
                                   (files w) = false ->
                           NoDup (map file_id (files w ++ [f]))).
  { intros f Hex. rewrite map_app. cbn [map].
    apply NoDup_app; [exact Hu|repeat constructor; tauto|].
    intros x Hx [<-|[]]. now apply (existsb_file_id_false _ _ Hex). }
  repeat split.
  - intros content name.
    destruct (upload content name w) as [[j|e] w'] eqn:E; cbn [snd].
    + destruct (upload_success_row _ _ _ _ _ E) as (f & Hf & _ & _ & Hex & _).
      rewrite Hf. now apply Happ.
    + pose proof (upload_failure_files content name w e) as H.
      rewrite E in H. cbn [fst snd] in H. now rewrite (H eq_refl).
  - intros content name ctype.
    destruct (public_upload_files content name ctype w) as (_ & [->|(f & -> & Hex)]);
      [exact Hu|now apply Happ].
  - intros fid. destruct (analyze_frame_ids fid w) as [-> _]. exact Hu.
  - intros fid. destruct (analyze_frame_ids fid w) as [_ ->]. exact Hu.
  - intros fid spath now. unfold run_pdf_analysis, mark_failed.
    destruct (pdf_service_analyze_pdf spath) as [[v c]|e];
      destruct (query_by_file_id w fid) as [f|]; auto;
      unfold add_report; cbn [files]; rewrite update_row_file_ids; auto.
  - intros fid spath now. unfold run_image_analysis, mark_failed.
    destruct (image_service_analyze_image spath) as [r|e];
      destruct (query_by_file_id w fid) as [f|]; auto;
      unfold add_report; cbn [files]; rewrite update_row_file_ids; auto.
Qed.

(** A PDF that is new to [POST /public/upload] is registered as pending and
    its extraction is scheduled at once, without the status being set to
    processing; so a following [POST /analyze/pdf] for the same file is not
    answered "in progress" but schedules the extraction a second time. *)
Theorem public_upload_then_analyze (content : bytes) (name : string)
        (ctype : option string)
        (w : World) (j : Json) (w1 : World) :
  query_by_file_hash w (sha256_hexdigest content) = None ->
  _get_file_type name (or_empty ctype) = "pdf" ->
  public_upload content name ctype w = (Ok j, w1) ->
  exists f,
    files w1 = (files w ++ [f])%list /\
    analysis_status f = "pending" /\
    file_hash f = sha256_hexdigest content /\
    background_tasks w1
    = (background_tasks w
         ++ [ {| task_fn := fn_run_public_pdf_analysis;
                 task_file_id := file_id f;
                 task_storage_path := storage_path f |} ])%list /\
    fst (analyze_pdf (file_id f) w1)
    = Ok [ ("file_id", VStr (file_id f)); ("status", VStr "processing");
           ("message", VStr "PDF analysis started") ] /\
    background_tasks (snd (analyze_pdf (file_id f) w1))
    = (background_tasks w
         ++ [ {| task_fn := fn_run_public_pdf_analysis;
                 task_file_id := file_id f;
                 task_storage_path := storage_path f |};
              {| task_fn := fn_run_pdf_analysis;
                 task_file_id := file_id f;
                 task_storage_path := storage_path f |} ])%list.
Proof.
  intros Hq Ht. unfold public_upload_file, public_upload_file_try.
  rewrite Ht. cbn [String.eqb Ascii.eqb Bool.eqb].
  pose proof (public_store_frame content name "pdf" w) as HF. cbv zeta in HF.
  destruct (public_store _ _ _ _ _ _ content name "pdf" w) as [sm w0].
  cbn [snd] in HF. destruct HF as (F1 & F2 & F3).
  unfold query_by_file_hash in *. rewrite F1, Hq.
  unfold insert_file. cbn [file_id files tick_uuid file_type].
  destruct (existsb _ (files w0)) eqn:Hex; [cbn; discriminate|].
  cbn [String.eqb Ascii.eqb Bool.eqb route_str]. intros [= <- <-].
  rewrite F1 in Hex.
  set (f := {| id := next_id w0;
               file_id := uuid4 (uuid_calls w0);
               filename := match sm with Some m => sm_filename m | None => name end;
               original_filename := name;
               file_type := "pdf";
               mime_type := if nonempty (or_empty ctype) then or_empty ctype
                            else "application/octet-stream";
               file_size := len content;
               file_hash := sha256_hexdigest content;
               storage_path := match sm with
                               | Some m => sm_storage_path m | None => name end;
               storage_type := match sm with
                               | Some m => sm_storage_type m | None => "none" end;
               verdict := None;
               confidence_score := None;
               analysis_status := "pending";
               analysis_date := None |}).
  exists f.
  split; [unfold add_task, append; cbn [files]; rewrite F1; reflexivity|].
  split; [reflexivity|]. split; [reflexivity|].
  split; [unfold add_task, append; cbn [background_tasks]; rewrite F3; reflexivity|].
  match goal with
  | |- context [analyze_pdf ?fid ?v] =>
      assert (Hfind : query_by_file_id v fid = Some f)
  end.
  { unfold query_by_file_id, add_task, append. cbn [files]. rewrite F1.
    apply find_app_fresh; [exact Hex|apply String.eqb_refl]. }
  rewrite (analyze_pdf_starts _ _ _ Hfind eq_refl eq_refl).
  cbn [fst snd]. split; [reflexivity|].
  unfold add_task, append, update_row. cbn [background_tasks storage_path].
  rewrite F3, <- app_assoc. reflexivity.
Qed.

End RouteFacts.

Section RouteInstances.
Import Backend Routes Fixtures.

(** A completed PDF requested twice in a row. *)
Lemma second_request_in_progress_witness :
  (query_by_file_id (world_of [completed_pdf]) "f-1" = Some completed_pdf /\
   analysis_status completed_pdf <> "processing" /\
   file_type completed_pdf = "pdf") /\
  analyze_pdf "f-1" (snd (analyze_pdf "f-1" (world_of [completed_pdf])))
  = (Ok [ ("file_id", VStr "f-1"); ("status", VStr "processing");
          ("message", VStr "PDF analysis already in progress") ],
     snd (analyze_pdf "f-1" (world_of [completed_pdf]))).
Proof.
  split; [repeat split; discriminate|].
  destruct (second_request_in_progress "f-1" (world_of [completed_pdf])
              completed_pdf eq_refl) as [Hp _]; [discriminate|].
  exact (proj1 (Hp eq_refl)).
Defined.

(** A PDF task that ends with a result, on the completed PDF. *)
Lemma pdf_task_outcome_witness :
  query_by_file_id (world_of [completed_pdf]) "f-1" = Some completed_pdf /\
  query_by_file_id
    (run_pdf_analysis (fun _ => Ok ("suspicious", 0.84)) "f-1"
                      (storage_path completed_pdf) 200 (world_of [completed_pdf]))
    "f-1"
  = Some (set_completed "suspicious" 0.84 200 completed_pdf).
Proof.
  split; [reflexivity|].
  destruct (pdf_task_outcome (fun _ => Ok ("suspicious", 0.84)) "f-1"
              (world_of [completed_pdf]) completed_pdf 200 eq_refl) as (H & _).
  exact (proj1 (H "suspicious" 0.84 eq_refl)).
Defined.


(** A task for a file id the table does not hold. *)
Lemma task_without_row_is_noop_witness :
  query_by_file_id (world_of [completed_pdf]) "gone" = None /\
  run_pdf_analysis (fun _ => Ok ("suspicious", 0.84)) "gone" "pdf/gone.pdf" 200
                   (world_of [completed_pdf])
  = world_of [completed_pdf].
Proof.
  split; [reflexivity|].
  exact (proj1 (task_without_row_is_noop (fun _ => Ok ("suspicious", 0.84))
                  (fun _ => Ok stub_image_result) "gone" "pdf/gone.pdf" 200
                  (world_of [completed_pdf]) eq_refl)).
Defined.

(** A PDF sent to [POST /upload]: the storage service cannot be built, the
    answer is 500 and the table stays empty. *)
Lemma upload_failure_adds_nothing_witness :
  fst (stub_upload stub_digest pdf_bytes "report.pdf" (world_of []))
  = Raise (HTTPException 500 "Failed to upload file") /\
  files (snd (stub_upload stub_digest pdf_bytes "report.pdf" (world_of []))) = [].
Proof.
  split; [reflexivity|].
  exact (proj1 (upload_failure_adds_nothing stub_digest
                  (fun _ => Ok (Some "application/pdf")) (fun _ => None)
                  stub_uuid4 stub_storage (fun _ _ => Ok 200%Z)
                  pdf_bytes "report.pdf" (world_of []) _ eq_refl)).
Defined.

(** A PDF sent to [POST /public/upload] on the empty table, then asked
    for: it was stored locally, under the second uuid drawn. *)
Lemma public_upload_then_status_witness :
  (query_by_file_hash (world_of []) (stub_digest pdf_bytes) = None /\
   fst (stub_public_upload stub_digest pdf_bytes "report.pdf"
          (Some "application/pdf")
          (world_of []))
   = Ok [ ("message", VStr "File uploaded successfully");
          ("file_hash", VStr (stub_digest pdf_bytes));
          ("file_id", VStr "uuid-1");
          ("ready_for_analysis", VBool true);
          ("analysis_started", VBool true);
          ("storage", VStr "local") ]) /\
  exists fid,
    In ("file_id", VStr fid)
       [ ("message", VStr "File uploaded successfully");
         ("file_hash", VStr (stub_digest pdf_bytes));
         ("file_id", VStr "uuid-1");
         ("ready_for_analysis", VBool true);
         ("analysis_started", VBool true);
         ("storage", VStr "local") ] /\
    get_upload_status fid
      (snd (stub_public_upload stub_digest pdf_bytes "report.pdf"
              (Some "application/pdf") (world_of [])))
    = Ok {| sb_file_id := fid;
            sb_filename := "report.pdf";
            sb_file_type := _get_file_type "report.pdf" "application/pdf";
            sb_analysis_status := "pending";
            sb_verdict := None;
            sb_confidence_score := None;
            sb_analysis_date := None |} /\
    _get_file_type "report.pdf" "application/pdf" <> "unknown" /\
    get_upload_status fid (world_of [])
    = Raise (HTTPException 404 "File not found").
Proof.
  split; [split; reflexivity|].
  exact (public_upload_then_status stub_digest stub_uuid4 stub_storage
           (fun _ _ => Ok 200%Z) (Ok tt) (fun _ _ => Ok tt)
           pdf_bytes "report.pdf" (Some "application/pdf") (world_of []) _ _
           eq_refl eq_refl).
Defined.

(** The table of the fixtures has unique file ids, and keeps them unique
    through a public upload, which adds a row. *)
Lemma file_ids_stay_unique_witness :
  unique_file_ids (world_of [completed_pdf; processing_pdf]) /\
  unique_file_ids
    (snd (stub_public_upload stub_digest pdf_bytes "report.pdf"
            (Some "application/pdf")
            (world_of [completed_pdf; processing_pdf]))).
Proof.
  assert (Hu : unique_file_ids (world_of [completed_pdf; processing_pdf])).
  { unfold unique_file_ids. cbn.
    repeat constructor; cbn; intuition discriminate. }
  split; [exact Hu|].
  exact (proj1 (proj2
                  (file_ids_stay_unique stub_digest
                     (fun _ => Ok (Some "application/pdf")) (fun _ => None)
                     stub_uuid4 stub_storage (fun _ _ => Ok 200%Z)
                     (Ok tt) (fun _ _ => Ok tt)
                     (fun _ => Ok ("suspicious", 0.84))
                     (fun _ => Ok stub_image_result)
                     (world_of [completed_pdf; processing_pdf]) Hu))
               pdf_bytes "report.pdf" (Some "application/pdf")).
Defined.

(** A new PDF through the public route, then an analysis request for it:
    two tasks for the one file. *)
Lemma public_upload_then_analyze_witness :
  (query_by_file_hash (world_of []) (stub_digest pdf_bytes) = None /\
   _get_file_type "report.pdf" "application/pdf" = "pdf") /\
  exists f,
    files (snd (stub_public_upload stub_digest pdf_bytes "report.pdf"
                  (Some "application/pdf") (world_of [])))
    = ([] ++ [f])%list /\
    map task_fn
      (background_tasks
         (snd (analyze_pdf (file_id f)
                 (snd (stub_public_upload stub_digest pdf_bytes "report.pdf"
                         (Some "application/pdf") (world_of []))))))
    = [fn_run_public_pdf_analysis; fn_run_pdf_analysis].
Proof.
  split; [split; reflexivity|].
  destruct (public_upload_then_analyze stub_digest stub_uuid4 stub_storage
              (fun _ _ => Ok 200%Z) (Ok tt) (fun _ _ => Ok tt)
              pdf_bytes "report.pdf" (Some "application/pdf") (world_of [])
              _ _ eq_refl eq_refl eq_refl)
    as (f & H1 & _ & _ & _ & _ & H6).
  exists f. split; [exact H1|].
  exact (eq_trans (f_equal (map task_fn) H6) eq_refl).
Defined.

(** The same bytes twice through [POST /public/upload], as [report.pdf]
    and as [copy.pdf] without a content type: one row. *)
Lemma public_upload_twice_witness :
  (fst (stub_public_upload stub_digest pdf_bytes "report.pdf"
          (Some "application/pdf")
          (world_of []))
   = Ok [ ("message", VStr "File uploaded successfully");
          ("file_hash", VStr (stub_digest pdf_bytes));
          ("file_id", VStr "uuid-1");
          ("ready_for_analysis", VBool true);
          ("analysis_started", VBool true);
          ("storage", VStr "local") ] /\
   _get_file_type "copy.pdf" "" <> "unknown") /\
  exists f,
    fst (stub_public_upload stub_digest pdf_bytes "copy.pdf" None
           (snd (stub_public_upload stub_digest pdf_bytes "report.pdf"
                   (Some "application/pdf") (world_of []))))
    = Ok [ ("message", VStr "File already uploaded");
           ("file_id", VStr (file_id f));
           ("file_hash", VStr (stub_digest pdf_bytes));
           ("status", VStr (analysis_status f));
           ("cached", VBool true) ] /\
    files (snd (stub_public_upload stub_digest pdf_bytes "copy.pdf" None
                  (snd (stub_public_upload stub_digest pdf_bytes "report.pdf"
                          (Some "application/pdf") (world_of [])))))
    = files (snd (stub_public_upload stub_digest pdf_bytes "report.pdf"
                    (Some "application/pdf") (world_of []))).
Proof.
  split; [split; [reflexivity|discriminate]|].
  destruct (public_upload_twice stub_digest stub_uuid4 stub_storage
              (fun _ _ => Ok 200%Z) (Ok tt) (fun _ _ => Ok tt)
              pdf_bytes "report.pdf" "copy.pdf" (Some "application/pdf") None
              (world_of []) _ _ eq_refl)
    as (f & _ & _ & _ & _ & H5 & H6 & _); [discriminate|].
  exists f. split; [exact H5|exact H6].
Defined.

(** The same bytes through [POST /public/upload] when a row with their
    digest exists. *)
Lemma public_upload_reuses_witness :
  (query_by_file_hash
     (snd (stub_public_upload stub_digest pdf_bytes "report.pdf"
             (Some "application/pdf") (world_of [])))
     (stub_digest pdf_bytes) <> None /\
   _get_file_type "copy.pdf" "" <> "unknown") /\
  List.length
    (files (snd (stub_public_upload stub_digest pdf_bytes "copy.pdf" None
                   (snd (stub_public_upload stub_digest pdf_bytes "report.pdf"
                           (Some "application/pdf") (world_of []))))))
  = 1%nat.
Proof.
  split; [split; discriminate|].
  pose proof (public_upload_reuses stub_digest stub_uuid4 stub_storage
                (fun _ _ => Ok 200%Z) (Ok tt) (fun _ _ => Ok tt)
                pdf_bytes "copy.pdf" None
                (snd (stub_public_upload stub_digest pdf_bytes "report.pdf"
                        (Some "application/pdf") (world_of [])))
                _ eq_refl) as H.
  assert (Ht : _get_file_type "copy.pdf" "" <> "unknown") by discriminate.
  specialize (H Ht). unfold stub_public_upload at 1.
  destruct (public_upload_file _ _ _ _ _ _ _ _ _ _) as [r w'].
  destruct H as (_ & Hf & _). cbn [snd]. now rewrite Hf.
Defined.

End RouteInstances.

(* ================================================================== *)
(** * More about the PDF scan *)
(* ================================================================== *)

Section PdfScanFacts.
Import PDFForensicsService PdfScan Reference.
Import Backend (nonempty).

Lemma nonempty_snoc (s : string) (c : ascii) : nonempty (snoc s c) = true.
Proof. destruct s; reflexivity. Qed.

Lemma no_space_snoc (s : string) (c : ascii) :
  no_space s = true -> is_space c = false -> no_space (snoc s c) = true.
Proof.
  intros Hs Hc. unfold snoc. induction s as [|a s IH].
  - cbn. now rewrite Hc.
  - cbn [no_space String.append] in *.
    apply andb_true_iff in Hs as [Ha Hs]. now rewrite Ha, IH.
Qed.

(** Every piece [split] returns is non-empty and free of blanks. *)
Lemma split_ws_tokens (s cur : string) :
  no_space cur = true ->
  Forall (fun t => no_space t = true /\ nonempty t = true) (split_ws cur s).
Proof.
  revert cur. induction s as [|c r IH]; intros cur Hcur; cbn.
  - destruct (nonempty cur) eqn:E; repeat constructor; auto.
  - destruct (is_space c) eqn:Hc.
    + destruct (nonempty cur) eqn:E; [constructor; [auto|]|]; now apply IH.
    + apply IH. now apply no_space_snoc.
Qed.

Lemma snoc_append (cur : string) (c : ascii) (r : string) :
  (snoc cur c ++ r)%string = (cur ++ String c r)%string.
Proof. unfold snoc. induction cur as [|a cur IH]; cbn; congruence. Qed.

(** A piece without blanks is split into itself. *)
Lemma split_ws_token (t cur : string) :
  no_space t = true -> nonempty (cur ++ t) = true ->
  split_ws cur t = [(cur ++ t)%string].
Proof.
  revert cur. induction t as [|c r IH]; intros cur Ht Hne; cbn in *.
  - assert (E : (cur ++ "")%string = cur)
      by (clear; induction cur; cbn; congruence).
    rewrite E in *. now rewrite Hne.
  - apply andb_true_iff in Ht as [Hc Hr].
    apply negb_true_iff in Hc. rewrite Hc, <- snoc_append.
    apply IH; [exact Hr|]. rewrite snoc_append.
    destruct cur; reflexivity.
Qed.

Lemma split_of_token (t : string) :
  no_space t = true -> nonempty t = true -> split t = [t].
Proof. intros H1 H2. unfold split. now rewrite (split_ws_token t "" H1 H2). Qed.


Lemma dict_set_zero (d : list (string * Z)) (k : string) :
  Forall (fun kv => snd kv = 0%Z) d ->
  Forall (fun kv => snd kv = 0%Z) (dict_set d k 0).
Proof.
  induction 1 as [|[k' v'] r Hx Hr IH]; cbn.
  - repeat constructor.
  - destruct (String.eqb k' k); constructor; auto.
Qed.

Lemma dict_set_keys (d : list (string * Z)) (k : string) (v : Z) (t : string) :
  In t (map fst (dict_set d k v)) <-> In t (map fst d) \/ t = k.
Proof.
  induction d as [|[k' v'] r IH]; cbn.
  - intuition.
  - destruct (String.eqb k' k) eqn:E; cbn.
    + apply String.eqb_eq in E. subst k'. intuition.
    + rewrite IH. intuition.
Qed.


(** What the loop has recorded after a list of types. *)
Lemma fold_record_type (ts : list string) (st : ParseState) :
  let st' := fold_left record_type ts st in
  total_objects st' = total_objects st /\
  suspicious_objects st'
  = (suspicious_objects st
       ++ map listed_object (filter _is_suspicious_object ts))%list /\
  security_flags st'
  = (security_flags st
       ++ map high_risk_flag
            (filter (fun t => _is_suspicious_object t
                              && String.eqb (_get_risk_level t) "high") ts))%list /\
  (Forall (fun kv => snd kv = 0%Z) (objects st) ->
   Forall (fun kv => snd kv = 0%Z) (objects st')) /\
  (forall t, In t (map fst (objects st'))
             <-> In t (map fst (objects st)) \/ In t ts).
Proof.
  revert st. induction ts as [|t ts IH]; intros st; cbn [fold_left filter].
  - cbv zeta. cbn [map]. rewrite !app_nil_r.
    repeat split; auto; cbn [In]; tauto.
  - destruct (IH (record_type st t)) as (I1 & I2 & I3 & I4 & I5).
    cbv zeta. rewrite I1, I2, I3. clear I1 I2 I3.
    cbn [record_type total_objects suspicious_objects security_flags objects] in *.
    split; [apply Z.add_0_r|]. split; [|split; [|split]].
    + unfold append. destruct (_is_suspicious_object t); cbn [map];
        [rewrite <- app_assoc|]; reflexivity.
    + unfold append, high_risk_flag.
      destruct (_is_suspicious_object t && String.eqb (_get_risk_level t) "high");
        cbn [map]; [rewrite <- app_assoc|]; reflexivity.
    + intros H. apply I4. now apply dict_set_zero.
    + intros x. rewrite I5, dict_set_keys. cbn [In]. intuition.
Qed.

Variable int_of_str : string -> exn Z.

(** One line of the report records at most one type, with count 0. *)
Lemma parse_line_spec (st : ParseState) (line : string) :
  parse_line int_of_str st line = Ok (fold_left record_type (line_types line) st).
Proof.
  unfold parse_line, line_types.
  destruct (startswith line "obj "); [|reflexivity].
  pose proof (split_ws_tokens line "" eq_refl) as Htok. fold (split line) in Htok.
  destruct (split line) as [|p0 [|p1 rest]] eqn:Hparts; cbn [List.length Nat.leb];
    try reflexivity.
  cbn [index nth_error Py.bind].
  inversion Htok as [|? ? [Hn0 He0] _]; subst.
  rewrite (split_of_token p0 Hn0 He0).
  cbn [List.length Nat.ltb Nat.leb Py.bind fold_left].
  unfold record_type.
  destruct (_is_suspicious_object p1); reflexivity.
Qed.

Lemma parse_lines_spec (lines : list string) (st : ParseState) :
  parse_lines int_of_str st lines
  = Ok (fold_left record_type (flat_map line_types lines) st).
Proof.
  revert st. induction lines as [|l rest IH]; intros st; cbn [parse_lines flat_map].
  - reflexivity.
  - rewrite parse_line_spec. cbn [Py.bind]. rewrite IH, fold_left_app. reflexivity.
Qed.

Lemma parse_pdfid_output_spec (output : string) :
  _parse_pdfid_output int_of_str output
  = Ok (fold_left record_type (listed_types output)
          {| objects := []; suspicious_objects := [];
             total_objects := 0; security_flags := [] |}).
Proof. unfold _parse_pdfid_output. now rewrite parse_lines_spec. Qed.


Lemma prefix_lower (p s : string) :
  String.prefix p s = true -> String.prefix (lower p) (lower s) = true.
Proof.
  revert s. induction p as [|a p IH]; intros [|b s]; cbn; try discriminate; auto.
  destruct (ascii_dec a b) as [->|Hab]; [|discriminate].
  intros H. destruct (ascii_dec (lower_char b) (lower_char b)); [auto|congruence].
Qed.

Lemma contains_lower (s p : string) :
  contains s p = true -> contains (lower s) (lower p) = true.
Proof.
  induction s as [|c s IH]; cbn [contains lower]; intros H;
    apply orb_true_iff in H as [H|H]; try discriminate.
  - apply prefix_lower in H. change (lower "") with "" in H. now rewrite H.
  - apply prefix_lower in H.
    change (lower (String c s)) with (String (lower_char c) (lower s)) in H.
    now rewrite H.
  - rewrite (IH H). apply orb_true_r.
Qed.

Lemma suspicious_of_contains (t p : string) :
  In p (List.concat (map snd suspicious_patterns)) ->
  contains t p = true -> _is_suspicious_object t = true.
Proof.
  intros Hin Hc. apply contains_lower in Hc.
  unfold _is_suspicious_object.
  apply in_concat in Hin as (l & Hl & Hp).
  apply in_map_iff in Hl as (cat & <- & Hcat).
  apply existsb_exists. exists cat. split; [exact Hcat|].
  apply existsb_exists. exists p. now split.
Qed.

(** Whatever [_get_risk_level] rates high or medium, [_is_suspicious_object]
    accepts: a type that is not suspicious is always rated low.  The converse
    fails, because the two functions do not compare alike:
    [_is_suspicious_object] ignores case and [_get_risk_level] does not, so a
    lower-case [/javascript] is suspicious but rated low, as the three media
    types are by design. *)
Theorem risk_level_implies_suspicious (obj_type : string) :
  (_get_risk_level obj_type <> "low" -> _is_suspicious_object obj_type = true) /\
  (_is_suspicious_object obj_type = false -> _get_risk_level obj_type = "low") /\
  (_get_risk_level obj_type = "high" \/ _get_risk_level obj_type = "medium"
   \/ _get_risk_level obj_type = "low") /\
  (_is_suspicious_object "/javascript" = true /\
   _get_risk_level "/javascript" = "low" /\
   _get_risk_level "/JavaScript" = "high").
Proof.
  assert (H : _get_risk_level obj_type <> "low" ->
              _is_suspicious_object obj_type = true).
  { unfold _get_risk_level.
    match goal with |- context [if ?c then _ else _] => destruct c eqn:Eh end.
    - intros _. unfold any_in in Eh. apply existsb_exists in Eh as (p & Hin & Hc).
      apply (suspicious_of_contains obj_type p); [|exact Hc].
      cbn in Hin. cbn. intuition (subst; auto 20).
    - match goal with |- context [if ?c then _ else _] => destruct c eqn:Em end;
        [|intros Hc; now contradiction Hc].
      intros _. unfold any_in in Em. apply existsb_exists in Em as (p & Hin & Hc).
      apply (suspicious_of_contains obj_type p); [|exact Hc].
      cbn in Hin. cbn. intuition (subst; auto 20). }
  repeat split; auto.
  - intros Hn. destruct (string_dec (_get_risk_level obj_type) "low"); [auto|].
    rewrite H in Hn by assumption. discriminate.
  - unfold _get_risk_level.
    destruct (any_in _ obj_type); [now left|].
    destruct (any_in _ obj_type); [right; now left|right; now right].
Qed.

End PdfScanFacts.

(* ================================================================== *)
(** * More about the PDF verdict *)
(* ================================================================== *)

Section PdfVerdictFacts.
Import PDFForensicsService PdfScan PdfMeta Reference.
Import Backend (nonempty).

Lemma sumZ_weights_bounds {A} (level : A -> string) (l : list A) :
  (Z.of_nat (List.length l)
   <= sumZ (map (fun x => weight_of_level (level x)) l)
   <= 3 * Z.of_nat (List.length l))%Z.
Proof.
  induction l as [|x l IH]; cbn [map sumZ List.length]; [lia|].
  pose proof (weight_of_level_bounds (level x)). lia.
Qed.

(** Score and number of indicators of any combined analysis. *)
Lemma combined_bounds (pdfid : PdfidResults) (pike : PikepdfResults) :
  let c := _combine_analysis_results pdfid pike in
  let s := risk_score (summary c) in
  let n := len (risk_indicators (summary c)) in
  (0 <= n <= s)%Z /\ (s <= 3 * n)%Z.
Proof.
  intros c s n. destruct (combine_summary pdfid pike) as [Hs Hn].
  fold c in Hs, Hn. fold s in Hs. fold n in Hn. rewrite Hs, Hn. unfold len.
  pose proof (sumZ_weights_bounds risk_level (get_suspicious_objects pdfid)).
  pose proof (sumZ_weights_bounds severity (get_anomalies pike)).
  lia.
Qed.

(** Every finding counts between 1 and 3: the risk score of a combined
    analysis lies between the number of its risk indicators and three times
    that number; the number of indicators is the number of findings of the
    three kinds; and the score is 0 exactly when there is no finding. *)
Theorem risk_score_between_indicators (pdfid : PdfidResults) (pike : PikepdfResults) :
  let c := _combine_analysis_results pdfid pike in
  let s := risk_score (summary c) in
  let n := len (risk_indicators (summary c)) in
  (n <= s <= 3 * n)%Z /\
  n = (len (get_suspicious_objects pdfid) + len (get_anomalies pike)
       + len (get_suspicious_elements pike))%Z /\
  (s = 0 <-> n = 0)%Z /\
  total_suspicious_objects (summary c) = len (get_suspicious_objects pdfid) /\
  total_anomalies (summary c) = len (get_anomalies pike).
Proof.
  intros c s n.
  destruct (combined_bounds pdfid pike) as [H1 H2]. fold c in H1, H2.
  fold s in H1, H2. fold n in H1, H2.
  destruct (combine_summary pdfid pike) as [_ Hn]. fold c in Hn. fold n in Hn.
  repeat split; try lia; try exact Hn.
  - unfold c, _combine_analysis_results.
    now destruct (fold_left element_step _ _).
  - unfold c, _combine_analysis_results.
    now destruct (fold_left element_step _ _).
Qed.

(** The verdict of a combined analysis is authentic exactly when its risk
    score is below 2, that is with no finding (confidence 0.9) or one finding
    of the lowest weight (confidence 0.8); the floor 0.7 of the formula is
    never reached.  From score 2 on, so from a single medium or high finding
    or any two findings, the verdict is suspicious. *)
Theorem verdict_authentic_iff (pdfid : PdfidResults) (pike : PikepdfResults) :
  let c := _combine_analysis_results pdfid pike in
  let s := risk_score (summary c) in
  (s = 0%Z -> _determine_verdict c = ("authentic", 0.9)) /\
  (s = 1%Z -> _determine_verdict c = ("authentic", 0.8)) /\
  ((2 <= s)%Z -> fst (_determine_verdict c) = "suspicious") /\
  (fst (_determine_verdict c) = "authentic" <-> (s < 2)%Z).
Proof.
  intros c s.
  destruct (combined_bounds pdfid pike) as [H1 H2]. fold c in H1, H2.
  fold s in H1, H2.
  set (n := len (risk_indicators (summary c))) in *.
  assert (A0 : s = 0%Z -> _determine_verdict c = ("authentic", 0.9)).
  { intros Hs. unfold _determine_verdict. fold s. fold n.
    assert (n = 0%Z) as -> by lia. rewrite Hs. reflexivity. }
  assert (A1 : s = 1%Z -> _determine_verdict c = ("authentic", 0.8)).
  { intros Hs. unfold _determine_verdict. fold s. fold n.
    assert (n = 0 \/ n = 1)%Z as [-> | ->] by lia; rewrite Hs; reflexivity. }
  assert (A2 : (2 <= s)%Z -> fst (_determine_verdict c) = "suspicious").
  { intros Hs. unfold _determine_verdict, verdict_of. fold s. fold n.
    rewrite !Z.geb_leb.
    destruct ((8 <=? s)%Z || (5 <=? n)%Z); [reflexivity|].
    destruct ((4 <=? s)%Z || (2 <=? n)%Z); [reflexivity|].
    assert ((2 <=? s)%Z = true) as -> by lia. reflexivity. }
  repeat split; auto.
  - intros Ha. destruct (Z_lt_le_dec s 2) as [|Hge]; [assumption|].
    rewrite (A2 Hge) in Ha. discriminate.
  - intros Hlt. assert (s = 0 \/ s = 1)%Z as [E|E] by lia.
    + now rewrite (A0 E).
    + now rewrite (A1 E).
Qed.

Variable strptime : string -> string -> option datetime.

Lemma time_check_cases (c m : string) :
  time_check strptime c m = Ok [] \/
  time_check strptime c m = Ok [time_anomaly] \/
  time_check strptime c m = Ok [time_suspicious] \/
  exists e, time_check strptime c m = Raise e.
Proof.
  unfold time_check.
  destruct (_parse_pdf_date strptime c) as [cd|]; [|now left].
  destruct (_parse_pdf_date strptime m) as [md|]; [|now left].
  destruct (dt_lt md cd) as [[|]|e]; cbn; [now (right; left)| |eauto].
  destruct (dt_sub md cd) as [d|e]; cbn; [|eauto].
  destruct (d <? 60000000)%Z; [right; right; now left|now left].
Qed.

Lemma time_part_cases (metadata : list (string * string)) :
  time_part strptime metadata = [] \/
  time_part strptime metadata = [time_anomaly] \/
  time_part strptime metadata = [time_suspicious].
Proof.
  unfold time_part.
  destruct (dict_get metadata "/CreationDate") as [c|]; [|now left].
  destruct (dict_get metadata "/ModDate") as [m|]; [|now left].
  destruct (time_check_cases c m) as [->|[->|[->|[e ->]]]]; auto.
Qed.

Lemma detect_anomalies_shape (metadata : list (string * string)) :
  exists rest,
    _detect_anomalies strptime metadata
    = (time_part strptime metadata ++ rest)%list /\
    (rest = [] \/ rest = [metadata_missing] \/
     exists raw, rest = [suspicious_producer raw]) /\
    (dict_get metadata "/Producer" = None ->
     dict_get metadata "/Creator" = None -> rest = [metadata_missing]) /\
    (forall raw, dict_get metadata "/Producer" = Some raw ->
       nonempty (lower raw) = true ->
       existsb (fun sp => contains (lower raw) sp) suspicious_producers = false ->
       rest = [suspicious_producer raw]).
Proof.
  assert (Et : match dict_get metadata "/CreationDate",
                     dict_get metadata "/ModDate" with
               | Some c, Some m =>
                   match time_check strptime c m with
                   | Ok found => ([] ++ found)%list
                   | Raise _ => []
                   end
               | _, _ => []
               end = time_part strptime metadata).
  { unfold time_part. destruct (dict_get metadata "/CreationDate"); [|reflexivity].
    destruct (dict_get metadata "/ModDate"); [|reflexivity].
    now destruct (time_check strptime _ _). }
  unfold _detect_anomalies, append. rewrite Et. clear Et.
  destruct (dict_get metadata "/Producer") as [raw|] eqn:Hp.
  - destruct (nonempty (lower raw)
              && negb (existsb (fun sp => contains (lower raw) sp)
                               suspicious_producers)) eqn:E.
    + exists [suspicious_producer raw]. repeat split; eauto; try discriminate.
      intros raw' [= <-] _ _. reflexivity.
    + exists []. rewrite app_nil_r. repeat split; auto; try discriminate.
      intros raw' [= <-] H1 H2. rewrite H1, H2 in E. discriminate.
  - destruct (dict_get metadata "/Creator") as [cr|] eqn:Hc; cbn.
    + exists []. rewrite app_nil_r. repeat split; auto; discriminate.
    + exists [metadata_missing]. repeat split; auto; discriminate.
Qed.

(** The metadata checks report at most two anomalies, at most one about the
    dates and at most one about the producer; the only high one is the
    modification date before the creation date; together they weigh at most
    5.  A missing producer and an unknown producer exclude each other. *)
Theorem detect_anomalies_bounds (metadata : list (string * string)) :
  let found := _detect_anomalies strptime metadata in
  (List.length found <= 2)%nat /\
  (sumZ (map (fun a => weight_of_level (severity a)) found) <= 5)%Z /\
  Forall (fun a => (severity a = "high" /\ an_type a = "time_anomaly")
                   \/ severity a = "medium") found /\
  (List.length (filter (fun a => String.eqb (an_type a) "time_anomaly"
                                 || String.eqb (an_type a) "time_suspicious")
                       found) <= 1)%nat /\
  (List.length (filter (fun a => String.eqb (an_type a) "metadata_missing"
                                 || String.eqb (an_type a) "suspicious_producer")
                       found) <= 1)%nat.
Proof.
  intros found. subst found.
  destruct (detect_anomalies_shape metadata) as (rest & -> & Hr & _).
  destruct (time_part_cases metadata) as [-> | [-> | ->]];
    destruct Hr as [-> | [-> | [raw ->]]]; cbn;
    repeat split; try lia;
    repeat (apply Forall_cons;
            [first [left; split; reflexivity | right; reflexivity]|]);
    apply Forall_nil.
Qed.


Variable int_of_str : string -> exn Z.
Variable pdfid_available : bool.
Variable run_pdfid : string -> Subprocess.
Variable pikepdf_open : string -> exn PdfDoc.
Variable unlink_if_exists : string -> exn unit.

Local Abbreviation service_analyze_pdf :=
  (analyze_pdf strptime int_of_str pdfid_available run_pdfid pikepdf_open
               unlink_if_exists).
Local Abbreviation service_verdict :=
  (analyze_pdf_verdict strptime int_of_str pdfid_available run_pdfid pikepdf_open
                       unlink_if_exists).

(** The ways PDFiD contributes no suspicious object: it is not installed,
    it times out, it cannot be started, it exits with an error, or it
    prints a report that lists no suspicious type. *)
Lemma pdfid_silent (p : string) :
  pdfid_available = false \/
  run_pdfid p = TimeoutExpired \/ run_pdfid p = FileNotFoundError \/
  (exists m, run_pdfid p = OtherError m) \/
  (exists code out err, run_pdfid p = Completed code out err /\ code <> 0%Z) \/
  (exists out err,
      run_pdfid p = Completed 0 out err /\
      filter _is_suspicious_object (listed_types out) = []) ->
  get_suspicious_objects
    (pdfid_results_of int_of_str pdfid_available run_pdfid p) = [].
Proof.
  unfold pdfid_results_of. intros Hp.
  destruct pdfid_available; [|reflexivity].
  destruct Hp as [Hp|[Hp|[Hp|[(m & Hp)|[(code & out & err & Hp & Hc)
                                       |(out & err & Hp & Hl)]]]]];
    try discriminate; rewrite Hp; cbn [_run_pdfid_analysis]; try reflexivity.
  - apply Z.eqb_neq in Hc. now rewrite Hc.
  - cbn [Z.eqb negb]. rewrite parse_pdfid_output_spec.
    destruct (fold_record_type (listed_types out)
                {| objects := []; suspicious_objects := [];
                   total_objects := 0; security_flags := [] |})
      as (_ & H2 & _).
    cbv zeta in H2. unfold results_of. cbn [get_suspicious_objects].
    rewrite H2, Hl. reflexivity.
Qed.

(** When neither tool reports anything, the analysis is the clean one. *)
Lemma analyze_pdf_blind (file_path : string) (e : exc) :
  is_cloud_path file_path = false ->
  pikepdf_open file_path = Raise e ->
  get_suspicious_objects
    (pdfid_results_of int_of_str pdfid_available run_pdfid file_path) = [] ->
  exists c,
    service_analyze_pdf file_path = Ok ("authentic", 0.9, c) /\
    risk_score (summary c) = 0%Z /\
    risk_indicators (summary c) = [] /\
    risk_explanation (summary c)
    = "No security risks detected. Document appears to be clean and legitimate.".
Proof.
  intros Hl Ho Hp. unfold analyze_pdf, fetch. rewrite Hl. cbn [Py.bind].
  rewrite Ho.
  assert (Hpk : exists m', _run_pikepdf_analysis strptime (Raise e) = PikepdfError m')
    by (destruct e; cbn; eauto).
  destruct Hpk as (m' & ->).
  unfold _combine_analysis_results, _determine_verdict. rewrite Hp.
  cbn. eexists. repeat split.
Qed.

(** A file that neither tool can read is declared authentic.  When pikepdf
    cannot open the stored file and PDFiD contributes nothing (it is
    missing, times out, fails, or lists no suspicious type), [analyze_pdf]
    does not raise: the pikepdf result is an error dictionary, the risk
    score is 0 and the verdict is authentic with confidence 0.9, and the
    background task completes the file with that verdict. *)
Theorem unreadable_pdf_is_authentic (file_path : string) (e : exc)
        (w : Backend.World) (fid : string) (f : Backend.File) (now : Z) :
  is_cloud_path file_path = false ->
  pikepdf_open file_path = Raise e ->
  (pdfid_available = false \/
   run_pdfid file_path = TimeoutExpired \/
   run_pdfid file_path = FileNotFoundError \/
   (exists m, run_pdfid file_path = OtherError m) \/
   (exists code out err,
       run_pdfid file_path = Completed code out err /\ code <> 0%Z) \/
   (exists out err,
       run_pdfid file_path = Completed 0 out err /\
       filter _is_suspicious_object (listed_types out) = [])) ->
  Backend.query_by_file_id w fid = Some f ->
  (exists c,
     service_analyze_pdf file_path = Ok ("authentic", 0.9, c) /\
     risk_score (summary c) = 0%Z /\
     risk_indicators (summary c) = [] /\
     risk_explanation (summary c)
     = "No security risks detected. Document appears to be clean and legitimate.") /\
  Backend.query_by_file_id
    (Backend.run_pdf_analysis service_verdict fid file_path now w) fid
  = Some (Backend.set_completed "authentic" 0.9 now f).
Proof.
  intros Hl Ho Hp Hq.
  destruct (analyze_pdf_blind file_path e Hl Ho (pdfid_silent file_path Hp))
    as (c & Hc & H1 & H2 & H3).
  split; [now exists c|].
  unfold Backend.run_pdf_analysis, analyze_pdf_verdict. rewrite Hc, Hq.
  unfold Backend.add_report.
  exact (query_after_completion w fid f "authentic" 0.9 now _ Hq).
Qed.

End PdfVerdictFacts.

Section PdfInstances.
Import PDFForensicsService PdfScan PdfMeta Backend Fixtures.


(** A file pikepdf refuses, with a PDFiD report that lists nothing, for
    the PDF that is being processed. *)
Lemma unreadable_pdf_is_authentic_witness :
  (query_by_file_id (world_of [processing_pdf]) "f-2" = Some processing_pdf /\
   is_cloud_path "uploads/f-2.pdf" = false /\
   filter _is_suspicious_object (listed_types pdfid_report) = []) /\
  query_by_file_id
    (run_pdf_analysis
       (analyze_pdf_verdict (fun _ _ => None) (fun _ => Ok 0%Z) true
          (fun _ => Completed 0 pdfid_report "")
          (fun _ => Raise (Exception "unable to find trailer dictionary"))
          (fun _ => Ok tt))
       "f-2" "uploads/f-2.pdf" 200 (world_of [processing_pdf]))
    "f-2"
  = Some (set_completed "authentic" 0.9 200 processing_pdf).
Proof.
  split; [repeat split|].
  exact (proj2 (unreadable_pdf_is_authentic
                  (fun _ _ => None) (fun _ => Ok 0%Z) true
                  (fun _ => Completed 0 pdfid_report "")
                  (fun _ => Raise (Exception "unable to find trailer dictionary"))
                  (fun _ => Ok tt)
                  "uploads/f-2.pdf"
                  (Exception "unable to find trailer dictionary")
                  (world_of [processing_pdf]) "f-2" processing_pdf 200
                  eq_refl eq_refl
                  (or_intror (or_intror (or_intror (or_intror (or_intror
                     (ex_intro _ pdfid_report
                        (ex_intro _ "" (conj eq_refl eq_refl))))))))
                  eq_refl)).
Defined.

End PdfInstances.
